(** * exp_utils.py: data preparation and the experiment harness

    A shallow embedding of [checkpoint3/exp_utils.py] (classes
    [DataProcessor] and [Experiment]) and the properties its specification
    states about it.

    Conventions.
    - Python exceptions are values of [exn]; a call that may raise returns
      [res A].
    - Code that mutates objects runs in the state monad [M S], whose state
      survives an exception, as a Python object does.
    - A [float] is read as an exact rational ([Q]); no property below
      depends on rounding.
    - Library calls whose body is not part of this repository (sklearn,
      shap, dalex, goodpoints, scipy, numpy's generator, the wall clock)
      are fields of interface classes, one per library. *)

From Stdlib Require Import ZArith QArith Qabs Qminmax Qround Qcanon Qcabs String List
  Permutation.
From stdpp Require Import base option list gmap strings pretty sorting.

Set Warnings "-clear-no-such-hyp".

Local Open Scope string_scope.
Local Open Scope Z_scope.
Local Open Scope list_scope.

(** ** Python results and the state monad *)

Module Py.

Inductive exn :=
| AssertionError (msg : string)
| KeyError (key : string)
| IndexError
| ValueError (msg : string)
| AttributeError (msg : string)
| TypeError (msg : string).

Inductive res (A : Type) :=
| Ok (a : A)
| Raise (e : exn).
Arguments Ok {A} a.
Arguments Raise {A} e.

Definition is_ok {A} (r : res A) : bool :=
  match r with Ok _ => true | Raise _ => false end.

Definition rbind {A B} (r : res A) (k : A -> res B) : res B :=
  match r with Ok a => k a | Raise e => Raise e end.

(** A computation over a mutable state [S]; the state is returned on both
    outcomes. *)
Definition M (S A : Type) : Type := S -> res A * S.

Definition ret {S A} (a : A) : M S A := fun s => (Ok a, s).
Definition raise {S A} (e : exn) : M S A := fun s => (Raise e, s).
Definition bind {S A B} (c : M S A) (k : A -> M S B) : M S B :=
  fun s => match c s with
           | (Ok a, s') => k a s'
           | (Raise e, s') => (Raise e, s')
           end.
Definition get {S} : M S S := fun s => (Ok s, s).
Definition modify {S} (f : S -> S) : M S unit := fun s => (Ok tt, f s).
Definition lift {S A} (r : res A) : M S A := fun s => (r, s).

(** [assert cond, msg] *)
Definition assert {S} (cond : bool) (msg : string) : M S unit :=
  if cond then ret tt else raise (AssertionError msg).

(** [is not None] *)
Definition is_not_None {A} (o : option A) : bool :=
  match o with Some _ => true | None => false end.
Definition is_None {A} (o : option A) : bool := negb (is_not_None o).

(** Truth value of a list: [if xs:] *)
Definition truthy {A} (xs : list A) : bool :=
  match xs with [] => false | _ :: _ => true end.

End Py.
Import Py.

Declare Scope py_scope.
Delimit Scope py_scope with py.
Notation "'do' x <- c ; k" := (bind c (fun x => k))
  (at level 10, x name, c at level 100, k at level 200) : py_scope.
Notation "'do' ' p <- c ; k" := (bind c (fun x => match x with p => k end))
  (at level 10, p pattern, c at level 100, k at level 200) : py_scope.
Notation "c ;; k" := (bind c (fun _ => k))
  (at level 100, k at level 200, right associativity) : py_scope.
Notation "'let?' x := r 'in' k" := (rbind r (fun x => k))
  (at level 10, x name, r at level 100, k at level 200) : py_scope.
Local Open Scope py_scope.

(** ** A model of the pandas objects the code touches *)

Module Pandas.

(** Column labels: pandas accepts integers as well as strings, which is why
    the code coerces them with [astype(str)]. *)
Inductive label := LStr (s : string) | LInt (z : Z).

#[global] Instance label_eq_dec : EqDecision label.
Proof. solve_decision. Defined.

Definition str (l : label) : string :=
  match l with LStr s => s | LInt z => pretty z end.

Definition is_str (l : label) : bool :=
  match l with LStr _ => true | LInt _ => false end.

Inductive cell := NaN | Num (q : Q) | Str (s : string).

(** A column is either plain data or of [category] dtype, which pandas
    stores as its categories and one integer code per row ([-1] for a
    missing value). *)
Inductive column :=
| Plain (cells : list cell)
| Categorical (categories : list string) (codes : list Z).

Record DataFrame := mkDF {
  index : list Z;                       (* row labels *)
  columns : list (label * column)       (* in column order *)
}.

Definition labels (d : DataFrame) : list label := map fst (columns d).

(** [df.shape] *)
Definition nrows (d : DataFrame) : nat := length (index d).
Definition ncols (d : DataFrame) : nat := length (columns d).

Definition cell_notna (c : cell) : bool :=
  match c with NaN => false | _ => true end.

Definition notna (c : column) : list bool :=
  match c with
  | Plain cells => map cell_notna cells
  | Categorical _ codes => map (fun k => negb (k =? -1)) codes
  end.

(** Boolean-mask selection of rows. *)
Fixpoint mask {A} (m : list bool) (l : list A) : list A :=
  match m, l with
  | b :: m', x :: l' => if b then x :: mask m' l' else mask m' l'
  | _, _ => []
  end.

Definition mask_column (m : list bool) (c : column) : column :=
  match c with
  | Plain cells => Plain (mask m cells)
  | Categorical cats codes => Categorical cats (mask m codes)
  end.

Definition andb_all (m1 m2 : list bool) : list bool :=
  map (fun p => andb (fst p) (snd p)) (combine m1 m2).

(** [df.dropna()]: a new frame without the rows that have a missing value
    in some column. *)
Definition dropna (d : DataFrame) : DataFrame :=
  let keep := fold_left (fun m lc => andb_all m (notna (snd lc))) (columns d)
                        (map (fun _ => true) (index d)) in
  mkDF (mask keep (index d))
       (map (fun lc => (fst lc, mask_column keep (snd lc))) (columns d)).

Definition has_label (d : DataFrame) (l : label) : bool :=
  bool_decide (l ∈ labels d).

(** [df.drop(columns=ls)] / [df.drop(l, axis=1)]: a new frame without the
    columns so labelled; a label that is not there is a [KeyError]. *)
Definition drop (ls : list label) (d : DataFrame) : res DataFrame :=
  match List.find (fun l => negb (has_label d l)) ls with
  | Some l => Raise (KeyError (str l))
  | None =>
      Ok (mkDF (index d)
               (List.filter (fun lc => negb (bool_decide (fst lc ∈ ls)))
                            (columns d)))
  end.

(** [df[l]] for a single label: the column, when exactly one carries the
    label. With a duplicated label pandas returns a frame, which is not
    what the code goes on to use (a [.cat] accessor, a scalar minimum):
    that case ends here, as an error. *)
Definition getitem (d : DataFrame) (l : label) : res column :=
  match List.filter (fun lc => bool_decide (fst lc = l)) (columns d) with
  | [] => Raise (KeyError (str l))
  | [lc] => Ok (snd lc)
  | _ => Raise (AttributeError "DataFrame")
  end.

(** [df[[l]]]-like selection used for the label table: every column
    labelled [l], as a frame. *)
Definition select (d : DataFrame) (l : label) : res DataFrame :=
  match List.filter (fun lc => bool_decide (fst lc = l)) (columns d) with
  | [] => Raise (KeyError (str l))
  | cs => Ok (mkDF (index d) cs)
  end.

(** [s.cat.codes] *)
Definition cat_codes (c : column) : res column :=
  match c with
  | Categorical _ codes => Ok (Plain (map (fun k => Num (inject_Z k)) codes))
  | Plain _ =>
      Raise (AttributeError "Can only use .cat accessor with a 'category' dtype")
  end.

(** [df[l] = c]: overwrite the column in place, or append it. *)
Definition setitem (d : DataFrame) (l : label) (c : column) : DataFrame :=
  if has_label d l
  then mkDF (index d)
            (map (fun lc => if bool_decide (fst lc = l) then (l, c) else lc)
                 (columns d))
  else mkDF (index d) (columns d ++ [(l, c)]).

(** [df.columns = df.columns.astype(str)] *)
Definition columns_astype_str (d : DataFrame) : DataFrame :=
  mkDF (index d) (map (fun lc => (LStr (str (fst lc)), snd lc)) (columns d)).

(** Positional indexing with Python's negative indices. *)
Definition py_index {A} (l : list A) (i : Z) : res A :=
  let n := Z.of_nat (length l) in
  let j := if i <? 0 then i + n else i in
  if (j <? 0) || (n <=? j) then Raise IndexError
  else match l !! Z.to_nat j with
       | Some x => Ok x
       | None => Raise IndexError
       end.

Fixpoint take_rows {A} (l : list A) (ids : list Z) : res (list A) :=
  match ids with
  | [] => Ok []
  | i :: ids' =>
      let? x := py_index l i in
      let? xs := take_rows l ids' in
      Ok (x :: xs)
  end.

Definition take_column (c : column) (ids : list Z) : res column :=
  match c with
  | Plain cells => let? r := take_rows cells ids in Ok (Plain r)
  | Categorical cats codes =>
      let? r := take_rows codes ids in Ok (Categorical cats r)
  end.

Fixpoint take_columns (cs : list (label * column)) (ids : list Z)
  : res (list (label * column)) :=
  match cs with
  | [] => Ok []
  | (l, c) :: cs' =>
      let? c' := take_column c ids in
      let? r := take_columns cs' ids in
      Ok ((l, c') :: r)
  end.

(** [df.iloc[ids]]: the rows at the given positions, in that order. *)
Definition iloc (d : DataFrame) (ids : list Z) : res DataFrame :=
  let? ix := take_rows (index d) ids in
  let? cs := take_columns (columns d) ids in
  Ok (mkDF ix cs).

(** Cell of column [l] at position [i], when both exist. *)
Definition column_cells (c : column) : list cell :=
  match c with
  | Plain cells => cells
  | Categorical cats codes =>
      map (fun k => match cats !! Z.to_nat k with
                    | Some s => if k <? 0 then NaN else Str s
                    | None => NaN
                    end) codes
  end.

(** The cells of a frame, row by row. *)
Definition cells_by_row (d : DataFrame) : list (list cell) :=
  imap (fun i _ =>
          map (fun lc => default NaN (column_cells (snd lc) !! i)) (columns d))
       (index d).

End Pandas.
Import Pandas.

(** ** Library interfaces used by the data preparation *)

(** [pd.get_dummies(df, columns=cs)] *)
Class PandasLib := {
  get_dummies : DataFrame -> list label -> res DataFrame
}.

(** [sklearn.model_selection.train_test_split(X, y, test_size, random_state)],
    returning [X_train, X_test, y_train, y_test]. *)
Class Sklearn := {
  train_test_split :
    DataFrame -> DataFrame -> Q -> Z ->
    res (DataFrame * DataFrame * DataFrame * DataFrame)
}.

(** ** class DataProcessor *)

Module DataProcessor.

(** Data frames are objects: two names may refer to one frame, and an
    assignment to a column is seen through every name. The heap maps an
    object identity to the frame's current value. *)
Definition addr := nat.
Abbreviation heap := (list DataFrame).

Definition alloc (d : DataFrame) : M heap addr :=
  fun h => (Ok (length h), h ++ [d]).

Definition load (a : addr) : M heap DataFrame :=
  fun h => match h !! a with
           | Some d => (Ok d, h)
           | None => (Raise (AttributeError "NoneType"), h)
           end.

Definition store (a : addr) (d : DataFrame) : M heap unit :=
  modify (fun h => <[a:=d]> h).

Definition RANDOM_STATE : Z := 2137.
Definition TEST_SIZE : Q := 4 # 10.

Record t := mk {
  df : option addr;
  target : option label;
  test_size : Q;
  random_state : Z;
  to_drop : list label;
  to_cat : list label;
  to_one_hot : list label;
  dropna : bool;
  train_eq_test : bool;
  clean_df : option addr;
  X : option addr;
  y : option addr;
  X_train : option addr;
  X_test : option addr;
  y_train : option addr;
  y_test : option addr
}.

Definition set_clean_df (self : t) (v : option addr) : t :=
  mk (df self) (target self) (test_size self) (random_state self)
     (to_drop self) (to_cat self) (to_one_hot self) (dropna self)
     (train_eq_test self) v (X self) (y self)
     (X_train self) (X_test self) (y_train self) (y_test self).

Definition set_X_y (self : t) (vx vy : option addr) : t :=
  mk (df self) (target self) (test_size self) (random_state self)
     (to_drop self) (to_cat self) (to_one_hot self) (dropna self)
     (train_eq_test self) (clean_df self) vx vy
     (X_train self) (X_test self) (y_train self) (y_test self).

Definition set_split (self : t) (xtr xte ytr yte : option addr) : t :=
  mk (df self) (target self) (test_size self) (random_state self)
     (to_drop self) (to_cat self) (to_one_hot self) (dropna self)
     (train_eq_test self) (clean_df self) (X self) (y self)
     xtr xte ytr yte.

(** [pd.DataFrame(obj)]: a new frame object. *)
Definition pd_DataFrame (o : option addr) : M heap addr :=
  match o with
  | None => alloc (mkDF [] [])
  | Some a => do d <- load a; alloc d
  end.

(** Lines 59-61: the loop over [to_cat]. The assignment writes into the
    object [clean_df] names at that moment; [drop] then makes a new one. *)
Fixpoint convert_categories (cats : list label) (clean_df : addr)
  : M heap addr :=
  match cats with
  | [] => ret clean_df
  | cat :: rest =>
      do d <- load clean_df;
      do c <- lift (getitem d cat);
      do codes <- lift (cat_codes c);
      store clean_df (setitem d cat codes);;
      do d <- load clean_df;
      do d' <- lift (drop [cat] d);
      do clean_df <- alloc d';
      convert_categories rest clean_df
  end.

(** [__preprocess_data] *)
Definition preprocess_data `{PandasLib} (self : t) : M heap t :=
  match df self with
  | None =>
      do x <- pd_DataFrame (X self);
      do y <- pd_DataFrame (y self);
      do dx <- load x;
      store x (columns_astype_str dx);;
      do dy <- load y;
      store y (columns_astype_str dy);;
      ret (set_X_y self (Some x) (Some y))
  | Some a =>
      let clean_df := a in
      do clean_df <-
        (if truthy (to_drop self)
         then do d <- load clean_df;
              do d' <- lift (drop (to_drop self) d);
              alloc d'
         else ret clean_df);
      do clean_df <-
        (if dropna self
         then do d <- load clean_df; alloc (Pandas.dropna d)
         else ret clean_df);
      do clean_df <- convert_categories (to_cat self) clean_df;
      do clean_df <-
        (if truthy (to_one_hot self)
         then do d <- load clean_df;
              do d' <- lift (get_dummies d (to_one_hot self));
              alloc d'
         else ret clean_df);
      do d <- load clean_df;
      store clean_df (columns_astype_str d);;
      ret (set_clean_df self (Some clean_df))
  end.

Definition load_opt (o : option addr) : M heap DataFrame :=
  match o with
  | Some a => load a
  | None => raise (AttributeError "NoneType")
  end.

Definition target_label (self : t) : res label :=
  match target self with
  | Some l => Ok l
  | None => Raise (KeyError "None")
  end.

(** [__split_data] *)
Definition split_data `{Sklearn} (self : t) : M heap t :=
  do self <-
    (match X self with
     | None =>
         do d <- load_opt (clean_df self);
         do tg <- lift (target_label self);
         do dx <- lift (drop [tg] d);
         do x <- alloc dx;
         do dy <- lift (select d tg);
         do y <- alloc dy;
         ret (set_X_y self (Some x) (Some y))
     | Some _ => ret self
     end);
  if train_eq_test self
  then ret (set_split self (X self) (X self) (y self) (y self))
  else
    do dx <- load_opt (X self);
    do dy <- load_opt (y self);
    do parts <- lift (train_test_split dx dy (test_size self) (random_state self));
    let '(xtr, xte, ytr, yte) := parts in
    do a1 <- alloc xtr;
    do a2 <- alloc xte;
    do a3 <- alloc ytr;
    do a4 <- alloc yte;
    ret (set_split self (Some a1) (Some a2) (Some a3) (Some a4)).

(** The arguments of [__init__]; the defaults are those of the source. *)
Record args := mk_args {
  a_df : option addr;
  a_target : option label;
  a_X : option addr;
  a_y : option addr;
  a_test_size : Q;
  a_random_state : Z;
  a_to_drop : list label;
  a_to_cat : list label;
  a_to_one_hot : list label;
  a_dropna : bool;
  a_train_eq_test : bool
}.

Definition default_args : args :=
  mk_args None None None None TEST_SIZE RANDOM_STATE [] [] [] true false.

(** Line 22. *)
Definition input_mode_ok (a : args) : bool :=
  (is_not_None (a_df a) && is_not_None (a_target a))
  || (is_not_None (a_X a) && is_not_None (a_y a)).

(** Lines 24-40: the attributes as [__init__] first assigns them. *)
Definition initial (a : args) : t :=
  mk (a_df a) (a_target a) (a_test_size a) (a_random_state a)
     (a_to_drop a) (a_to_cat a) (a_to_one_hot a) (a_dropna a)
     (a_train_eq_test a) None (a_X a) (a_y a) None None None None.

(** [__init__] *)
Definition init `{PandasLib} `{Sklearn} (a : args) : M heap t :=
  assert (input_mode_ok a) "";;
  let self := initial a in
  do self <- preprocess_data self;
  split_data self.

(** Some input mode is complete: a table with its target, or features with
    labels. *)
Definition some_mode (a : args) : Prop :=
  (a_df a <> None /\ a_target a <> None) \/ (a_X a <> None /\ a_y a <> None).

End DataProcessor.

(** ** numpy arrays and the numeric helpers the harness calls *)

Module Numpy.

(** A two-dimensional array; the shape is kept apart from the rows, since
    an array without rows still has a column count. *)
Record ndarray := mkArr {
  shape0 : nat;
  shape1 : nat;
  rows : list (list cell)
}.

(** [a[:, i]] *)
Definition column_of (a : ndarray) (i : nat) : res (list cell) :=
  if (i <? shape1 a)%nat
  then Ok (map (fun r => default NaN (r !! i)) (rows a))
  else Raise IndexError.

(** [df.to_numpy()] *)
Definition to_numpy (d : DataFrame) : ndarray :=
  mkArr (nrows d) (ncols d) (cells_by_row d).

(** The values the explanation stages put in a metric bundle. *)
Inductive array :=
| Arr1 (a : list cell)                 (* one-dimensional array *)
| Arr2 (a : ndarray)
| Series (s : list (nat * Q)).         (* (row label, value) *)

(** [np.sum(qs)] over a Python list of floats. *)
Definition np_sum (qs : list Q) : Q := fold_left Qplus qs 0%Q.

Fixpoint sequence {A} (rs : list (res A)) : res (list A) :=
  match rs with
  | [] => Ok []
  | r :: rs' =>
      let? x := r in
      let? xs := sequence rs' in
      Ok (x :: xs)
  end.

(** The numeric cells of a column, for [min] and [max]. *)
Fixpoint numeric (cs : list cell) : res (list Q) :=
  match cs with
  | [] => Ok []
  | NaN :: cs' => numeric cs'
  | Num q :: cs' => let? qs := numeric cs' in Ok (q :: qs)
  | Str _ :: _ => Raise (TypeError "str")
  end.

Definition reduce (f : Q -> Q -> Q) (c : column) : res cell :=
  match c with
  | Categorical _ _ => Raise (TypeError "Categorical is not ordered")
  | Plain cs =>
      let? qs := numeric cs in
      match qs with
      | [] => Ok NaN
      | q :: qs' => Ok (Num (fold_left f qs' q))
      end
  end.

(** [s.min()], [s.max()] (missing values skipped). *)
Definition series_min : column -> res cell := reduce Qmin.
Definition series_max : column -> res cell := reduce Qmax.

(** [np.linspace(start, stop, num=num)]: [num] evenly spaced points, the
    last one set to [stop]. *)
Definition linspace_Q (start stop : Q) (num : nat) : list Q :=
  match num with
  | O => []
  | S O => [start]
  | S div =>
      let step := ((stop - start) / inject_Z (Z.of_nat div))%Q in
      map (fun i => (start + inject_Z (Z.of_nat i) * step)%Q) (seq 0 div)
      ++ [stop]
  end.

Definition linspace (start stop : cell) (num : Z) : res (list cell) :=
  if num <? 0
  then Raise (ValueError "Number of samples must be non-negative.")
  else match start, stop with
       | Num a, Num b => Ok (map Num (linspace_Q a b (Z.to_nat num)))
       | Str _, _ | _, Str _ => Raise (TypeError "str")
       | _, _ => Ok (repeat NaN (Z.to_nat num))
       end.

End Numpy.
Import Numpy.

(** ** scipy's one-dimensional Wasserstein distance

    [scipy.stats.wasserstein_distance(u, v)] as its [_cdf_distance] computes
    it for [p = 1] without weights: sort the pooled values, and sum, over
    consecutive pooled values, the gap between the two empirical
    distribution functions times the step. Values are canonical rationals,
    so that equal numbers are equal terms, as floats are. *)

Module Scipy.

#[global] Instance Qcle_dec (x y : Qc) : Decision (x <= y)%Qc.
Proof.
  destruct (Qle_bool x y) eqn:E.
  - left. by apply Qle_bool_iff.
  - right. intros H. apply Qle_bool_iff in H. congruence.
Defined.

Definition of_nat (n : nat) : Qc := Q2Qc (inject_Z (Z.of_nat n)).

(** [sorted(sample).searchsorted(x, 'right') / sample.size] *)
Definition cdf (sample : list Qc) (x : Qc) : Qc :=
  (of_nat (length (List.filter (fun y => bool_decide (y <= x)%Qc) sample))
   / of_nat (length sample))%Qc.

(** [np.sum(np.abs(u_cdf - v_cdf) * deltas)] over [all_values[:-1]]. *)
Fixpoint integral (u v all_values : list Qc) : Qc :=
  match all_values with
  | [] => 0%Qc
  | x :: rest =>
      match rest with
      | [] => 0%Qc
      | x' :: _ =>
          (Qcabs (cdf u x - cdf v x) * (x' - x) + integral u v rest)%Qc
      end
  end.

Fixpoint floats (cs : list cell) : res (list Qc) :=
  match cs with
  | [] => Ok []
  | Num q :: cs' => let? r := floats cs' in Ok (Q2Qc q :: r)
  | _ :: _ => Raise (ValueError "not a finite number")
  end.

Definition cdf_distance (u v : list cell) : res Q :=
  let? a := floats u in
  let? b := floats v in
  match a, b with
  | [], _ | _, [] => Raise (ValueError "Distribution can't be empty.")
  | _, _ => Ok (this (integral a b (merge_sort Qcle (a ++ b))))
  end.

End Scipy.

(** ** Library interfaces used by the harness *)

Inductive pyval :=
| PNone
| PInt (z : Z)
| PFloat (q : Q)
| PStr (s : string)
| PBool (b : bool)
| PGrid (variable : string) (grid : list cell).   (* {variable: grid} *)

(** A keyword-argument mapping. *)
Abbreviation params := (gmap string pyval).

(** One row of [model_parts(...).result]. *)
Record vi_row := mk_vi { variable : string; dropout_loss : Q }.

(** The results table: one (seed, row) per trial. *)
Abbreviation row := (gmap string Q).
Abbreviation results := (list (Z * row)).

(** Everything the harness reaches outside this repository. [world] stands
    for all state the libraries keep (numpy's global generator, the wall
    clock); a call that may touch it takes and returns the world. *)
Class Libs := {
  world : Type;
  model_t : Type;
  shap_exp_t : Type;
  masker_t : Type;
  dx_exp_t : Type;
  kernel_t : Type;
  (* time.time() *)
  time_time : world -> Q * world;
  (* model_class( **params) *)
  model_new : string -> params -> world -> res model_t * world;
  (* model.fit(X, y) *)
  model_fit : model_t -> DataFrame -> DataFrame -> world -> res model_t * world;
  (* shap_class(model, data=data, **params); the model attribute is passed
     as it is, None included *)
  shap_tree_new :
    string -> option model_t -> DataFrame -> params -> world ->
    res shap_exp_t * world;
  (* shap.maskers.Independent(data=X_train) *)
  shap_independent : DataFrame -> world -> res masker_t * world;
  (* shap_class(model.predict, masker, **params) *)
  shap_masked_new :
    string -> model_t -> masker_t -> params -> world -> res shap_exp_t * world;
  (* shap_exp(data).values *)
  shap_call_values : shap_exp_t -> DataFrame -> world -> res ndarray * world;
  (* np.absolute(a).mean(axis=0) *)
  np_absolute_mean0 : ndarray -> list cell;
  (* np.sum(np.abs(a - b)) *)
  np_sum_abs_diff : array -> array -> res Q;
  (* dalex_class(model, X, y, **params) *)
  dalex_new :
    string -> option model_t -> DataFrame -> DataFrame -> params -> world ->
    res dx_exp_t * world;
  (* dx_exp.model_parts( **kwargs).result *)
  model_parts : dx_exp_t -> params -> world -> res (list vi_row) * world;
  (* dx_exp.model_profile( **kwargs).result[['_yhat_']] *)
  model_profile : dx_exp_t -> params -> world -> res (list cell) * world;
  (* dx_exp.model_performance().result, a one-row table *)
  model_performance : dx_exp_t -> world -> res row * world;
  (* kt.thin(X, m, split_kernel, swap_kernel, store_K, seed, unique) *)
  kt_thin :
    ndarray -> Z -> kernel_t -> kernel_t -> bool -> Z -> bool -> world ->
    res (list Z) * world;
  (* compress.compress(X, halve, g) *)
  compress_compress :
    ndarray -> (ndarray -> world -> res (list Z) * world) -> Z -> world ->
    res (list Z) * world;
  (* np.random.seed(seed) *)
  np_random_seed : Z -> world -> world;
  (* np.random.permutation(n) *)
  np_random_permutation : nat -> world -> list nat * world;
  np_random_permutation_spec :
    forall n w, Permutation (fst (np_random_permutation n w)) (seq 0 n);
  (* scipy.stats.wasserstein_distance(u, v) *)
  wasserstein_distance : list cell -> list cell -> res Q;
  (* df.to_parquet(path) *)
  to_parquet : results -> string -> world -> res unit * world
}.

(** ** class Experiment *)

Module Experiment.
Section WithLibs.
Context `{L : Libs}.

(** What the harness reads from its [data_processor]. *)
Record dataset := mk_data {
  X_train : DataFrame;
  y_train : DataFrame;
  X_test : DataFrame;
  y_test : DataFrame
}.

(** The constructor's arguments, which no method reassigns. *)
Record config := mk_config {
  data_processor : dataset;
  model_class : string;
  model_params : params;
  shap_class : option string;
  is_tree : bool;
  shap_params : option params;
  dalex_class : option string;
  dalex_params : option params;
  pvi_params : option params;
  pdp_params : option params;
  ale_params : option params;
  pdp_domain : Z
}.

Inductive value :=
| VFrame (d : DataFrame)
| VShap (e : shap_exp_t)
| VArray (a : array)
| VDx (e : dx_exp_t).

(** A metric bundle: the dict [sample_metrics]. *)
Abbreviation bundle := (gmap string value).

Inductive printed :=
| PrShape (n p : nat)
| PrTable (t : row).

(** The attributes the methods assign ([times], [model], [base_metrics]),
    the world of the libraries, and two observers: the library entry
    points called so far and what was printed. *)
Record state := mk_state {
  w : world;
  times : gmap string Q;
  model : option model_t;
  base_metrics : option bundle;
  calls : list string;
  stdout : list printed
}.

Definition set_times (f : gmap string Q -> gmap string Q) : M state unit :=
  modify (fun s => mk_state (w s) (f (times s)) (model s) (base_metrics s)
                            (calls s) (stdout s)).

Definition set_model (m : option model_t) : M state unit :=
  modify (fun s => mk_state (w s) (times s) m (base_metrics s)
                            (calls s) (stdout s)).

Definition set_base_metrics (b : option bundle) : M state unit :=
  modify (fun s => mk_state (w s) (times s) (model s) b (calls s) (stdout s)).

Definition print (p : printed) : M state unit :=
  modify (fun s => mk_state (w s) (times s) (model s) (base_metrics s)
                            (calls s) (stdout s ++ [p])).

(** A call into a library, recorded under [name]. *)
Definition ext {A} (name : string) (f : world -> res A * world) : M state A :=
  fun s =>
    let (r, w') := f (w s) in
    (r, mk_state w' (times s) (model s) (base_metrics s)
                 (calls s ++ [name]) (stdout s)).

Definition ext_total {A} (name : string) (f : world -> A * world) : M state A :=
  ext name (fun w0 => let (a, w') := f w0 in (Ok a, w')).

(** [self.model.predict] *)
Definition self_model_predict : M state model_t :=
  do s <- get;
  match model s with
  | Some m => ret m
  | None => raise (AttributeError "'NoneType' object has no attribute 'predict'")
  end.

(** [**kwargs] needs a mapping. *)
Definition kwargs (o : option params) : res params :=
  match o with
  | Some p => Ok p
  | None => Raise (TypeError "argument after ** must be a mapping, not NoneType")
  end.

(** [dict.update] *)
Definition update {A} (d new : gmap string A) : gmap string A := new ∪ d.

(** [__create_train_model] *)
Definition create_train_model (c : config) : M state unit :=
  do m <- ext "model_class" (model_new (model_class c) (model_params c));
  set_model (Some m);;
  do m' <- ext "fit" (model_fit m (X_train (data_processor c))
                                  (y_train (data_processor c)));
  set_model (Some m').

(** [__timeit]: the elapsed time of [call] is stored under [name],
    replacing what was there. *)
Definition timeit {A} (name : string) (call : M state A) : M state A :=
  do st <- ext_total "time" time_time;
  do r <- call;
  do et <- ext_total "time" time_time;
  set_times (fun t => <[name := (et - st)%Q]> t);;
  ret r.

(** [__calc_shap] *)
Definition calc_shap (c : config) (data : DataFrame) (name : string)
  : M state bundle :=
  match shap_class c with
  | None => ret ∅
  | Some cls =>
      do e <-
        (if is_tree c
         then
           do s <- get;
           do ps <- lift (kwargs (shap_params c));
           ext "shap_class" (shap_tree_new cls (model s) data ps)
         else
           do masker <-
             ext "Independent"
                 (shap_independent (X_train (data_processor c)));
           do predict <- self_model_predict;
           do ps <- lift (kwargs (shap_params c));
           ext "shap_class" (shap_masked_new cls predict masker ps));
      do sv <- timeit name (ext "shap_exp" (shap_call_values e data));
      let svi := np_absolute_mean0 sv in
      ret (<["shap_exp" := VShap e]>
           (<["shap_sv" := VArray (Arr2 sv)]>
            (<["shap_svi" := VArray (Arr1 svi)]> ∅)))
  end.

(** [__get_dx] *)
Definition get_dx (c : config) (X y : DataFrame) : M state dx_exp_t :=
  match dalex_class c with
  | None => raise (TypeError "'NoneType' object is not callable")
  | Some cls =>
      do s <- get;
      do ps <- lift (kwargs (dalex_params c));
      ext "dalex_class" (dalex_new cls (model s) X y ps)
  end.

Definition synthetic (v : string) : bool :=
  bool_decide (v = "_baseline_") || bool_decide (v = "_full_model_").

(** [result.iloc[a:b]] on rows that carry their position as row label. *)
Definition iloc_slice {A} (a b : nat) (l : list A) : list A :=
  firstn (b - a) (skipn a l).

Definition le_variable (r1 r2 : nat * vi_row) : Prop :=
  String.leb (variable (snd r1)) (variable (snd r2)) = true.

#[global] Instance le_variable_dec r1 r2 : Decision (le_variable r1 r2).
Proof. unfold le_variable. apply _. Defined.

(** [.sort_values('variable')] *)
Definition sort_values_variable (l : list (nat * vi_row)) : list (nat * vi_row) :=
  merge_sort le_variable l.

(** Lines 162-163: the importance vector. *)
Definition pvi_of (result : list vi_row) (X : DataFrame) : list (nat * Q) :=
  map (fun r => (fst r, dropout_loss (snd r)))
      (sort_values_variable
         (iloc_slice 1 (ncols X) (imap (fun i r => (i, r)) result))).

(** Lines 164-165: [.variable.iloc[-1]] of the rows that are not synthetic. *)
Definition most_important (result : list vi_row) : res string :=
  match last (List.filter (fun r => negb (synthetic (variable r))) result) with
  | Some r => Ok (variable r)
  | None => Raise IndexError
  end.

(** [__calc_pvi] *)
Definition calc_pvi (c : config) (dx : dx_exp_t) (X : DataFrame) (name : string)
  : M state (bundle * option string * option (string * list cell)) :=
  match pvi_params c with
  | None => ret (∅, None, None)
  | Some ps =>
      do result <- timeit name (ext "model_parts" (model_parts dx ps));
      let pvi := pvi_of result X in
      do most_important_variable <- lift (most_important result);
      do col <- lift (getitem X (LStr most_important_variable));
      do lo <- lift (series_min col);
      do hi <- lift (series_max col);
      do grid <- lift (linspace lo hi (pdp_domain c));
      ret (<["pvi" := VArray (Series pvi)]> ∅,
           Some most_important_variable,
           Some (most_important_variable, grid))
  end.

(** [__calc_pdp_ale] *)
Definition calc_pdp_ale (dx : dx_exp_t) (ps : params)
    (most_important_variable : option string)
    (variable_splits : option (string * list cell)) (name : string)
  : M state value :=
  let kw :=
    <["variable_splits" := match variable_splits with
                           | Some (v, g) => PGrid v g
                           | None => PNone
                           end]>
    (<["variables" := match most_important_variable with
                      | Some v => PStr v
                      | None => PNone
                      end]> ps) in
  do yhat <- timeit name (ext "model_profile" (model_profile dx kw));
  ret (VArray (Arr2 (mkArr (length yhat) 1 (map (fun y => [y]) yhat)))).

(** [__calc_pdp] *)
Definition calc_pdp (c : config) (dx : dx_exp_t)
    (most_important_variable : option string)
    (variable_splits : option (string * list cell)) (name : string)
  : M state bundle :=
  match pdp_params c with
  | None => ret ∅
  | Some ps =>
      do v <- calc_pdp_ale dx ps most_important_variable variable_splits name;
      ret (<["pdp" := v]> ∅)
  end.

(** [__calc_ale] *)
Definition calc_ale (c : config) (dx : dx_exp_t)
    (most_important_variable : option string)
    (variable_splits : option (string * list cell)) (name : string)
  : M state bundle :=
  match ale_params c with
  | None => ret ∅
  | Some ps =>
      do v <- calc_pdp_ale dx ps most_important_variable variable_splits name;
      ret (<["ale" := v]> ∅)
  end.

(** [__calculate_metrics] *)
Definition calculate_metrics (c : config) (X y : DataFrame)
    (name_suffix : string) : M state bundle :=
  let sample_metrics : bundle := <["X" := VFrame X]> (<["y" := VFrame y]> ∅) in
  do sh <- calc_shap c X ("sv_" +:+ name_suffix);
  let sample_metrics := update sample_metrics sh in
  match dalex_class c with
  | None => ret sample_metrics
  | Some _ =>
      do dx_exp <- get_dx c X y;
      let sample_metrics := <["dx_exp" := VDx dx_exp]> sample_metrics in
      do r <- calc_pvi c dx_exp X ("pvi_" +:+ name_suffix);
      let '(pvi, most_important_variable, variable_splits) := r in
      let sample_metrics := update sample_metrics pvi in
      do pdp <- calc_pdp c dx_exp most_important_variable variable_splits
                         ("pdp_" +:+ name_suffix);
      let sample_metrics := update sample_metrics pdp in
      do ale <- calc_ale c dx_exp most_important_variable variable_splits
                         ("ale_" +:+ name_suffix);
      let sample_metrics := update sample_metrics ale in
      ret sample_metrics
  end.

(** [__calculate_baseline] *)
Definition calculate_baseline (c : config) : M state unit :=
  do b <- calculate_metrics c (X_test (data_processor c))
                            (y_test (data_processor c)) "all";
  set_base_metrics (Some b).

(** Lines 107-111. *)
Definition check_config (c : config) : M state unit :=
  assert (is_None (shap_class c) || is_not_None (shap_params c))
         "You can't pass shap_class without shap_params";;
  assert (is_None (dalex_class c) || is_not_None (dalex_params c))
         "You can't pass dalex_class without dalex_params";;
  assert (is_None (pvi_params c) || is_not_None (dalex_class c))
         "You can't pass pvi_params without dalex";;
  assert (is_None (pdp_params c) || is_not_None (pvi_params c))
         "You can't pass pdp_params without pvi";;
  assert (is_None (ale_params c) || is_not_None (pvi_params c))
         "You can't pass ale_params without pvi".

(** The state of a harness whose attributes were just initialised
    (lines 100-105), in a given world. *)
Definition fresh (w0 : world) : state := mk_state w0 ∅ None None [] [].

(** [__init__], run on a fresh object. *)
Definition init (c : config) : M state unit :=
  check_config c;;
  create_train_model c;;
  calculate_baseline c.

(** [compute_wasserstein_distance] (static). *)
Definition compute_wasserstein_distance (X X_compressed : ndarray)
  : M state Q :=
  print (PrShape (shape0 X) (shape1 X));;
  print (PrShape (shape0 X_compressed) (shape1 X_compressed));;
  do ds <- lift (sequence
                   (map (fun i =>
                           let? u := column_of X i in
                           let? v := column_of X_compressed i in
                           wasserstein_distance u v)
                        (seq 0 (shape1 X))));
  ret (np_sum ds).

(** [d[key]] *)
Definition item {A} (d : gmap string A) (key : string) : res A :=
  match d !! key with
  | Some v => Ok v
  | None => Raise (KeyError key)
  end.

Definition as_array (v : value) : res array :=
  match v with
  | VArray a => Ok a
  | _ => Raise (TypeError "unsupported operand type(s) for -")
  end.

Definition as_ndarray (v : value) : res ndarray :=
  match v with
  | VFrame d => Ok (to_numpy d)
  | VArray (Arr2 a) => Ok a
  | _ => Raise (AttributeError "shape")
  end.

Definition frame_numpy (v : value) : res ndarray :=
  match v with
  | VFrame d => Ok (to_numpy d)
  | _ => Raise (AttributeError "to_numpy")
  end.

(** The inner function [calculate_diffs] of [exp_results_to_df]. *)
Definition calculate_diffs (base_metrics random_metrics compressed_metrics : bundle)
    (exp_name metric_key : string) : res row :=
  match base_metrics !! metric_key with
  | None => Ok ∅
  | Some b =>
      let? b := as_array b in
      let? r := item random_metrics metric_key in
      let? r := as_array r in
      let? d_random := np_sum_abs_diff b r in
      let? k := item compressed_metrics metric_key in
      let? k := as_array k in
      let? d_compressed := np_sum_abs_diff b k in
      Ok (<[exp_name +:+ "_random" := d_random]>
          (<[exp_name +:+ "_compressed" := d_compressed]> ∅))
  end.

Fixpoint diffs_loop (base_metrics random_metrics compressed_metrics : bundle)
    (keys : list (string * string)) (next_row : row) : res row :=
  match keys with
  | [] => Ok next_row
  | (exp_name, metric_key) :: keys' =>
      let? d := calculate_diffs base_metrics random_metrics compressed_metrics
                                exp_name metric_key in
      diffs_loop base_metrics random_metrics compressed_metrics keys'
                 (update next_row d)
  end.

(** [{f"time_{k}": v for k, v in times.items()}] *)
Definition time_columns (times : gmap string Q) : row :=
  kmap (String.append "time_") times.

(** [exp_results_to_df] (static). *)
Definition exp_results_to_df (df : results)
    (base_metrics random_metrics compressed_metrics : bundle)
    (times : gmap string Q) (seed : Z) (model_metric : string)
  : M state results :=
  let next_row : row := ∅ in
  do bx <- lift (let? x := item base_metrics "X" in frame_numpy x);
  print (PrShape (shape0 bx) (shape1 bx));;
  do next_row <-
    (match base_metrics !! "dx_exp" with
     | Some (VDx dx) =>
         do t <- ext "model_performance" (model_performance dx);
         print (PrTable t);;
         do t <- ext "model_performance" (model_performance dx);
         do v <- lift (item t model_metric);
         ret (update next_row (<["model_performance" := v]> ∅))
     | Some _ => raise (AttributeError "model_performance")
     | None => ret next_row
     end);
  (* metric diffs *)
  do next_row <-
    lift (diffs_loop base_metrics random_metrics compressed_metrics
            [("svi", "shap_svi"); ("pvi", "pvi"); ("pdp", "pdp"); ("ale", "ale")]
            next_row);
  (* time *)
  let next_row := update next_row (time_columns times) in
  (* distances *)
  do rx <- lift (let? x := item random_metrics "X" in frame_numpy x);
  do wd_random <- compute_wasserstein_distance bx rx;
  do cx <- lift (let? x := item compressed_metrics "X" in frame_numpy x);
  do wd_compressed <- compute_wasserstein_distance bx cx;
  let next_row :=
    update next_row (<["wd_random" := wd_random]>
                     (<["wd_compressed" := wd_compressed]> ∅)) in
  do next_row <-
    (match base_metrics !! "shap_sv" with
     | None => ret next_row
     | Some b =>
         do b <- lift (as_ndarray b);
         do r <- lift (let? x := item random_metrics "shap_sv" in as_ndarray x);
         do sv_wd_random <- compute_wasserstein_distance b r;
         do k <- lift (let? x := item compressed_metrics "shap_sv" in as_ndarray x);
         do sv_wd_compressed <- compute_wasserstein_distance b k;
         ret (update next_row (<["sv_wd_random" := sv_wd_random]>
                               (<["sv_wd_compressed" := sv_wd_compressed]> ∅)))
     end);
  ret (df ++ [(seed, next_row)]).

(** [np.random.choice(n, size=size, replace=False)] *)
Definition np_random_choice (n size : nat) : M state (list Z) :=
  if (n <? size)%nat
  then
    ext "choice" (fun w0 =>
      (Raise (ValueError
         "Cannot take a larger sample than population when 'replace=False'"),
       w0))
  else
    ext_total "choice" (fun w0 =>
      let (p, w') := np_random_permutation n w0 in
      (map Z.of_nat (firstn size p), w')).

(** The index sets and samples of one trial. *)
Record samples := mk_samples {
  ids_compressed : list Z;
  ids_random : list Z;
  X_compressed : DataFrame;
  y_compressed : DataFrame;
  X_random : DataFrame;
  y_random : DataFrame
}.

(** Lines 268-287 of [run]: seed, compress, draw the random control, slice. *)
Definition draw_samples (X y : DataFrame) (kernel : kernel_t)
    (no_halving_rounds compress_oversampling : Z) (seed : Z)
  : M state samples :=
  ext_total "seed" (fun w0 => (tt, np_random_seed seed w0));;
  let f_halve := fun x =>
    kt_thin x no_halving_rounds kernel kernel true seed true in
  do ids_compressed <-
    timeit "kt" (ext "compress"
                     (compress_compress (to_numpy X) f_halve
                                        compress_oversampling));
  do ids_random <-
    timeit "random" (np_random_choice (nrows X) (length ids_compressed));
  do X_compressed <- lift (iloc X ids_compressed);
  do y_compressed <- lift (iloc y ids_compressed);
  do X_random <- lift (iloc X ids_random);
  do y_random <- lift (iloc y ids_random);
  ret (mk_samples ids_compressed ids_random X_compressed y_compressed
                  X_random y_random).

Definition self_base_metrics : M state bundle :=
  do s <- get;
  match base_metrics s with
  | Some b => ret b
  | None => raise (TypeError "'NoneType' object is not subscriptable")
  end.

(** The body of the loop of [run], for one seed. *)
Definition trial (c : config) (kernel : kernel_t)
    (no_halving_rounds compress_oversampling : Z) (model_metric : string)
    (exp_results : results) (seed : Z) : M state results :=
  let X := X_test (data_processor c) in
  let y := y_test (data_processor c) in
  do sm <- draw_samples X y kernel no_halving_rounds compress_oversampling seed;
  do compressed_metrics <-
    calculate_metrics c (X_compressed sm) (y_compressed sm) "compressed";
  do random_metrics <-
    calculate_metrics c (X_random sm) (y_random sm) "random";
  do base <- self_base_metrics;
  do s <- get;
  exp_results_to_df exp_results base random_metrics compressed_metrics
                    (times s) seed model_metric.

Fixpoint trials (c : config) (kernel : kernel_t)
    (no_halving_rounds compress_oversampling : Z) (model_metric : string)
    (seeds : list Z) (exp_results : results) : M state results :=
  match seeds with
  | [] => ret exp_results
  | seed :: seeds' =>
      do exp_results <- trial c kernel no_halving_rounds compress_oversampling
                              model_metric exp_results seed;
      trials c kernel no_halving_rounds compress_oversampling model_metric
             seeds' exp_results
  end.

(** [range(n)] *)
Definition range (n : Z) : list Z := map Z.of_nat (seq 0 (Z.to_nat n)).

(** [run] *)
Definition run (c : config) (no_tests : Z) (kernel : kernel_t)
    (no_halving_rounds compress_oversampling : Z)
    (save_path : option string) (model_metric : string) : M state results :=
  do exp_results <-
    trials c kernel no_halving_rounds compress_oversampling model_metric
           (range no_tests) [];
  match save_path with
  | Some path => ext "to_parquet" (to_parquet exp_results path)
  | None => ret tt
  end;;
  ret exp_results.

End WithLibs.

Abbreviation bundle := (gmap string value).

End Experiment.

(** ** The preprocessing as a function on frames

    What lines 55-65 compute from the caller's table, step by step, with
    no objects: the object-level code above is shown to compute exactly
    this. *)

Module Pipeline.

(** Lines 60-61: the codes are written into the column, and the column so
    labelled is dropped. *)
Definition convert_category (d : DataFrame) (cat : label) : res DataFrame :=
  let? c := getitem d cat in
  let? codes := cat_codes c in
  drop [cat] (setitem d cat codes).

Fixpoint convert_categories (cats : list label) (d : DataFrame)
  : res DataFrame :=
  match cats with
  | [] => Ok d
  | cat :: rest =>
      let? d' := convert_category d cat in
      convert_categories rest d'
  end.

Definition one_hot `{PandasLib} (cols : list label) (d : DataFrame)
  : res DataFrame :=
  match cols with
  | [] => Ok d
  | _ => get_dummies d cols
  end.

Definition preprocess `{PandasLib} (to_drop to_cat to_one_hot : list label)
    (dropna : bool) (d : DataFrame) : res DataFrame :=
  let? d1 := drop to_drop d in
  let d2 := if dropna then Pandas.dropna d1 else d1 in
  let? d3 := convert_categories to_cat d2 in
  let? d4 := one_hot to_one_hot d3 in
  Ok (columns_astype_str d4).

End Pipeline.

(** ** The preprocessing as the specification words it

    "drop specified columns, optionally drop rows with missing values,
    convert specified categorical columns to integer codes (dropping the
    original column), one-hot-encode specified columns, coerce all column
    labels to string type". *)

Module Spec.

(** "convert ... to integer codes (dropping the original column)": the
    column holds the integer codes afterwards, and the categorical column
    it was is gone. *)
Definition convert_category (d : DataFrame) (cat : label) : res DataFrame :=
  let? c := getitem d cat in
  let? codes := cat_codes c in
  Ok (setitem d cat codes).

Fixpoint convert_categories (cats : list label) (d : DataFrame)
  : res DataFrame :=
  match cats with
  | [] => Ok d
  | cat :: rest =>
      let? d' := convert_category d cat in
      convert_categories rest d'
  end.

Definition one_hot `{PandasLib} (cols : list label) (d : DataFrame)
  : res DataFrame :=
  match cols with
  | [] => Ok d
  | _ => get_dummies d cols
  end.

Definition preprocess `{PandasLib} (to_drop to_cat to_one_hot : list label)
    (dropna : bool) (d : DataFrame) : res DataFrame :=
  let? d1 := drop to_drop d in
  let d2 := if dropna then Pandas.dropna d1 else d1 in
  let? d3 := convert_categories to_cat d2 in
  let? d4 := one_hot to_one_hot d3 in
  Ok (columns_astype_str d4).

(** The two input modes of the data preparation. *)
Definition raw_mode (a : DataProcessor.args) : bool :=
  is_not_None (DataProcessor.a_df a) && is_not_None (DataProcessor.a_target a).
Definition split_mode (a : DataProcessor.args) : bool :=
  is_not_None (DataProcessor.a_X a) && is_not_None (DataProcessor.a_y a).
Definition exactly_one_mode (a : DataProcessor.args) : bool :=
  xorb (raw_mode a) (split_mode a).

End Spec.

(** ** Notions used to state the harness properties *)

Module Harness.
Import Experiment.

(** The position that a Python index, negative ones counting from the end,
    addresses among [n] rows. *)
Definition position (n : nat) (i : Z) : option nat :=
  let j := if i <? 0 then i + Z.of_nat n else i in
  if (j <? 0) || (Z.of_nat n <=? j) then None else Some (Z.to_nat j).

Definition col_length (c : column) : nat :=
  match c with
  | Plain cells => length cells
  | Categorical _ codes => length codes
  end.

(** Every column of a frame has one entry per row label. *)
Definition well_formed (d : DataFrame) : Prop :=
  Forall (fun lc => col_length (snd lc) = nrows d) (columns d).

(** Row [p] of a frame: its label and its cells, column by column. *)
Definition row_at (d : DataFrame) (p : nat) : option Z * list (option cell) :=
  (index d !! p, map (fun lc => column_cells (snd lc) !! p) (columns d)).

(** The slices [Xs] of [X] and [ys] of [y] hold, at every place [j], the
    same original row: the one [ids[j]] addresses. *)
Definition aligned (X y : DataFrame) (ids : list Z) (Xs ys : DataFrame)
  : Prop :=
  nrows Xs = length ids /\ nrows ys = length ids
  /\ forall j i, ids !! j = Some i ->
       exists p, position (nrows X) i = Some p
                 /\ (p < nrows X)%nat
                 /\ row_at Xs j = row_at X p
                 /\ row_at ys j = row_at y p.

(** "drop the baseline/full-model synthetic rows, sort by variable name,
    keep the loss values": the losses of all real variables, by name. *)
Definition importance_by_name (result : list vi_row) : list (nat * Q) :=
  map (fun r => (fst r, dropout_loss (snd r)))
      (sort_values_variable
         (List.filter (fun r => negb (synthetic (variable (snd r))))
                      (imap (fun i r => (i, r)) result))).

Section WithLibs.
Context `{L : Libs}.

(** The clock as the harness sees it: the value [time.time()] returns in a
    state, the state after that call, and the state after an entry of the
    timing table is assigned. *)
Definition reading (s : state) : Q := fst (time_time (w s)).

Definition clocked (s : state) : state :=
  snd (ext_total "time" time_time s).

Definition record (name : string) (q : Q) (s : state) : state :=
  mk_state (w s) (<[name := q]> (times s)) (model s) (base_metrics s)
           (calls s) (stdout s).

(** The state after [np.random.seed(seed)]. *)
Definition seeded (seed : Z) (s : state) : state :=
  snd (ext_total "seed" (fun w0 => (tt, np_random_seed seed w0)) s).

(** A computation assigns no entry of the timing table outside [keys],
    however it ends. *)
Definition writes {A} (keys : list string) (c : M state A) : Prop :=
  forall s r s', c s = (r, s') ->
  forall k, k ∉ keys -> times s' !! k = times s !! k.

(** "only the last trial's timings land in every row of the results
    table": every row shows the timing table as the run leaves it. *)
Definition last_timings_in_every_row (rs : results) (final : gmap string Q)
  : Prop :=
  forall seed r k v,
    (seed, r) ∈ rs -> final !! k = Some v -> r !! ("time_" +:+ k) = Some v.

(** The timing entries a metric computation may assign. *)
Definition metric_timers (name_suffix : string) : list string :=
  ["sv_" +:+ name_suffix; "pvi_" +:+ name_suffix;
   "pdp_" +:+ name_suffix; "ale_" +:+ name_suffix].

(** The constraints between the optional arguments: a class comes with its
    parameters, permutation importance needs the global explainer, the
    profiles need permutation importance. *)
Definition consistent (c : config) : Prop :=
  (shap_class c <> None -> shap_params c <> None)
  /\ (dalex_class c <> None -> dalex_params c <> None)
  /\ (pvi_params c <> None -> dalex_class c <> None)
  /\ (pdp_params c <> None -> pvi_params c <> None)
  /\ (ale_params c <> None -> pvi_params c <> None).

(** "an explanation class requires its corresponding parameter set to be
    non-empty" *)
Definition with_nonempty_params (cls : option string) (ps : option params)
  : Prop :=
  cls <> None -> exists p, ps = Some p /\ p <> ∅.

Definition stage (on : bool) (keys : gset string) : gset string :=
  if on then keys else ∅.

(** The keys of a bundle as the code gates them: SHAP on its class, the
    global explainer on its class, the three stages below it on their
    parameters. *)
Definition bundle_keys (c : config) : gset string :=
  {["X"; "y"]}
  ∪ stage (is_not_None (shap_class c)) {["shap_exp"; "shap_sv"; "shap_svi"]}
  ∪ stage (is_not_None (dalex_class c))
      ({["dx_exp"]}
       ∪ stage (is_not_None (pvi_params c)) {["pvi"]}
       ∪ stage (is_not_None (pdp_params c)) {["pdp"]}
       ∪ stage (is_not_None (ale_params c)) {["ale"]}).

(** The keys "implied by which optional parameters were configured". *)
Definition keys_by_params (c : config) : gset string :=
  {["X"; "y"]}
  ∪ stage (is_not_None (shap_params c)) {["shap_exp"; "shap_sv"; "shap_svi"]}
  ∪ stage (is_not_None (dalex_params c)) {["dx_exp"]}
  ∪ stage (is_not_None (pvi_params c)) {["pvi"]}
  ∪ stage (is_not_None (pdp_params c)) {["pdp"]}
  ∪ stage (is_not_None (ale_params c)) {["ale"]}.

(** A computation leaves the trained model and the baseline as they are
    and calls no library entry point of [names], however it ends. *)
Definition reuses {A} (names : list string) (c : M state A) : Prop :=
  forall s r s', c s = (r, s') ->
    model s' = model s
    /\ base_metrics s' = base_metrics s
    /\ exists new, calls s' = calls s ++ new
                   /\ forall n, n ∈ names -> n ∉ new.

(** Two cells hold the same value: floats are compared as numbers. *)
Definition same_cell (a b : cell) : Prop :=
  match a, b with
  | NaN, NaN => True
  | Num x, Num y => (x == y)%Q
  | Str u, Str v => u = v
  | _, _ => False
  end.

(** The timing entries a trial measures. *)
Definition trial_timers : list string :=
  ["kt"; "random"] ++ metric_timers "compressed" ++ metric_timers "random".

(** Lines 144-148: the explainer [__calc_shap] builds before the timed
    call. *)
Definition shap_explainer (c : config) (cls : string) (data : DataFrame)
  : M state shap_exp_t :=
  if is_tree c
  then
    do s <- get;
    do ps <- lift (kwargs (shap_params c));
    ext "shap_class" (shap_tree_new cls (model s) data ps)
  else
    do masker <-
      ext "Independent" (shap_independent (X_train (data_processor c)));
    do predict <- self_model_predict;
    do ps <- lift (kwargs (shap_params c));
    ext "shap_class" (shap_masked_new cls predict masker ps).

Definition has_key {A} (m : gmap string A) (key : string) : bool :=
  bool_decide (is_Some (m !! key)).

(** The two columns [calculate_diffs] gives for a metric of the baseline. *)
Definition diff_columns (base_metrics : bundle) (exp_name metric_key : string)
  : gset string :=
  stage (has_key base_metrics metric_key)
        {[exp_name +:+ "_random"; exp_name +:+ "_compressed"]}.

(** The columns of a row of the results table, as [exp_results_to_df]
    gates them on the keys of the baseline bundle. *)
Definition row_columns (base_metrics : bundle) (times : gmap string Q)
  : gset string :=
  stage (has_key base_metrics "dx_exp") {["model_performance"]}
  ∪ diff_columns base_metrics "svi" "shap_svi"
  ∪ diff_columns base_metrics "pvi" "pvi"
  ∪ diff_columns base_metrics "pdp" "pdp"
  ∪ diff_columns base_metrics "ale" "ale"
  ∪ set_map (String.append "time_") (dom times)
  ∪ {["wd_random"; "wd_compressed"]}
  ∪ stage (has_key base_metrics "shap_sv")
      {["sv_wd_random"; "sv_wd_compressed"]}.

End WithLibs.
End Harness.

(** ** Concrete libraries and inputs

    Small executable instances of the library interfaces, on which the
    definitions above can be run. *)

Module Fixtures.

(** One indicator column per category of each encoded column. *)
Definition dummies_of (l : label) (c : column) : res (list (label * column)) :=
  match c with
  | Categorical cats codes =>
      Ok (imap (fun i cat =>
                  (LStr (str l +:+ "_" +:+ cat),
                   Plain (map (fun k => Num (if k =? Z.of_nat i then 1 else 0))
                              codes)))
               cats)
  | Plain _ => Raise (TypeError "not categorical")
  end.

Fixpoint all_dummies (d : DataFrame) (cols : list label)
  : res (list (label * column)) :=
  match cols with
  | [] => Ok []
  | l :: cols' =>
      let? c := getitem d l in
      let? ds := dummies_of l c in
      let? rest := all_dummies d cols' in
      Ok (ds ++ rest)
  end.

#[export] Instance pandas_lib : PandasLib := {|
  get_dummies d cols :=
    let? kept := drop cols d in
    let? ds := all_dummies d cols in
    Ok (mkDF (index kept) (columns kept ++ ds))
|}.

(** A split that keeps the first rows for training. *)
#[export] Instance sklearn : Sklearn := {|
  train_test_split X y test_size random_state :=
    if negb (nrows X =? nrows y)%nat
    then Raise (ValueError "inconsistent numbers of samples")
    else
      let n := Z.of_nat (nrows X) in
      let k := Qfloor ((1 - test_size) * inject_Z n) in
      let train := map Z.of_nat (seq 0 (Z.to_nat k)) in
      let test := map Z.of_nat (seq (Z.to_nat k) (Z.to_nat (n - k))) in
      let? xtr := iloc X train in
      let? xte := iloc X test in
      let? ytr := iloc y train in
      let? yte := iloc y test in
      Ok (xtr, xte, ytr, yte)
|}.

(** What dalex reports for two features, in its order of increasing loss. *)
Definition importance_table : list vi_row :=
  [mk_vi "_full_model_" (1 # 10); mk_vi "b" (2 # 10); mk_vi "a" (3 # 10);
   mk_vi "_baseline_" (5 # 10)].

(** A table in which permuting a variable lowered the loss below that of
    the full model. *)
Definition importance_table_noise : list vi_row :=
  [mk_vi "b" (9 # 100); mk_vi "_full_model_" (1 # 10); mk_vi "a" (3 # 10);
   mk_vi "_baseline_" (5 # 10)].

(** The world is a counter: the clock reads it and every reading advances
    it; thinning with seed [k] takes [k + 1] ticks. *)
#[export] Instance libs : Libs := {|
  world := nat;
  model_t := unit;
  shap_exp_t := unit;
  masker_t := unit;
  dx_exp_t := unit;
  kernel_t := unit;
  time_time w := (inject_Z (Z.of_nat w), S w);
  model_new _ _ w := (Ok tt, w);
  model_fit m _ _ w := (Ok m, w);
  shap_tree_new _ _ _ _ w := (Ok tt, w);
  shap_independent _ w := (Ok tt, w);
  shap_masked_new _ _ _ _ w := (Ok tt, w);
  shap_call_values _ data w := (Ok (to_numpy data), w);
  np_absolute_mean0 a := map (fun _ => Num 0) (seq 0 (shape1 a));
  np_sum_abs_diff _ _ := Ok 0%Q;
  dalex_new _ _ _ _ _ w := (Ok tt, w);
  model_parts _ _ w := (Ok importance_table, w);
  model_profile _ _ w := (Ok [Num 1; Num 2], w);
  model_performance _ w := (Ok (<["accuracy" := 1%Q]> ∅), w);
  kt_thin _ _ _ _ _ seed _ w := (Ok [0; 2], (w + Z.to_nat seed + 1)%nat);
  compress_compress X halve _ w := halve X w;
  np_random_seed _ w := w;
  np_random_permutation n w := (rev (seq 0 n), w);
  np_random_permutation_spec n w := Permutation_sym (Permutation_rev (seq 0 n));
  wasserstein_distance := Scipy.cdf_distance;
  to_parquet _ _ w := (Ok tt, w)
|}.

Definition numbers (zs : list Z) : column := Plain (map (fun z => Num (inject_Z z)) zs).

(** A raw table with a categorical column and a target. *)
Definition raw : DataFrame :=
  mkDF [0; 1; 2; 3]
       [(LStr "colour", Categorical ["blue"; "red"] [1; 0; 1; 0]);
        (LInt 7, numbers [10; 20; 30; 40]);
        (LStr "t", numbers [0; 1; 0; 1])].

(** Features and labels of a test partition. *)
Definition features : DataFrame :=
  mkDF [4; 5; 6; 7]
       [(LStr "a", numbers [1; 2; 3; 4]); (LStr "b", numbers [5; 5; 7; 9])].

Definition targets : DataFrame :=
  mkDF [4; 5; 6; 7] [(LStr "t", numbers [0; 1; 0; 1])].

Definition data : Experiment.dataset :=
  Experiment.mk_data features targets features targets.

(** A data processor on the raw table, before preprocessing. *)
Definition processor (to_drop to_cat : list label) (dropna : bool)
  : DataProcessor.t :=
  DataProcessor.mk (Some 0%nat) (Some (LStr "t")) DataProcessor.TEST_SIZE
    DataProcessor.RANDOM_STATE to_drop to_cat [] dropna false
    None None None None None None None.

(** Arguments that supply both input modes, and the objects they name. *)
Definition both_modes : DataProcessor.args :=
  DataProcessor.mk_args (Some 0%nat) (Some (LStr "t")) (Some 1%nat) (Some 2%nat)
    DataProcessor.TEST_SIZE DataProcessor.RANDOM_STATE [] [] [] true false.

Definition objects : list DataFrame := [raw; features; targets].

(** A harness object whose attributes were just initialised. *)
Definition start : Experiment.state := Experiment.fresh (L := libs) 0%nat.

(** A tree explainer given with an empty parameter mapping. *)
Definition shap_only : Experiment.config :=
  Experiment.mk_config data "XGBClassifier" ∅ (Some "TreeExplainer") true
    (Some ∅) None None None None None 51.

(** SHAP parameters given without a SHAP class. *)
Definition params_only : Experiment.config :=
  Experiment.mk_config data "XGBClassifier" ∅ None true
    (Some ∅) None None None None None 51.

(** Every stage configured. *)
Definition full : Experiment.config :=
  Experiment.mk_config data "XGBClassifier" ∅ (Some "TreeExplainer") true
    (Some ∅) (Some "Explainer") (Some ∅) (Some ∅) (Some ∅) (Some ∅) 3.

(** The harness state once the constructor has run. *)
Definition built (c : Experiment.config) : Experiment.state :=
  snd (Experiment.init (L := libs) c start).

(** A permutation-importance stage without the global explainer. *)
Definition pvi_without_dalex : Experiment.config :=
  Experiment.mk_config data "XGBClassifier" ∅ None true
    None None None (Some ∅) None None 51.

(** Two trials of the SHAP-only harness, and a test for an integral entry
    of a row or of the timing table. *)
Definition two_trials : res results * Experiment.state :=
  Experiment.run (L := libs) shap_only 2 tt 1 0 None "accuracy"
                 (built shap_only).

Definition reads (n : Z) (o : option Q) : bool :=
  match o with
  | Some (Qmake a 1) => a =? n
  | _ => false
  end.

(** A raw table whose target column is labelled by an integer. *)
Definition raw_int_target : DataFrame :=
  mkDF [0; 1] [(LStr "x", numbers [1; 2]); (LInt 7, numbers [0; 1])].

Definition int_target_args : DataProcessor.args :=
  DataProcessor.mk_args (Some 0%nat) (Some (LInt 7)) None None
    DataProcessor.TEST_SIZE DataProcessor.RANDOM_STATE [] [] [] true false.

(** A data processor whose table is already clean, about to be split with
    the training set equal to the test set. *)
Definition unsplit : DataProcessor.t :=
  DataProcessor.mk (Some 0%nat) (Some (LStr "t")) DataProcessor.TEST_SIZE
    DataProcessor.RANDOM_STATE [] [] [] false true
    (Some 0%nat) None None None None None None.

Definition clean : DataFrame :=
  mkDF [4; 5; 6; 7]
       [(LStr "a", numbers [1; 2; 3; 4]); (LStr "b", numbers [5; 5; 7; 9]);
        (LStr "t", numbers [0; 1; 0; 1])].

(** A test partition of a single row. *)
Definition one_row : DataFrame := mkDF [4] [(LStr "a", numbers [1])].

Definition one_label : DataFrame := mkDF [4] [(LStr "t", numbers [0])].

(** A data processor given features and labels, with cleaning options
    that name a feature and ask for complete rows. *)
Definition features_given : DataProcessor.t :=
  DataProcessor.mk None None DataProcessor.TEST_SIZE
    DataProcessor.RANDOM_STATE [LStr "a"] [LStr "b"] [] true false
    None (Some 1%nat) (Some 2%nat) None None None None.


End Fixtures.

(** * Properties *)

(** ** The state monad *)

Module PyFacts.

Lemma bind_ok {S A B} (c : M S A) (k : A -> M S B) s a s' :
  c s = (Ok a, s') -> bind c k s = k a s'.
Proof. unfold bind. intros ->. reflexivity. Qed.

Lemma bind_raise {S A B} (c : M S A) (k : A -> M S B) s e s' :
  c s = (Raise e, s') -> bind c k s = (Raise e, s').
Proof. unfold bind. intros ->. reflexivity. Qed.

Lemma bind_lift {S A B} (r : res A) (k : A -> M S B) s :
  bind (lift r) k s = match r with Ok a => k a s | Raise e => (Raise e, s) end.
Proof. unfold bind, lift. by destruct r. Qed.

Lemma bind_ret {S A B} (a : A) (k : A -> M S B) s : bind (ret a) k s = k a s.
Proof. reflexivity. Qed.

Lemma bind_assoc {S A B C} (c : M S A) (k : A -> M S B) (k' : B -> M S C) s :
  bind (bind c k) k' s = bind c (fun x => bind (k x) k') s.
Proof. unfold bind. by destruct (c s) as [[a | e] s1]. Qed.

Lemma bind_ret_r {S A} (c : M S A) s : bind c (fun a => ret a) s = c s.
Proof. unfold bind, ret. by destruct (c s) as [[a | e] s1]. Qed.

Lemma bind_ext {S A B} (c : M S A) (k k' : A -> M S B) s :
  (forall a s', k a s' = k' a s') -> bind c k s = bind c k' s.
Proof. intros Hk. unfold bind. destruct (c s) as [[a | e] s1]; auto. Qed.

(** What a bind that succeeded went through. *)
Lemma bind_inv {S A B} (c : M S A) (k : A -> M S B) s b s2 :
  bind c k s = (Ok b, s2) ->
  exists a s1, c s = (Ok a, s1) /\ k a s1 = (Ok b, s2).
Proof.
  unfold bind. destruct (c s) as [[a | e] s1]; [eauto | discriminate].
Qed.

Lemma ret_inv {S A} (a b : A) (s s' : S) :
  ret a s = (Ok b, s') -> a = b /\ s = s'.
Proof. unfold ret. intros [= -> ->]. done. Qed.

End PyFacts.
Import PyFacts.

(** Take apart a chain of binds that is known to have succeeded. *)
Ltac inv_bind H :=
  repeat match type of H with
    | bind (lift ?r) _ _ = (Ok _, _) =>
        rewrite bind_lift in H;
        let x := fresh "x" in
        let E := fresh "E" in
        destruct r as [x | ?] eqn:E; [| discriminate H]
    | bind (ret _) _ _ = (Ok _, _) => rewrite bind_ret in H
    | bind _ _ _ = (Ok _, _) =>
        let a := fresh "a" in
        let s := fresh "s" in
        let H1 := fresh "H" in
        apply bind_inv in H as (a & s & H1 & H)
    | ret _ _ = (Ok _, _) =>
        let E1 := fresh "E" in
        let E2 := fresh "E" in
        apply ret_inv in H as [E1 E2]
    | _ => progress cbv beta zeta in H
    end.

(** ** Data preparation *)

Module DataProcessorFacts.
Import DataProcessor.

Section Heap.

Lemma load_points (h : list DataFrame) a d : h !! a = Some d -> load a h = (Ok d, h).
Proof. unfold load. intros ->. reflexivity. Qed.

Lemma alloc_new (h : list DataFrame) d : alloc d h = (Ok (length h), h ++ [d]).
Proof. reflexivity. Qed.

Lemma alloc_points (h : list DataFrame) d : (h ++ [d]) !! length h = Some d.
Proof. by apply list_lookup_middle. Qed.

Lemma store_set (h : list DataFrame) a d' : store a d' h = (Ok tt, <[a := d']> h).
Proof. reflexivity. Qed.

Lemma store_points (h : list DataFrame) a d d' :
  h !! a = Some d -> <[a := d']> h !! a = Some d'.
Proof. intros Ha. apply list_lookup_insert_eq. by eapply lookup_lt_Some. Qed.

Lemma drop_nil d : drop [] d = Ok d.
Proof.
  destruct d as [ix cs]. unfold drop. simpl. f_equal. f_equal.
  induction cs as [| lc cs IH]; simpl; [done | by rewrite IH].
Qed.

End Heap.

Section Preprocess.
Context `{PandasLib}.

(** The loop over [to_cat] computes the chain of conversions, whatever
    object it starts from. *)
Lemma convert_categories_refines cats : forall cur (h : list DataFrame) d,
  h !! cur = Some d ->
  match Pipeline.convert_categories cats d with
  | Ok r => exists b h', convert_categories cats cur h = (Ok b, h')
                         /\ h' !! b = Some r
  | Raise e => exists h', convert_categories cats cur h = (Raise e, h')
  end.
Proof.
  induction cats as [| cat rest IH]; intros cur h d Hcur.
  - exists cur, h. done.
  - cbn [convert_categories Pipeline.convert_categories].
    unfold Pipeline.convert_category.
    rewrite (bind_ok _ _ _ _ _ (load_points _ _ _ Hcur)), bind_lift.
    destruct (getitem d cat) as [c | e]; cbn [rbind]; [| by eexists].
    rewrite bind_lift.
    destruct (cat_codes c) as [codes | e]; cbn [rbind]; [| by eexists].
    rewrite (bind_ok _ _ _ _ _ (store_set _ _ _)).
    pose proof (store_points h cur d (setitem d cat codes) Hcur) as Hst.
    rewrite (bind_ok _ _ _ _ _ (load_points _ _ _ Hst)), bind_lift.
    destruct (drop [cat] (setitem d cat codes)) as [d' | e]; cbn [rbind];
      [| by eexists].
    rewrite (bind_ok _ _ _ _ _ (alloc_new _ _)).
    apply (IH _ _ _ (alloc_points _ _)).
Qed.

Lemma columns_astype_str_labels d :
  forallb is_str (labels (columns_astype_str d)) = true.
Proof.
  unfold labels, columns_astype_str. simpl.
  induction (columns d) as [| lc cs IH]; simpl; [done | exact IH].
Qed.

(** Converting a column leaves nothing of it in the frame: the codes are
    written into the column that is then dropped. *)
Lemma convert_category_drops d cat d' :
  Pipeline.convert_category d cat = Ok d' ->
  (cat ∉ labels d') /\ index d' = index d.
Proof.
  unfold Pipeline.convert_category.
  destruct (getitem d cat) as [c |]; cbn [rbind]; [| discriminate].
  destruct (cat_codes c) as [codes |]; cbn [rbind]; [| discriminate].
  unfold drop. destruct (List.find _ _); [discriminate |].
  intros [= <-]. split.
  - unfold labels. cbn [columns]. intros Hin.
    apply list_elem_of_fmap in Hin as (lc & -> & Hlc).
    apply list_elem_of_In, filter_In in Hlc as [_ Hlc].
    apply negb_true_iff, bool_decide_eq_false in Hlc. apply Hlc.
    by apply list_elem_of_singleton.
  - cbn [index]. unfold setitem. by destruct (has_label d cat).
Qed.

(** On the raw-table path [__preprocess_data] leaves in [clean_df] exactly
    the frame the pipeline computes, in this order: drop the columns of
    [to_drop]; if [dropna], drop the rows with missing values; for each
    column of [to_cat], write its integer codes and drop the column;
    one-hot-encode the columns of [to_one_hot]; make every column label a
    string. It raises exactly when the pipeline does, with the same
    exception. *)
Lemma preprocess_data_pipeline self (h : list DataFrame) a d :
  df self = Some a ->
  h !! a = Some d ->
  match Pipeline.preprocess (to_drop self) (to_cat self) (to_one_hot self)
                        (dropna self) d with
  | Ok r =>
      exists b h',
        preprocess_data self h = (Ok (set_clean_df self (Some b)), h')
        /\ h' !! b = Some r
        /\ forallb is_str (labels r) = true
  | Raise e => exists h', preprocess_data self h = (Raise e, h')
  end.
Proof.
  intros Hdf Ha. unfold preprocess_data, Pipeline.preprocess. rewrite Hdf.
  (* drop the columns *)
  assert (match drop (to_drop self) d with
          | Ok d1 => exists a1 (h1 : list DataFrame),
              (if truthy (to_drop self)
               then do d0 <- load a;
                    do d' <- lift (drop (to_drop self) d0); alloc d'
               else ret a) h = (Ok a1, h1) /\ h1 !! a1 = Some d1
          | Raise e => exists h1,
              (if truthy (to_drop self)
               then do d0 <- load a;
                    do d' <- lift (drop (to_drop self) d0); alloc d'
               else ret a) h = (Raise e, h1)
          end) as Hdrop.
  { destruct (to_drop self) as [| l ls] eqn:Htd.
    - rewrite drop_nil. exists a, h. done.
    - cbn [truthy].
      rewrite (bind_ok _ _ _ _ _ (load_points _ _ _ Ha)), bind_lift.
      destruct (drop (l :: ls) d) as [d1 | e]; [| by eexists].
      exists (length h), (h ++ [d1]). split; [done | apply alloc_points]. }
  destruct (drop (to_drop self) d) as [d1 | e]; cbn [rbind];
    [| destruct Hdrop as [h1 Hdrop]; exists h1; by apply bind_raise].
  destruct Hdrop as (a1 & h1 & Hdrop & Ha1).
  rewrite (bind_ok _ _ _ _ _ Hdrop). clear Hdrop.
  (* drop the rows with missing values *)
  assert (exists a2 (h2 : list DataFrame),
            (if dropna self
             then do d0 <- load a1; alloc (Pandas.dropna d0)
             else ret a1) h1 = (Ok a2, h2)
            /\ h2 !! a2 = Some (if dropna self then Pandas.dropna d1 else d1))
    as (a2 & h2 & Hna & Ha2).
  { destruct (dropna self).
    - rewrite (bind_ok _ _ _ _ _ (load_points _ _ _ Ha1)).
      exists (length h1), (h1 ++ [Pandas.dropna d1]).
      split; [done | apply alloc_points].
    - exists a1, h1. done. }
  rewrite (bind_ok _ _ _ _ _ Hna). clear Hna.
  (* convert the categorical columns *)
  pose proof (convert_categories_refines (to_cat self) a2 h2 _ Ha2) as Hcat.
  destruct (Pipeline.convert_categories (to_cat self) _) as [d3 | e]; cbn [rbind];
    [| destruct Hcat as [h3 Hcat]; exists h3; by apply bind_raise].
  destruct Hcat as (a3 & h3 & Hcat & Ha3).
  rewrite (bind_ok _ _ _ _ _ Hcat). clear Hcat.
  (* one-hot encoding *)
  assert (match Pipeline.one_hot (to_one_hot self) d3 with
          | Ok d4 => exists a4 (h4 : list DataFrame),
              (if truthy (to_one_hot self)
               then do d0 <- load a3;
                    do d' <- lift (get_dummies d0 (to_one_hot self)); alloc d'
               else ret a3) h3 = (Ok a4, h4) /\ h4 !! a4 = Some d4
          | Raise e => exists h4,
              (if truthy (to_one_hot self)
               then do d0 <- load a3;
                    do d' <- lift (get_dummies d0 (to_one_hot self)); alloc d'
               else ret a3) h3 = (Raise e, h4)
          end) as Hhot.
  { destruct (to_one_hot self) as [| l ls] eqn:Hoh.
    - exists a3, h3. done.
    - cbn [truthy Pipeline.one_hot].
      rewrite (bind_ok _ _ _ _ _ (load_points _ _ _ Ha3)), bind_lift.
      destruct (get_dummies d3 (l :: ls)) as [d4 | e]; [| by eexists].
      exists (length h3), (h3 ++ [d4]). split; [done | apply alloc_points]. }
  destruct (Pipeline.one_hot (to_one_hot self) d3) as [d4 | e]; cbn [rbind];
    [| destruct Hhot as [h4 Hhot]; exists h4; by apply bind_raise].
  destruct Hhot as (a4 & h4 & Hhot & Ha4).
  rewrite (bind_ok _ _ _ _ _ Hhot). clear Hhot.
  (* the labels *)
  rewrite (bind_ok _ _ _ _ _ (load_points _ _ _ Ha4)).
  rewrite (bind_ok _ _ _ _ _ (store_set _ _ _)).
  exists a4, (<[a4 := columns_astype_str d4]> h4).
  split; [done |]. split; [by eapply store_points |].
  apply columns_astype_str_labels.
Qed.

End Preprocess.

(** The order is observable: a row whose categorical cell is missing is
    dropped although the column itself does not survive the conversion. *)
Example dropna_precedes_conversion :
  Pipeline.preprocess (H := Fixtures.pandas_lib) [] [LStr "c"] [] true
    (mkDF [0; 1] [(LStr "c", Categorical ["u"] [0; -1]);
                  (LStr "x", Plain [Num 1; Num 2])])
  = Ok (mkDF [0] [(LStr "x", Plain [Num 1])]).
Proof. reflexivity. Qed.

(** C8, at a table with a categorical column to convert. The steps are
    applied in the order the claim gives, but the conversion leaves no
    integer codes: the codes are written into the column that the next
    statement drops. Preprocessing the table with [to_cat = ["colour"]]
    leaves a [clean_df] with the columns [7] and [t] only, where the
    pipeline of the claim gives a table whose column [colour] holds the
    codes 1, 0, 1, 0. *)
Theorem preprocess_data_loses_codes :
  exists code_frame spec_frame h',
    preprocess_data (H := Fixtures.pandas_lib)
      (Fixtures.processor [] [LStr "colour"] true) [Fixtures.raw]
    = (Ok (set_clean_df (Fixtures.processor [] [LStr "colour"] true)
                        (Some 2%nat)), h')
    /\ h' !! 2%nat = Some code_frame
    /\ Spec.preprocess (H := Fixtures.pandas_lib) [] [LStr "colour"] [] true
         Fixtures.raw = Ok spec_frame
    /\ labels spec_frame = [LStr "colour"; LStr "7"; LStr "t"]
    /\ getitem spec_frame (LStr "colour") = Ok (Fixtures.numbers [1; 0; 1; 0])
    /\ labels code_frame = [LStr "7"; LStr "t"]
    /\ getitem code_frame (LStr "colour") = Raise (KeyError "colour")
    /\ h' !! 0%nat = Some Fixtures.raw.
Proof.
  exists (mkDF [0; 1; 2; 3]
            [(LStr "7", Fixtures.numbers [10; 20; 30; 40]);
             (LStr "t", Fixtures.numbers [0; 1; 0; 1])]),
         (mkDF [0; 1; 2; 3]
            [(LStr "colour", Fixtures.numbers [1; 0; 1; 0]);
             (LStr "7", Fixtures.numbers [10; 20; 30; 40]);
             (LStr "t", Fixtures.numbers [0; 1; 0; 1])]),
         (snd (preprocess_data (H := Fixtures.pandas_lib)
                 (Fixtures.processor [] [LStr "colour"] true) [Fixtures.raw])).
  repeat split; reflexivity.
Qed.

(** *** The caller's table *)

Section Frame.
Context `{PandasLib}.

Lemma getitem_has_label d l c : getitem d l = Ok c -> has_label d l = true.
Proof.
  unfold getitem, has_label, labels. intros Hg.
  apply bool_decide_eq_true_2.
  destruct (List.filter _ (columns d)) as [| lc rest] eqn:Hf; [done |].
  assert (In lc (List.filter (fun lc => bool_decide (fst lc = l)) (columns d)))
    as Hin by (rewrite Hf; left; done).
  apply filter_In in Hin as [Hin Hl]. apply bool_decide_eq_true_1 in Hl.
  subst l. apply list_elem_of_In. by apply in_map.
Qed.

Lemma filter_setitem l c cs :
  List.filter (fun lc : label * column => bool_decide (fst lc = l))
    (map (fun lc => if bool_decide (fst lc = l) then (l, c) else lc) cs)
  = map (fun _ => (l, c))
        (List.filter (fun lc : label * column => bool_decide (fst lc = l)) cs).
Proof.
  induction cs as [| lc cs IH]; [done |]. cbn [map List.filter].
  destruct (bool_decide (fst lc = l)) eqn:Hl; cbn [fst].
  - rewrite bool_decide_eq_true_2 by done. cbn [map]. by rewrite IH.
  - rewrite Hl. exact IH.
Qed.

(** After [df[l] = c] the column [l] of the frame is [c]. *)
Lemma getitem_setitem d l c0 c :
  getitem d l = Ok c0 -> getitem (setitem d l c) l = Ok c.
Proof.
  intros Hg. unfold setitem. rewrite (getitem_has_label _ _ _ Hg).
  unfold getitem in *. cbn [columns]. rewrite filter_setitem.
  destruct (List.filter _ (columns d)) as [| lc [| lc' rest]]; done.
Qed.

(** The loop over [to_cat] writes only into the object it is given and
    into objects it creates. *)
Lemma convert_categories_frame cats : forall cur (h : list DataFrame) a,
  a <> cur -> (cur < length h)%nat -> (a < length h)%nat ->
  snd (convert_categories cats cur h) !! a = h !! a
  /\ (length h <= length (snd (convert_categories cats cur h)))%nat
  /\ match fst (convert_categories cats cur h) with
     | Ok b => b <> a /\ (b < length (snd (convert_categories cats cur h)))%nat
     | Raise _ => True
     end.
Proof.
  induction cats as [| cat rest IH]; intros cur h a Hne Hcur Ha.
  - cbn. auto.
  - cbn [convert_categories].
    destruct (lookup_lt_is_Some_2 h cur Hcur) as [d Hd].
    rewrite (bind_ok _ _ _ _ _ (load_points _ _ _ Hd)), bind_lift.
    destruct (getitem d cat) as [c | e]; [| cbn; auto].
    rewrite bind_lift.
    destruct (cat_codes c) as [codes | e]; [| cbn; auto].
    rewrite (bind_ok _ _ _ _ _ (store_set _ _ _)).
    pose proof (store_points h cur d (setitem d cat codes) Hd) as Hst.
    rewrite (bind_ok _ _ _ _ _ (load_points _ _ _ Hst)), bind_lift.
    assert (<[cur := setitem d cat codes]> h !! a = h !! a) as Hsame
      by (apply list_lookup_insert_ne; congruence).
    destruct (drop [cat] (setitem d cat codes)) as [d' | e].
    2: { cbn. rewrite length_insert. auto. }
    rewrite (bind_ok _ _ _ _ _ (alloc_new _ _)).
    set (h1 := <[cur := setitem d cat codes]> h) in *.
    assert (length h1 = length h) as Hlen by apply length_insert.
    destruct (IH (length h1) (h1 ++ [d']) a) as (IH1 & IH2 & IH3).
    + lia.
    + rewrite length_app. cbn. lia.
    + rewrite length_app. cbn. lia.
    + split; [| split].
      * rewrite IH1, lookup_app_l by lia. exact Hsame.
      * rewrite length_app in IH2. cbn in IH2. lia.
      * exact IH3.
Qed.

(** The first round of the loop, run on the caller's object. *)
Lemma convert_categories_first cat rest (h : list DataFrame) a d col codes :
  h !! a = Some d ->
  getitem d cat = Ok col ->
  cat_codes col = Ok codes ->
  snd (convert_categories (cat :: rest) a h) !! a = Some (setitem d cat codes)
  /\ match fst (convert_categories (cat :: rest) a h) with
     | Ok b =>
         b <> a
         /\ (b < length (snd (convert_categories (cat :: rest) a h)))%nat
     | Raise _ => True
     end.
Proof.
  intros Ha Hcol Hcodes. cbn [convert_categories].
  assert (a < length h)%nat as Hlt by (by eapply lookup_lt_Some).
  pose proof (store_points h a d (setitem d cat codes) Ha) as Hst.
  rewrite (bind_ok _ _ _ _ _ (load_points _ _ _ Ha)), bind_lift, Hcol.
  rewrite bind_lift, Hcodes.
  rewrite (bind_ok _ _ _ _ _ (store_set _ _ _)).
  rewrite (bind_ok _ _ _ _ _ (load_points _ _ _ Hst)), bind_lift.
  destruct (drop [cat] (setitem d cat codes)) as [d' | e]; [| by cbn].
  rewrite (bind_ok _ _ _ _ _ (alloc_new _ _)).
  set (h1 := <[a := setitem d cat codes]> h) in *.
  assert (length h1 = length h) as Hlen by apply length_insert.
  destruct (convert_categories_frame rest (length h1) (h1 ++ [d']) a)
    as (F1 & F2 & F3).
  - lia.
  - rewrite length_app. cbn. lia.
  - rewrite length_app. cbn. lia.
  - subst h1. split; [| exact F3].
    etrans; [exact F1 |]. rewrite lookup_app_l by lia. exact Hst.
Qed.

(** The steps after the loop write into [clean_df] or into new objects. *)
Lemma finish_frame self b (h : list DataFrame) a :
  b <> a -> (b < length h)%nat -> (a < length h)%nat ->
  snd ((do clean_df <-
          (if truthy (to_one_hot self)
           then do d <- load b;
                do d' <- lift (get_dummies d (to_one_hot self));
                alloc d'
           else ret b);
        do d <- load clean_df;
        store clean_df (columns_astype_str d);;
        ret (set_clean_df self (Some clean_df))) h) !! a = h !! a.
Proof.
  intros Hne Hb Ha.
  destruct (lookup_lt_is_Some_2 h b Hb) as [d Hd].
  destruct (truthy (to_one_hot self)).
  - rewrite bind_assoc.
    rewrite (bind_ok _ _ _ _ _ (load_points _ _ _ Hd)), bind_assoc, bind_lift.
    destruct (get_dummies d (to_one_hot self)) as [d' | e]; [| done].
    rewrite (bind_ok _ _ _ _ _ (alloc_new _ _)).
    rewrite (bind_ok _ _ _ _ _ (load_points _ _ _ (alloc_points _ _))).
    rewrite (bind_ok _ _ _ _ _ (store_set _ _ _)). cbn [ret snd].
    rewrite list_lookup_insert_ne by lia. by rewrite lookup_app_l.
  - rewrite bind_ret.
    rewrite (bind_ok _ _ _ _ _ (load_points _ _ _ Hd)).
    rewrite (bind_ok _ _ _ _ _ (store_set _ _ _)). cbn [ret snd].
    by rewrite list_lookup_insert_ne.
Qed.

(** C10. When nothing is dropped first ([to_drop] empty, [dropna] off) and
    [to_cat] starts with a categorical column, [__preprocess_data] writes
    that column's integer codes into the frame object the caller passed:
    afterwards the caller's frame holds the codes in place of the
    categorical column, whatever the later steps do. *)
Theorem preprocess_data_mutates_input self (h : list DataFrame) a d cat rest
    col codes :
  df self = Some a ->
  h !! a = Some d ->
  to_drop self = [] ->
  dropna self = false ->
  to_cat self = cat :: rest ->
  getitem d cat = Ok col ->
  cat_codes col = Ok codes ->
  snd (preprocess_data self h) !! a = Some (setitem d cat codes)
  /\ getitem (setitem d cat codes) cat = Ok codes
  /\ codes <> col.
Proof.
  intros Hdf Ha Htd Hna Hcat Hcol Hcodes.
  split; [| split].
  2: by eapply getitem_setitem.
  2: { destruct col; cbn in Hcodes; [done |]. injection Hcodes as <-. done. }
  unfold preprocess_data. rewrite Hdf, Htd, Hna, Hcat. cbn [truthy].
  rewrite !bind_ret.
  destruct (convert_categories_first cat rest h a d col codes Ha Hcol Hcodes)
    as [Hfirst Hres].
  destruct (convert_categories (cat :: rest) a h) as [[b | e] h3] eqn:Hloop;
    cbn [fst snd] in *.
  - rewrite (bind_ok _ _ _ _ _ Hloop). destruct Hres as [Hne Hb].
    rewrite finish_frame; [done | done | done |].
    by eapply lookup_lt_Some.
  - by rewrite (bind_raise _ _ _ _ _ Hloop).
Qed.

End Frame.

Lemma preprocess_data_mutates_input_witness :
  snd (preprocess_data (H := Fixtures.pandas_lib)
         (Fixtures.processor [] [LStr "colour"] false) [Fixtures.raw]) !! 0%nat
  = Some (setitem Fixtures.raw (LStr "colour") (Fixtures.numbers [1; 0; 1; 0]))
  /\ getitem (setitem Fixtures.raw (LStr "colour")
                      (Fixtures.numbers [1; 0; 1; 0])) (LStr "colour")
     = Ok (Fixtures.numbers [1; 0; 1; 0])
  /\ Fixtures.numbers [1; 0; 1; 0] <> Categorical ["blue"; "red"] [1; 0; 1; 0].
Proof.
  exact (preprocess_data_mutates_input (H := Fixtures.pandas_lib)
           (Fixtures.processor [] [LStr "colour"] false) [Fixtures.raw]
           0%nat Fixtures.raw (LStr "colour") []
           (Categorical ["blue"; "red"] [1; 0; 1; 0])
           (Fixtures.numbers [1; 0; 1; 0])
           eq_refl eq_refl eq_refl eq_refl eq_refl eq_refl eq_refl).
Defined.

(** *** The input modes *)

Section Init.
Context `{PandasLib} `{Sklearn}.

Lemma input_mode_ok_iff a : input_mode_ok a = true <-> some_mode a.
Proof.
  unfold input_mode_ok, some_mode.
  destruct (a_df a), (a_target a), (a_X a), (a_y a); cbn;
    (split; [intros; try discriminate; auto with congruence
            | intros [[? ?] | [? ?]]; congruence]).
Qed.

(** C7, as the code has it. The constructor rejects its arguments with an
    assertion error, before touching any object, exactly when neither input
    mode is complete; with at least one complete mode (both included) the
    check passes and construction goes on to preprocessing and splitting. *)
Theorem init_input_modes a (h : list DataFrame) :
  (~ some_mode a -> init a h = (Raise (AssertionError ""), h))
  /\ (some_mode a ->
      init a h = (do self <- preprocess_data (initial a); split_data self) h).
Proof.
  unfold init. split; intros Hm.
  - destruct (input_mode_ok a) eqn:Hok.
    + exfalso. apply Hm. by apply input_mode_ok_iff.
    + reflexivity.
  - apply input_mode_ok_iff in Hm. rewrite Hm. reflexivity.
Qed.

End Init.

Lemma init_input_modes_witness :
  init (H := Fixtures.pandas_lib) (H0 := Fixtures.sklearn) default_args []
  = (Raise (AssertionError ""), [])
  /\ init (H := Fixtures.pandas_lib) (H0 := Fixtures.sklearn)
          Fixtures.both_modes Fixtures.objects
     = (do self <- preprocess_data (H := Fixtures.pandas_lib)
                                   (initial Fixtures.both_modes);
        split_data (H := Fixtures.sklearn) self) Fixtures.objects.
Proof.
  split.
  - apply (proj1 (init_input_modes (H := Fixtures.pandas_lib)
                    (H0 := Fixtures.sklearn) default_args [])).
    intros [[Hdf _] | [HX _]]; [apply Hdf | apply HX]; reflexivity.
  - apply (proj2 (init_input_modes (H := Fixtures.pandas_lib)
                    (H0 := Fixtures.sklearn) Fixtures.both_modes
                    Fixtures.objects)).
    left. split; discriminate.
Defined.

(** C7 as stated fails: with both input modes supplied the constructor
    succeeds. *)
Lemma init_accepts_both_modes :
  Spec.exactly_one_mode Fixtures.both_modes = false
  /\ is_ok (fst (init (H := Fixtures.pandas_lib) (H0 := Fixtures.sklearn)
                      Fixtures.both_modes Fixtures.objects)) = true.
Proof. split; reflexivity. Qed.

End DataProcessorFacts.

(** ** The experiment harness *)

Module ExperimentFacts.
Import Experiment Harness.

Section Construction.
Context `{L : Libs}.

Lemma consistent_check (c : config) (s : state) :
  consistent c -> check_config c s = (Ok tt, s).
Proof.
  unfold consistent, check_config. intros (H1 & H2 & H3 & H4 & H5).
  destruct (shap_class c), (shap_params c), (dalex_class c), (dalex_params c),
    (pvi_params c), (pdp_params c), (ale_params c);
    try reflexivity; exfalso;
    first [ by apply H1 | by apply H2 | by apply H3 | by apply H4 | by apply H5 ].
Qed.

Lemma inconsistent_check (c : config) (s : state) :
  ~ consistent c -> exists msg, check_config c s = (Raise (AssertionError msg), s).
Proof.
  unfold consistent, check_config. intros Hn.
  destruct (shap_class c), (shap_params c), (dalex_class c), (dalex_params c),
    (pvi_params c), (pdp_params c), (ale_params c);
    try (eexists; reflexivity); exfalso; apply Hn;
    repeat split; intros; congruence.
Qed.

(** C1, as the code has it. The constructor checks, before it trains or
    explains anything, that a configured explanation class comes with its
    parameter mapping (any mapping, the empty one included), that
    permutation-importance parameters come with the global-explainer class,
    and that partial-dependence and ALE parameters come with
    permutation-importance parameters. A configuration that breaks one of
    these is rejected with an assertion error, the harness state untouched
    and no library called; every other configuration passes the checks and
    construction goes on to training and the baseline. *)
Theorem init_checks_configuration (c : config) (s : state) :
  (~ consistent c ->
   exists msg, init c s = (Raise (AssertionError msg), s))
  /\ (consistent c ->
      check_config c s = (Ok tt, s)
      /\ init c s = (create_train_model c;; calculate_baseline c) s).
Proof.
  split; intros Hc.
  - destruct (inconsistent_check c s Hc) as [msg Hmsg].
    exists msg. unfold init. by rewrite (bind_raise _ _ _ _ _ Hmsg).
  - pose proof (consistent_check c s Hc) as Hok.
    split; [exact Hok |]. unfold init. by rewrite (bind_ok _ _ _ _ _ Hok).
Qed.

End Construction.

Lemma init_checks_configuration_witness :
  (exists msg,
     init (L := Fixtures.libs) Fixtures.pvi_without_dalex Fixtures.start
     = (Raise (AssertionError msg), Fixtures.start))
  /\ check_config (L := Fixtures.libs) Fixtures.full Fixtures.start
     = (Ok tt, Fixtures.start)
  /\ init (L := Fixtures.libs) Fixtures.full Fixtures.start
     = (create_train_model Fixtures.full;; calculate_baseline Fixtures.full)
         Fixtures.start.
Proof.
  split.
  - apply (proj1 (init_checks_configuration (L := Fixtures.libs)
                    Fixtures.pvi_without_dalex Fixtures.start)).
    intros (_ & _ & H3 & _). by apply H3.
  - apply (proj2 (init_checks_configuration (L := Fixtures.libs)
                    Fixtures.full Fixtures.start)).
    repeat split; discriminate.
Defined.

(** C1 as stated fails: a class given with an empty parameter mapping is
    accepted, and the harness is built. *)
Lemma empty_params_accepted :
  ~ with_nonempty_params (shap_class Fixtures.shap_only)
                         (shap_params Fixtures.shap_only)
  /\ check_config (L := Fixtures.libs) Fixtures.shap_only Fixtures.start
     = (Ok tt, Fixtures.start)
  /\ is_ok (fst (init (L := Fixtures.libs) Fixtures.shap_only Fixtures.start))
     = true.
Proof.
  split; [| split; reflexivity].
  intros Hne. destruct Hne as (p & Hp & Hemp); [discriminate |].
  injection Hp as <-. by apply Hemp.
Qed.

(** *** The keys of a metric bundle *)

Section Bundle.
Context `{L : Libs}.

Lemma dom_update (d new : bundle) : dom (update d new) = dom new ∪ dom d.
Proof. unfold update. apply dom_union_L. Qed.

Lemma calc_shap_dom c X name (s s' : state) (m : bundle) :
  calc_shap c X name s = (Ok m, s') ->
  dom m = stage (is_not_None (shap_class c))
                {["shap_exp"; "shap_sv"; "shap_svi"]}.
Proof.
  unfold calc_shap. destruct (shap_class c) as [cls |]; cbn [is_not_None stage];
    intros Hrun.
  - inv_bind Hrun. subst m. rewrite !dom_insert_L, dom_empty_L. set_solver.
  - inv_bind Hrun. subst m. apply dom_empty_L.
Qed.

Lemma calc_pvi_dom c dx X name (s s' : state) (m : bundle) v g :
  calc_pvi c dx X name s = (Ok (m, v, g), s') ->
  dom m = stage (is_not_None (pvi_params c)) {["pvi"]}.
Proof.
  unfold calc_pvi. destruct (pvi_params c) as [ps |]; cbn [is_not_None stage];
    intros Hrun.
  - inv_bind Hrun.
    match goal with E : _ = (m, v, g) |- _ => injection E as <- _ _ end.
    rewrite dom_insert_L, dom_empty_L. set_solver.
  - inv_bind Hrun.
    match goal with E : _ = (m, v, g) |- _ => injection E as <- _ _ end.
    apply dom_empty_L.
Qed.

Lemma calc_pdp_dom c dx v g name (s s' : state) (m : bundle) :
  calc_pdp c dx v g name s = (Ok m, s') ->
  dom m = stage (is_not_None (pdp_params c)) {["pdp"]}.
Proof.
  unfold calc_pdp. destruct (pdp_params c) as [ps |]; cbn [is_not_None stage];
    intros Hrun.
  - inv_bind Hrun. subst m. rewrite dom_insert_L, dom_empty_L. set_solver.
  - inv_bind Hrun. subst m. apply dom_empty_L.
Qed.

Lemma calc_ale_dom c dx v g name (s s' : state) (m : bundle) :
  calc_ale c dx v g name s = (Ok m, s') ->
  dom m = stage (is_not_None (ale_params c)) {["ale"]}.
Proof.
  unfold calc_ale. destruct (ale_params c) as [ps |]; cbn [is_not_None stage];
    intros Hrun.
  - inv_bind Hrun. subst m. rewrite dom_insert_L, dom_empty_L. set_solver.
  - inv_bind Hrun. subst m. apply dom_empty_L.
Qed.

Lemma calculate_metrics_dom c X y name_suffix (s s' : state) (b : bundle) :
  calculate_metrics c X y name_suffix s = (Ok b, s') ->
  dom b = bundle_keys c.
Proof.
  unfold calculate_metrics, bundle_keys. intros Hrun.
  apply bind_inv in Hrun as (sh & s1 & Hshap & Hrun).
  apply calc_shap_dom in Hshap.
  destruct (dalex_class c) as [cls |]; cbn [is_not_None stage] in *.
  - apply bind_inv in Hrun as (dx & s2 & _ & Hrun).
    apply bind_inv in Hrun as ([[pvi v] g] & s3 & Hpvi & Hrun).
    apply calc_pvi_dom in Hpvi.
    apply bind_inv in Hrun as (pdp & s4 & Hpdp & Hrun).
    apply calc_pdp_dom in Hpdp.
    apply bind_inv in Hrun as (ale & s5 & Hale & Hrun).
    apply calc_ale_dom in Hale.
    apply ret_inv in Hrun as [<- _].
    rewrite !dom_update, dom_insert_L, dom_update, !dom_insert_L, dom_empty_L.
    rewrite Hshap, Hpvi, Hpdp, Hale. set_solver.
  - apply ret_inv in Hrun as [<- _].
    rewrite dom_update, !dom_insert_L, dom_empty_L, Hshap. set_solver.
Qed.

(** C2, as the code has it. A bundle returned by [__calculate_metrics] has
    exactly the keys [X] and [y], the three SHAP keys if and only if the
    SHAP class is configured, [dx_exp] if and only if the global-explainer
    class is configured, and below the global explainer [pvi], [pdp] and
    [ale] if and only if the parameters of that stage are configured. No
    other key appears, and a skipped stage leaves no key. *)
Theorem calculate_metrics_keys c X y name_suffix (s s' : state) (b : bundle) :
  calculate_metrics c X y name_suffix s = (Ok b, s') ->
  dom b = bundle_keys c.
Proof. apply calculate_metrics_dom. Qed.

(** For a configuration that passed the constructor's checks, the three
    stages below the global explainer are keyed by their own parameters. *)
Lemma consistent_stage_keys c :
  consistent c ->
  ("pvi" ∈ bundle_keys c <-> pvi_params c <> None)
  /\ ("pdp" ∈ bundle_keys c <-> pdp_params c <> None)
  /\ ("ale" ∈ bundle_keys c <-> ale_params c <> None).
Proof.
  unfold consistent, bundle_keys. intros (_ & _ & H3 & H4 & H5).
  destruct (shap_class c), (dalex_class c), (pvi_params c), (pdp_params c),
    (ale_params c); cbn [is_not_None stage];
    repeat split; intros; try done; try set_solver;
    exfalso; first [ by apply H3 | by apply H4 | by apply H5 ].
Qed.

End Bundle.

Lemma calculate_metrics_keys_witness :
  exists b s',
    calculate_metrics (L := Fixtures.libs) Fixtures.full Fixtures.features
                      Fixtures.targets "all" (Fixtures.built Fixtures.full) = (Ok b, s')
    /\ dom b = bundle_keys Fixtures.full.
Proof.
  destruct (calculate_metrics (L := Fixtures.libs) Fixtures.full
              Fixtures.features Fixtures.targets "all"
              (Fixtures.built Fixtures.full))
    as [[b | e] s'] eqn:Hrun.
  - exists b, s'. split; [reflexivity |].
    exact (calculate_metrics_keys (L := Fixtures.libs) Fixtures.full
             Fixtures.features Fixtures.targets "all"
             (Fixtures.built Fixtures.full) s' b Hrun).
  - exfalso. apply (f_equal (fun r => is_ok (fst r))) in Hrun.
    vm_compute in Hrun. discriminate Hrun.
Defined.

(** C2 as stated fails: SHAP parameters configured without a SHAP class
    pass the constructor's checks, and the bundle has no SHAP key. *)
Lemma shap_params_without_class :
  check_config (L := Fixtures.libs) Fixtures.params_only Fixtures.start
  = (Ok tt, Fixtures.start)
  /\ "shap_sv" ∈ keys_by_params Fixtures.params_only
  /\ exists b s',
       calculate_metrics (L := Fixtures.libs) Fixtures.params_only
         Fixtures.features Fixtures.targets "all"
         (Fixtures.built Fixtures.params_only) = (Ok b, s')
       /\ ("shap_sv" ∉ dom b)
       /\ dom b <> keys_by_params Fixtures.params_only.
Proof.
  split; [reflexivity |].
  assert ("shap_sv" ∈ keys_by_params Fixtures.params_only) as Hin.
  { unfold keys_by_params. cbn [is_not_None stage Fixtures.params_only
      shap_params dalex_params pvi_params pdp_params ale_params]. set_solver. }
  split; [exact Hin |].
  destruct (calculate_metrics (L := Fixtures.libs) Fixtures.params_only
              Fixtures.features Fixtures.targets "all"
              (Fixtures.built Fixtures.params_only))
    as [[b | e] s'] eqn:Hrun.
  - exists b, s'. split; [reflexivity |].
    pose proof (calculate_metrics_dom (L := Fixtures.libs) _ _ _ _ _ _ _ Hrun)
      as Hdom.
    assert ("shap_sv" ∉ dom b) as Hout.
    { rewrite Hdom. unfold bundle_keys.
      cbn [is_not_None stage Fixtures.params_only shap_class dalex_class].
      set_solver. }
    split; [exact Hout |]. intros Heq. apply Hout. by rewrite Heq.
  - exfalso. apply (f_equal (fun r => is_ok (fst r))) in Hrun.
    vm_compute in Hrun. discriminate Hrun.
Qed.

(** *** Positional slicing *)

Section Slicing.

Lemma py_index_position {A} (l : list A) i x :
  py_index l i = Ok x <->
  exists p, position (length l) i = Some p /\ l !! p = Some x.
Proof.
  unfold py_index, position. cbv zeta.
  destruct (orb _ _) eqn:Hb.
  - split; [discriminate | intros (p & [=] & _)].
  - split.
    + destruct (l !! Z.to_nat _) as [x' |] eqn:Hl; [| discriminate].
      intros [= ->]. eauto.
    + intros (p & [= <-] & ->). reflexivity.
Qed.

Lemma position_lt n i p : position n i = Some p -> (p < n)%nat.
Proof.
  unfold position. cbv zeta.
  destruct (orb _ _) eqn:Hb; [discriminate |].
  intros [= <-]. apply orb_false_iff in Hb as [H1 H2].
  apply Z.ltb_ge in H1. apply Z.leb_gt in H2. lia.
Qed.

Lemma position_in_range n i :
  -Z.of_nat n <= i < Z.of_nat n -> is_Some (position n i).
Proof.
  intros Hi. unfold position.
  destruct (i <? 0) eqn:Hneg.
  - apply Z.ltb_lt in Hneg.
    rewrite (proj2 (Z.ltb_ge _ _)), (proj2 (Z.leb_gt _ _)) by lia. eauto.
  - apply Z.ltb_ge in Hneg.
    rewrite (proj2 (Z.ltb_ge _ _)), (proj2 (Z.leb_gt _ _)) by lia. eauto.
Qed.

Lemma take_rows_lookup {A} (l : list A) ids : forall r,
  take_rows l ids = Ok r ->
  length r = length ids
  /\ forall j i p, ids !! j = Some i -> position (length l) i = Some p ->
       r !! j = l !! p.
Proof.
  induction ids as [| i0 ids IH]; intros r; cbn [take_rows].
  - intros [= <-]. split; [done |]. intros j i p Hj. by destruct j.
  - destruct (py_index l i0) as [x |] eqn:Hx; cbn [rbind]; [| discriminate].
    destruct (take_rows l ids) as [xs |] eqn:Hxs; cbn [rbind]; [| discriminate].
    intros [= <-]. destruct (IH xs eq_refl) as [Hlen Hrows].
    split; [cbn; by rewrite Hlen |].
    intros [| j] i p Hj Hp; cbn in *.
    + injection Hj as ->.
      apply py_index_position in Hx as (p' & Hp' & Hl).
      rewrite Hp in Hp'. injection Hp' as <-. by rewrite Hl.
    + by eapply Hrows.
Qed.

Lemma take_rows_total {A} (l : list A) ids :
  Forall (fun i => -Z.of_nat (length l) <= i < Z.of_nat (length l)) ids ->
  exists r, take_rows l ids = Ok r.
Proof.
  induction 1 as [| i ids Hi _ [r IH]]; [by eexists |].
  destruct (position_in_range _ _ Hi) as [p Hp].
  pose proof (position_lt _ _ _ Hp) as Hlt.
  destruct (lookup_lt_is_Some_2 l p Hlt) as [x Hx].
  assert (py_index l i = Ok x) as Hpy by (apply py_index_position; eauto).
  cbn [take_rows]. rewrite Hpy, IH. by eexists.
Qed.

Lemma take_column_lookup c ids c' n :
  take_column c ids = Ok c' ->
  col_length c = n ->
  col_length c' = length ids
  /\ forall j i p, ids !! j = Some i -> position n i = Some p ->
       column_cells c' !! j = column_cells c !! p.
Proof.
  intros Htake <-. destruct c as [cells | cats codes]; cbn in Htake.
  - destruct (take_rows cells ids) as [r |] eqn:Hr; [| discriminate].
    injection Htake as <-. apply take_rows_lookup in Hr as [Hlen Hr].
    split; [exact Hlen |]. intros j i p Hj Hp. cbn. by eapply Hr.
  - destruct (take_rows codes ids) as [r |] eqn:Hr; [| discriminate].
    injection Htake as <-. apply take_rows_lookup in Hr as [Hlen Hr].
    split; [exact Hlen |]. intros j i p Hj Hp. cbn [column_cells col_length] in *.
    rewrite !list_lookup_fmap. by rewrite (Hr j i p Hj Hp).
Qed.

Lemma take_column_total c ids :
  Forall (fun i => -Z.of_nat (col_length c) <= i < Z.of_nat (col_length c)) ids ->
  exists c', take_column c ids = Ok c'.
Proof.
  intros Hids. destruct c as [cells | cats codes]; cbn in *.
  - destruct (take_rows_total cells ids Hids) as [r ->]. by eexists.
  - destruct (take_rows_total codes ids Hids) as [r ->]. by eexists.
Qed.

Lemma take_columns_lookup cs ids n : forall cs',
  take_columns cs ids = Ok cs' ->
  Forall (fun lc => col_length (snd lc) = n) cs ->
  Forall (fun lc => col_length (snd lc) = length ids) cs'
  /\ forall j i p, ids !! j = Some i -> position n i = Some p ->
       map (fun lc : label * column => column_cells (snd lc) !! j) cs'
       = map (fun lc : label * column => column_cells (snd lc) !! p) cs.
Proof.
  induction cs as [| [l c] cs IH]; intros cs' Htake Hwf; cbn in Htake.
  - injection Htake as <-. split; [constructor | done].
  - destruct (take_column c ids) as [c' |] eqn:Hc; cbn in Htake;
      [| discriminate].
    destruct (take_columns cs ids) as [r |] eqn:Hr; cbn in Htake;
      [| discriminate].
    injection Htake as <-. apply Forall_cons in Hwf as [Hc0 Hcs].
    destruct (take_column_lookup _ _ _ _ Hc Hc0) as [Hlen Hcell].
    destruct (IH r eq_refl Hcs) as [Hlens Hrest].
    split; [by constructor |].
    intros j i p Hj Hp. cbn. f_equal; [by eapply Hcell | by eapply Hrest].
Qed.

Lemma take_columns_total cs ids n :
  Forall (fun lc : label * column => col_length (snd lc) = n) cs ->
  Forall (fun i => -Z.of_nat n <= i < Z.of_nat n) ids ->
  exists cs', take_columns cs ids = Ok cs'.
Proof.
  intros Hwf Hids. induction Hwf as [| [l c] cs Hc _ [r IH]]; [by eexists |].
  cbn in Hc. subst n. destruct (take_column_total c ids Hids) as [c' Hc'].
  cbn [take_columns]. rewrite Hc', IH. by eexists.
Qed.

(** [iloc] puts at place [j] the row that [ids[j]] addresses. *)
Lemma iloc_rows d ids d' :
  well_formed d ->
  iloc d ids = Ok d' ->
  nrows d' = length ids
  /\ well_formed d'
  /\ forall j i p, ids !! j = Some i -> position (nrows d) i = Some p ->
       row_at d' j = row_at d p.
Proof.
  unfold iloc, well_formed, nrows, row_at. intros Hwf Hiloc.
  destruct (take_rows (index d) ids) as [ix |] eqn:Hix; cbn in Hiloc;
    [| discriminate].
  destruct (take_columns (columns d) ids) as [cs |] eqn:Hcs; cbn in Hiloc;
    [| discriminate].
  injection Hiloc as <-. cbn [index columns].
  apply take_rows_lookup in Hix as [Hlen Hix].
  destruct (take_columns_lookup _ _ _ _ Hcs Hwf) as [Hlens Hcells].
  split; [exact Hlen |]. split; [by rewrite Hlen |].
  intros j i p Hj Hp. f_equal; [by eapply Hix | by eapply Hcells].
Qed.

Lemma iloc_total d ids :
  well_formed d ->
  Forall (fun i => -Z.of_nat (nrows d) <= i < Z.of_nat (nrows d)) ids ->
  exists d', iloc d ids = Ok d'.
Proof.
  intros Hwf Hids. unfold iloc.
  destruct (take_rows_total (index d) ids Hids) as [ix ->].
  destruct (take_columns_total _ _ _ Hwf Hids) as [cs ->].
  by eexists.
Qed.

(** Slicing features and labels by one index sequence keeps them aligned. *)
Lemma iloc_aligned X y ids Xs ys :
  well_formed X -> well_formed y -> nrows X = nrows y ->
  iloc X ids = Ok Xs -> iloc y ids = Ok ys ->
  aligned X y ids Xs ys.
Proof.
  intros HX Hy Hn HXs Hys.
  destruct (iloc_rows _ _ _ HX HXs) as (HnX & _ & HrX).
  destruct (iloc_rows _ _ _ Hy Hys) as (Hny & _ & Hry).
  split; [exact HnX |]. split; [exact Hny |].
  intros j i Hj.
  assert (is_Some (position (nrows X) i)) as [p Hp].
  { unfold iloc in HXs.
    destruct (take_rows (index X) ids) as [ix |] eqn:Hix; [| discriminate].
    clear -Hix Hj. revert j ix Hix Hj.
    induction ids as [| i0 ids IH]; intros j ix Hix Hj; [by destruct j |].
    cbn in Hix.
    destruct (py_index (index X) i0) as [x |] eqn:Hx; [| discriminate].
    destruct (take_rows (index X) ids) as [xs |] eqn:Hxs; [| discriminate].
    destruct j as [| j]; cbn in Hj.
    - injection Hj as ->. apply py_index_position in Hx as (p & Hp & _).
      unfold nrows. eauto.
    - by eapply IH. }
  exists p. split; [exact Hp |]. split; [by eapply position_lt |].
  split; [by eapply HrX |]. eapply Hry; [exact Hj |]. by rewrite <- Hn.
Qed.

Lemma well_formed_filter d (f : label * column -> bool) :
  well_formed d -> well_formed (mkDF (index d) (List.filter f (columns d))).
Proof.
  unfold well_formed, nrows. cbn [index columns]. rewrite !Forall_forall.
  intros Hwf lc Hlc. apply Hwf.
  apply list_elem_of_In, filter_In in Hlc as [Hlc _]. by apply list_elem_of_In.
Qed.

(** The partition the data preparation derives from a table: the features
    ([drop] of the target) and the labels (the target column) are
    well-formed frames over the same row labels. *)
Lemma features_labels_aligned d target X y :
  well_formed d ->
  drop [target] d = Ok X ->
  select d target = Ok y ->
  index X = index y /\ nrows X = nrows y /\ well_formed X /\ well_formed y.
Proof.
  unfold drop, select. intros Hwf HX Hy.
  destruct (List.find _ _); [discriminate |]. injection HX as <-.
  destruct (List.filter (fun lc => bool_decide (fst lc = target)) (columns d))
    as [| lc cs] eqn:Hf; [discriminate |].
  injection Hy as <-. rewrite <- Hf.
  repeat split; by apply well_formed_filter.
Qed.

End Slicing.

(** *** Timed calls and the two draws of a trial *)

Section Draws.
Context `{L : Libs}.

Lemma clock_read (s : state) :
  ext_total "time" time_time s = (Ok (reading s), clocked s).
Proof.
  unfold clocked, reading, ext_total, ext.
  by destruct (time_time (w s)).
Qed.

Lemma timeit_ok {A} name (call : M state A) s r s2 :
  call (clocked s) = (Ok r, s2) ->
  timeit name call s
  = (Ok r, record name (reading s2 - reading s) (clocked s2)).
Proof.
  intros Hcall. unfold timeit.
  rewrite (bind_ok _ _ _ _ _ (clock_read s)).
  rewrite (bind_ok _ _ _ _ _ Hcall).
  rewrite (bind_ok _ _ _ _ _ (clock_read s2)).
  reflexivity.
Qed.

Lemma timeit_raise {A} name (call : M state A) s e s2 :
  call (clocked s) = (Raise e, s2) ->
  timeit name call s = (Raise e, s2).
Proof.
  intros Hcall. unfold timeit.
  rewrite (bind_ok _ _ _ _ _ (clock_read s)).
  by rewrite (bind_raise _ _ _ _ _ Hcall).
Qed.

(** A timed call that returned ran its call between two readings of the
    clock and stored their difference under its name. *)
Lemma timeit_inv {A} name (call : M state A) s r s' :
  timeit name call s = (Ok r, s') ->
  exists s2, call (clocked s) = (Ok r, s2)
             /\ s' = record name (reading s2 - reading s) (clocked s2).
Proof.
  intros Hrun. destruct (call (clocked s)) as [[r' | e] s2] eqn:Hcall.
  - rewrite (timeit_ok _ _ _ _ _ Hcall) in Hrun.
    injection Hrun as -> <-. eauto.
  - rewrite (timeit_raise _ _ _ _ _ Hcall) in Hrun. discriminate.
Qed.

Lemma np_random_choice_inv n size (s s' : state) ids :
  np_random_choice n size s = (Ok ids, s') ->
  (size <= n)%nat
  /\ ids = map Z.of_nat (firstn size (fst (np_random_permutation n (w s)))).
Proof.
  unfold np_random_choice. destruct (n <? size)%nat eqn:Hlt.
  - unfold ext. discriminate.
  - apply Nat.ltb_ge in Hlt. unfold ext_total, ext.
    destruct (np_random_permutation n (w s)) as [p w']. intros [= <- _].
    done.
Qed.

Lemma np_random_choice_total n size (s : state) :
  (size <= n)%nat -> exists ids s', np_random_choice n size s = (Ok ids, s').
Proof.
  intros Hle. unfold np_random_choice.
  rewrite (proj2 (Nat.ltb_ge n size)) by done.
  unfold ext_total, ext. destruct (np_random_permutation n (w s)). eauto.
Qed.

(** What numpy promises of a sample without replacement. *)
Lemma np_random_choice_sample n size (s s' : state) ids :
  np_random_choice n size s = (Ok ids, s') ->
  length ids = size
  /\ NoDup ids
  /\ Forall (fun i => 0 <= i < Z.of_nat n) ids.
Proof.
  intros Hc. apply np_random_choice_inv in Hc as [Hle ->].
  pose proof (np_random_permutation_spec n (w s)) as Hperm.
  set (p := fst (np_random_permutation n (w s))) in *.
  assert (length p = n) as Hlen
    by (rewrite (Permutation_length Hperm); apply length_seq).
  assert (NoDup p) as Hnd.
  { apply (NoDup_Permutation_proper _ _ Hperm). apply NoDup_seq. }
  split; [| split].
  - rewrite length_map, length_firstn. lia.
  - apply (NoDup_fmap_2 Z.of_nat).
    eapply sublist_NoDup; [exact Hnd | apply sublist_take].
  - apply Forall_forall. intros i Hi.
    apply list_elem_of_fmap in Hi as (k & -> & Hk).
    apply (subseteq_take size p), list_elem_of_In in Hk.
    apply (Permutation_in _ Hperm), in_seq in Hk. lia.
Qed.

(** The steps of [draw_samples], read off a run that returned. *)
Lemma draw_samples_inv X y kernel m g seed (s s' : state) sm :
  draw_samples X y kernel m g seed s = (Ok sm, s') ->
  exists s1 s2,
    ext "compress"
        (compress_compress (to_numpy X)
           (fun x => kt_thin x m kernel kernel true seed true) g)
        (clocked (seeded seed s)) = (Ok (ids_compressed sm), s1)
    /\ np_random_choice (nrows X) (length (ids_compressed sm))
         (clocked (record "kt" (reading s1 - reading (seeded seed s))
                          (clocked s1)))
       = (Ok (ids_random sm), s2)
    /\ s' = record "random"
              (reading s2
               - reading (record "kt" (reading s1 - reading (seeded seed s))
                                 (clocked s1)))
              (clocked s2)
    /\ iloc X (ids_compressed sm) = Ok (X_compressed sm)
    /\ iloc y (ids_compressed sm) = Ok (y_compressed sm)
    /\ iloc X (ids_random sm) = Ok (X_random sm)
    /\ iloc y (ids_random sm) = Ok (y_random sm).
Proof.
  unfold draw_samples. intros Hrun.
  apply bind_inv in Hrun as ([] & s0 & Hseed & Hrun).
  assert (s0 = seeded seed s) as -> by (unfold seeded; by rewrite Hseed).
  apply bind_inv in Hrun as (ids_c & s1' & Hkt & Hrun).
  apply timeit_inv in Hkt as (s1 & Hkt & ->).
  apply bind_inv in Hrun as (ids_r & s2' & Hrandom & Hrun).
  apply timeit_inv in Hrandom as (s2 & Hrandom & ->).
  inv_bind Hrun. subst sm s'. cbn [ids_compressed ids_random X_compressed
    y_compressed X_random y_random].
  exists s1, s2. repeat split; assumption.
Qed.

(** C3. In every trial that draws its samples, whatever the seed: the
    compressed indices are what the compression returned on the test
    features, numpy's generator having been seeded with the seed of the
    trial; the random-control indices are numpy's choice, drawn next from
    that same generator, of as many of the row positions of the test
    features, that is the first so many entries of a permutation of them.
    So they are as many as the compressed indices, pairwise distinct (drawn
    without replacement) and row positions; hence, the compression
    returning distinct indices, the two index sets have the same
    cardinality. *)
Theorem draw_samples_cardinality X y kernel m g seed (s s' : state) sm :
  draw_samples X y kernel m g seed s = (Ok sm, s') ->
  exists s1 s2,
    ext "compress"
        (compress_compress (to_numpy X)
           (fun x => kt_thin x m kernel kernel true seed true) g)
        (clocked (seeded seed s)) = (Ok (ids_compressed sm), s1)
    /\ np_random_choice (nrows X) (length (ids_compressed sm))
         (clocked (record "kt" (reading s1 - reading (seeded seed s))
                          (clocked s1)))
       = (Ok (ids_random sm), s2)
    /\ ids_random sm
       = map Z.of_nat
           (firstn (length (ids_compressed sm))
              (fst (np_random_permutation (nrows X)
                      (w (clocked (record "kt"
                                     (reading s1 - reading (seeded seed s))
                                     (clocked s1)))))))
    /\ length (ids_random sm) = length (ids_compressed sm)
    /\ NoDup (ids_random sm)
    /\ Forall (fun i => 0 <= i < Z.of_nat (nrows X)) (ids_random sm)
    /\ (NoDup (ids_compressed sm) ->
        size (list_to_set (ids_random sm) : gset Z)
        = size (list_to_set (ids_compressed sm) : gset Z)).
Proof.
  intros Hrun.
  apply draw_samples_inv in Hrun as (s1 & s2 & Hkt & Hchoice & _).
  exists s1, s2. split; [exact Hkt |]. split; [exact Hchoice |].
  destruct (np_random_choice_inv _ _ _ _ _ Hchoice) as [_ Hids].
  split; [exact Hids |].
  apply np_random_choice_sample in Hchoice as (Hlen & Hnd & Hrange).
  repeat split; try assumption.
  intros Hndc. by rewrite !size_list_to_set, Hlen.
Qed.

(** The draws do happen: when the compression returns row positions of the
    test features, no more of them than there are rows, the trial gets its
    two index sets and its four slices. *)
Lemma draw_samples_total X y kernel m g seed (s s1 : state) ids :
  well_formed X -> well_formed y -> nrows X = nrows y ->
  ext "compress"
      (compress_compress (to_numpy X)
         (fun x => kt_thin x m kernel kernel true seed true) g)
      (clocked (seeded seed s)) = (Ok ids, s1) ->
  (length ids <= nrows X)%nat ->
  Forall (fun i => 0 <= i < Z.of_nat (nrows X)) ids ->
  exists sm s', draw_samples X y kernel m g seed s = (Ok sm, s')
                /\ ids_compressed sm = ids.
Proof.
  intros HX Hy Hn Hkt Hlen Hids. unfold draw_samples.
  assert (ext_total "seed" (fun w0 => (tt, np_random_seed seed w0)) s
          = (Ok tt, seeded seed s)) as Hseed by reflexivity.
  rewrite (bind_ok _ _ _ _ _ Hseed).
  rewrite (bind_ok _ _ _ _ _ (timeit_ok "kt" _ _ _ _ Hkt)).
  set (s1' := record "kt" _ _).
  destruct (np_random_choice_total (nrows X) (length ids) (clocked s1') Hlen)
    as (ids_r & s2 & Hchoice).
  rewrite (bind_ok _ _ _ _ _ (timeit_ok "random" _ _ _ _ Hchoice)).
  destruct (np_random_choice_sample _ _ _ _ _ Hchoice) as (_ & _ & Hr).
  assert (forall l, Forall (fun i => 0 <= i < Z.of_nat (nrows X)) l ->
                    Forall (fun i => - Z.of_nat (nrows X) <= i
                                     < Z.of_nat (nrows X)) l) as Hweak.
  { intros l Hl. eapply Forall_impl; [exact Hl | cbn; lia]. }
  destruct (iloc_total X ids HX (Hweak _ Hids)) as [Xc HXc].
  destruct (iloc_total y ids Hy) as [yc Hyc];
    [rewrite <- Hn; by apply Hweak |].
  destruct (iloc_total X ids_r HX (Hweak _ Hr)) as [Xr HXr].
  destruct (iloc_total y ids_r Hy) as [yr Hyr];
    [rewrite <- Hn; by apply Hweak |].
  rewrite !bind_lift, HXc. rewrite !bind_lift, Hyc.
  rewrite !bind_lift, HXr. rewrite !bind_lift, Hyr.
  eexists _, _. split; reflexivity.
Qed.

(** C4. In every trial the compressed and the random slices keep features
    and labels aligned: at each place of a slice, the feature row and the
    label row are the rows of the test partition at one and the same
    position, the one the index at that place addresses. *)
Theorem draw_samples_aligned X y kernel m g seed (s s' : state) sm :
  well_formed X -> well_formed y -> nrows X = nrows y ->
  draw_samples X y kernel m g seed s = (Ok sm, s') ->
  aligned X y (ids_compressed sm) (X_compressed sm) (y_compressed sm)
  /\ aligned X y (ids_random sm) (X_random sm) (y_random sm).
Proof.
  intros HX Hy Hn Hrun.
  apply draw_samples_inv in Hrun
    as (s1 & s2 & _ & _ & _ & HXc & Hyc & HXr & Hyr).
  split; by eapply iloc_aligned.
Qed.

(** Aligned slices carry the same row labels when the partition does. *)
Lemma aligned_index X y ids Xs ys :
  index X = index y -> aligned X y ids Xs ys -> index Xs = index ys.
Proof.
  intros Hix (HnX & Hny & Hrows). apply list_eq. intros j.
  destruct (ids !! j) as [i |] eqn:Hj.
  - destruct (Hrows j i Hj) as (p & _ & _ & HX & Hy).
    unfold row_at in *. injection HX as HX _. injection Hy as Hy _.
    by rewrite HX, Hy, Hix.
  - apply lookup_ge_None in Hj. unfold nrows in *.
    rewrite !(proj2 (lookup_ge_None _ _)) by lia. done.
Qed.

End Draws.

Lemma draw_samples_cardinality_witness :
  exists sm s',
    draw_samples (L := Fixtures.libs) Fixtures.features Fixtures.targets
                 tt 1 0 0 Fixtures.start = (Ok sm, s')
    /\ ids_compressed sm = [0; 2]
    /\ ids_random sm = [3; 2]
    /\ length (ids_random sm) = length (ids_compressed sm)
    /\ NoDup (ids_random sm)
    /\ Forall (fun i => 0 <= i < Z.of_nat (nrows Fixtures.features))
              (ids_random sm)
    /\ (NoDup (ids_compressed sm) ->
        size (list_to_set (ids_random sm) : gset Z)
        = size (list_to_set (ids_compressed sm) : gset Z)).
Proof.
  destruct (draw_samples (L := Fixtures.libs) Fixtures.features
              Fixtures.targets tt 1 0 0 Fixtures.start)
    as [[sm | e] s'] eqn:Hrun.
  - exists sm, s'. split; [reflexivity |].
    destruct (draw_samples_cardinality (L := Fixtures.libs) Fixtures.features
                Fixtures.targets tt 1 0 0 Fixtures.start s' sm Hrun)
      as (s1 & s2 & Hkt & _ & Hids & Hrest).
    apply (f_equal fst) in Hkt. cbn in Hkt. injection Hkt as Hkt.
    rewrite <- Hkt in Hids. cbn in Hids.
    split; [by symmetry |]. split; [exact Hids | exact Hrest].
  - exfalso. apply (f_equal (fun r => is_ok (fst r))) in Hrun.
    vm_compute in Hrun. discriminate Hrun.
Defined.

Lemma fixtures_well_formed :
  well_formed Fixtures.features /\ well_formed Fixtures.targets.
Proof. split; repeat constructor. Qed.

Lemma draw_samples_aligned_witness :
  exists sm s',
    draw_samples (L := Fixtures.libs) Fixtures.features Fixtures.targets
                 tt 1 0 0 Fixtures.start = (Ok sm, s')
    /\ aligned Fixtures.features Fixtures.targets (ids_compressed sm)
               (X_compressed sm) (y_compressed sm)
    /\ aligned Fixtures.features Fixtures.targets (ids_random sm)
               (X_random sm) (y_random sm).
Proof.
  destruct (draw_samples (L := Fixtures.libs) Fixtures.features
              Fixtures.targets tt 1 0 0 Fixtures.start)
    as [[sm | e] s'] eqn:Hrun.
  - exists sm, s'. split; [reflexivity |].
    exact (draw_samples_aligned (L := Fixtures.libs) Fixtures.features
             Fixtures.targets tt 1 0 0 Fixtures.start s' sm
             (proj1 fixtures_well_formed) (proj2 fixtures_well_formed)
             eq_refl Hrun).
  - exfalso. apply (f_equal (fun r => is_ok (fst r))) in Hrun.
    vm_compute in Hrun. discriminate Hrun.
Defined.

(** *** Permutation importance *)

Section Importance.
Context `{L : Libs}.

Lemma sort_values_variable_length l :
  length (sort_values_variable l) = length l.
Proof.
  unfold sort_values_variable. apply Permutation_length.
  apply merge_sort_Permutation.
Qed.

(** The slice [1:X.shape[1]] keeps at most one row less than there are
    features. *)
Lemma pvi_of_length result X :
  length (pvi_of result X)
  = Nat.min (ncols X - 1) (length result - 1).
Proof.
  unfold pvi_of, iloc_slice.
  rewrite length_map, sort_values_variable_length, length_firstn, length_skipn.
  by rewrite length_imap.
Qed.

(** So, when the table has one real row per feature, the importance vector
    misses at least one of them. *)
Lemma pvi_of_misses_a_variable result X :
  length (List.filter (fun r => negb (synthetic (variable r))) result)
  = ncols X ->
  (0 < ncols X)%nat ->
  (length (pvi_of result X) < ncols X)%nat.
Proof. intros _ Hpos. rewrite pvi_of_length. lia. Qed.

Lemma StronglySorted_filter {A} (R : A -> A -> Prop) (f : A -> bool) l :
  StronglySorted R l -> StronglySorted R (List.filter f l).
Proof.
  induction 1 as [| x l Hl IH Hx]; cbn; [constructor |].
  destruct (f x); [| exact IH]. constructor; [exact IH |].
  apply Forall_forall. intros y Hy.
  apply list_elem_of_In, filter_In in Hy as [Hy _].
  rewrite Forall_forall in Hx. apply Hx. by apply list_elem_of_In.
Qed.

(** dalex lists the rows by increasing loss; the variable the code picks,
    the last row that is not synthetic, then has the highest loss among the
    real variables. *)
Lemma most_important_highest result v :
  StronglySorted (fun r1 r2 => (dropout_loss r1 <= dropout_loss r2)%Q) result ->
  most_important result = Ok v ->
  exists r, r ∈ result /\ variable r = v /\ synthetic v = false
            /\ forall r', r' ∈ result -> synthetic (variable r') = false ->
                 (dropout_loss r' <= dropout_loss r)%Q.
Proof.
  unfold most_important. intros Hsorted Hlast.
  destruct (last _) as [r |] eqn:Hr; [| discriminate]. injection Hlast as <-.
  apply last_Some in Hr as [pre Hpre].
  assert (In r (List.filter (fun r => negb (synthetic (variable r))) result))
    as Hin by (rewrite Hpre; apply in_or_app; right; by left).
  apply filter_In in Hin as [Hin Hreal].
  exists r. split; [by apply list_elem_of_In |]. split; [done |].
  split; [by apply negb_true_iff |].
  intros r' Hr' Hreal'.
  assert (In r' (List.filter (fun r => negb (synthetic (variable r))) result))
    as Hin'.
  { apply filter_In. split; [by apply list_elem_of_In |]. by rewrite Hreal'. }
  apply (StronglySorted_filter _ (fun r => negb (synthetic (variable r))))
    in Hsorted.
  rewrite Hpre in Hsorted, Hin'.
  apply StronglySorted_app in Hsorted as (Hle & _ & _).
  apply in_app_or in Hin' as [Hin' | [<- | []]].
  - apply Hle; [by apply list_elem_of_In | by left].
  - apply Qle_refl.
Qed.

Lemma linspace_Q_length a b n : length (linspace_Q a b n) = n.
Proof.
  destruct n as [| [| n]]; [done | done |].
  unfold linspace_Q. rewrite length_app, length_map, length_seq.
  change (length [b]) with 1%nat. clear. lia.
Qed.

(** The grid starts at [start], ends at [stop] and advances by a constant
    step. *)
Lemma linspace_Q_points a b n i :
  (2 <= n)%nat -> (i < n - 1)%nat ->
  linspace_Q a b n !! i
  = Some (a + inject_Z (Z.of_nat i)
              * ((b - a) / inject_Z (Z.of_nat (n - 1))))%Q.
Proof.
  intros Hn Hi. destruct n as [| [| n]]; [lia | lia |].
  unfold linspace_Q. replace (S (S n) - 1)%nat with (S n) in * by lia.
  rewrite lookup_app_l by (rewrite length_map, length_seq; lia).
  rewrite list_lookup_fmap, lookup_seq_lt by lia. reflexivity.
Qed.

Lemma linspace_Q_last a b n :
  (2 <= n)%nat ->
  last (linspace_Q a b n) = Some b
  /\ (b == a + inject_Z (Z.of_nat (n - 1))
              * ((b - a) / inject_Z (Z.of_nat (n - 1))))%Q.
Proof.
  intros Hn. destruct n as [| [| n]]; [lia | lia |]. split.
  - unfold linspace_Q. apply last_snoc.
  - replace (S (S n) - 1)%nat with (S n) by lia.
    field. unfold Qeq, inject_Z. cbn [Qnum Qden]. lia.
Qed.

Lemma linspace_length lo hi n g :
  linspace lo hi n = Ok g -> length g = Z.to_nat n.
Proof.
  unfold linspace. destruct (n <? 0); [discriminate |].
  destruct lo, hi; intros [= <-];
    rewrite ?length_map, ?linspace_Q_length, ?repeat_length; done.
Qed.

(** What the stage returns when it runs: the variable picked from the
    table and a grid of [pdp_domain] points over that variable's column. *)
Lemma calc_pvi_grid c dx X name (s s' : state) ps (m : bundle) mv mg :
  pvi_params c = Some ps ->
  calc_pvi c dx X name s = (Ok (m, mv, mg), s') ->
  exists result v col lo hi grid,
    m = <["pvi" := VArray (Series (pvi_of result X))]> ∅
    /\ mv = Some v /\ mg = Some (v, grid)
    /\ most_important result = Ok v
    /\ getitem X (LStr v) = Ok col
    /\ series_min col = Ok lo /\ series_max col = Ok hi
    /\ linspace lo hi (pdp_domain c) = Ok grid
    /\ length grid = Z.to_nat (pdp_domain c).
Proof.
  unfold calc_pvi. intros -> Hrun.
  apply bind_inv in Hrun as (result & s1 & _ & Hrun).
  rewrite bind_lift in Hrun.
  destruct (most_important result) as [v |] eqn:Hv; [| discriminate].
  rewrite bind_lift in Hrun.
  destruct (getitem X (LStr v)) as [col |] eqn:Hcol; [| discriminate].
  rewrite bind_lift in Hrun.
  destruct (series_min col) as [lo |] eqn:Hlo; [| discriminate].
  rewrite bind_lift in Hrun.
  destruct (series_max col) as [hi |] eqn:Hhi; [| discriminate].
  rewrite bind_lift in Hrun.
  destruct (linspace lo hi (pdp_domain c)) as [grid |] eqn:Hgrid;
    [| discriminate].
  apply ret_inv in Hrun as [[= <- <- <-] _].
  exists result, v, col, lo, hi, grid.
  repeat split; try done. by eapply linspace_length.
Qed.

End Importance.

(** C5, where the code departs from it. For two features [a] and [b] dalex
    reports four rows: the full model, [b], [a], the baseline. The code
    picks [a] as the most important variable, but its importance vector is
    the slice of rows 1 to 1: it holds the loss of [b] alone, while
    dropping the two synthetic rows leaves the losses of [a] and [b]. *)
Theorem pvi_of_omits_top_variable :
  pvi_of Fixtures.importance_table Fixtures.features = [(1%nat, 2 # 10)]
  /\ importance_by_name Fixtures.importance_table
     = [(2%nat, 3 # 10); (1%nat, 2 # 10)]
  /\ most_important Fixtures.importance_table = Ok "a"
  /\ ncols Fixtures.features = 2%nat.
Proof. repeat split; reflexivity. Qed.

(** The slice is by position: when a variable ranks below the full model,
    the row of the full model itself ends up in the importance vector. *)
Example pvi_of_keeps_full_model_row :
  pvi_of Fixtures.importance_table_noise Fixtures.features
  = [(1%nat, 1 # 10)]
  /\ Fixtures.importance_table_noise !! 1%nat = Some (mk_vi "_full_model_" (1 # 10)).
Proof. split; reflexivity. Qed.

(** *** The feature-wise Wasserstein distance *)

Section Wasserstein.

#[local] Instance Qcle_total : Total Qcle.
Proof.
  intros x y. destruct (Qclt_le_dec x y) as [H | H]; [left | right]; [| done].
  by apply Qclt_le_weak.
Qed.

#[local] Instance Qcle_transitive : Transitive Qcle.
Proof. intros x y z. apply Qcle_trans. Qed.

#[local] Instance Qcle_antisymm : AntiSymm (=) Qcle.
Proof. intros x y. apply Qcle_antisym. Qed.

Lemma pooled_values_comm (a b : list Qc) :
  merge_sort Qcle (a ++ b) = merge_sort Qcle (b ++ a).
Proof.
  apply (Sorted_unique Qcle); try apply Sorted_merge_sort; try apply _.
  rewrite !merge_sort_Permutation. apply Permutation_app_comm.
Qed.

Lemma integral_comm a b l : Scipy.integral a b l = Scipy.integral b a l.
Proof.
  induction l as [| x rest IH]; [done |]. cbn [Scipy.integral].
  destruct rest as [| x' rest]; [done |].
  by rewrite IH, Qcabs_Qcminus.
Qed.

Lemma floats_raise cs e :
  Scipy.floats cs = Raise e -> e = ValueError "not a finite number".
Proof.
  induction cs as [| [| q |] cs IH]; cbn; try congruence.
  destruct (Scipy.floats cs); cbn; [discriminate |].
  intros [= <-]. by apply IH.
Qed.

(** scipy's distance, computed exactly, does not depend on the order of
    its two samples. *)
Lemma cdf_distance_sym u v : Scipy.cdf_distance u v = Scipy.cdf_distance v u.
Proof.
  unfold Scipy.cdf_distance.
  destruct (Scipy.floats u) as [a | e1] eqn:Hu,
           (Scipy.floats v) as [b | e2] eqn:Hv; cbn [rbind].
  - destruct a as [| x a], b as [| y b]; try reflexivity.
    by rewrite pooled_values_comm, integral_comm.
  - reflexivity.
  - reflexivity.
  - by rewrite (floats_raise _ _ Hu), (floats_raise _ _ Hv).
Qed.

End Wasserstein.

Section Distance.
Context `{L : Libs}.

(** The value [compute_wasserstein_distance] returns. *)
Lemma compute_wasserstein_distance_value (A B : ndarray) (s : state) :
  fst (compute_wasserstein_distance A B s)
  = (let? ds := sequence
                  (map (fun i =>
                          let? u := column_of A i in
                          let? v := column_of B i in
                          wasserstein_distance u v)
                       (seq 0 (shape1 A))) in
     Ok (np_sum ds)).
Proof.
  unfold compute_wasserstein_distance, bind, print, modify, lift, ret.
  by destruct (sequence _).
Qed.

(** What it prints: the two shapes, in the order of its arguments. *)
Lemma compute_wasserstein_distance_prints (A B : ndarray) (s : state) :
  stdout (snd (compute_wasserstein_distance A B s))
  = stdout s ++ [PrShape (shape0 A) (shape1 A); PrShape (shape0 B) (shape1 B)].
Proof.
  unfold compute_wasserstein_distance, bind, print, modify, lift, ret.
  destruct (sequence _); cbn; by rewrite <- app_assoc.
Qed.

(** C9. For two arrays with the same number of columns, the feature-wise
    Wasserstein distance does not depend on the order of the arguments,
    scipy's one-dimensional distance being symmetric. *)
Theorem compute_wasserstein_distance_symmetric (A B : ndarray) (s : state) :
  (forall u v, wasserstein_distance u v = wasserstein_distance v u) ->
  shape1 A = shape1 B ->
  fst (compute_wasserstein_distance A B s)
  = fst (compute_wasserstein_distance B A s).
Proof.
  intros Hsym Hshape. rewrite !compute_wasserstein_distance_value.
  rewrite <- Hshape. f_equal. f_equal. apply map_ext_in. intros i Hi.
  apply in_seq in Hi. unfold column_of. rewrite <- Hshape.
  rewrite (proj2 (Nat.ltb_lt i (shape1 A))) by lia. cbn [rbind].
  apply Hsym.
Qed.

End Distance.

Lemma compute_wasserstein_distance_symmetric_witness :
  fst (compute_wasserstein_distance (L := Fixtures.libs)
         (to_numpy Fixtures.features)
         (mkArr 2 2 [[Num 1; Num 5]; [Num 4; Num 9]]) Fixtures.start)
  = fst (compute_wasserstein_distance (L := Fixtures.libs)
           (mkArr 2 2 [[Num 1; Num 5]; [Num 4; Num 9]])
           (to_numpy Fixtures.features) Fixtures.start).
Proof.
  apply (compute_wasserstein_distance_symmetric (L := Fixtures.libs)).
  - exact cdf_distance_sym.
  - reflexivity.
Defined.

(** *** The timing table *)

Section Timing.
Context `{L : Libs}.

Lemma writes_ret {A} keys (a : A) : writes keys (ret a).
Proof. intros s r s' [= _ <-]. done. Qed.

Lemma writes_raise {A} keys e : writes (A := A) keys (raise e).
Proof. intros s r s' [= _ <-]. done. Qed.

Lemma writes_lift {A} keys (x : res A) : writes keys (lift x).
Proof. intros s r s' [= _ <-]. done. Qed.

Lemma writes_get keys : writes keys get.
Proof. intros s r s' [= _ <-]. done. Qed.

Lemma writes_bind {A B} keys (c : M state A) (k : A -> M state B) :
  writes keys c -> (forall a, writes keys (k a)) -> writes keys (bind c k).
Proof.
  intros Hc Hk s r s' Hrun key Hkey. unfold bind in Hrun.
  destruct (c s) as [[a | e] s1] eqn:Hcs.
  - rewrite (Hk a _ _ _ Hrun key Hkey). by eapply Hc.
  - injection Hrun as _ <-. by eapply Hc.
Qed.

Lemma writes_ext {A} keys name (f : world -> res A * world) :
  writes keys (ext name f).
Proof.
  intros s r s' Hrun key _. unfold ext in Hrun.
  destruct (f (w s)) as [r' w']. by injection Hrun as _ <-.
Qed.

Lemma writes_ext_total {A} keys name (f : world -> A * world) :
  writes keys (ext_total name f).
Proof. apply writes_ext. Qed.

Lemma writes_print keys p : writes keys (print p).
Proof. intros s r s' [= _ <-]. done. Qed.

Lemma writes_set_model keys m : writes keys (set_model m).
Proof. intros s r s' [= _ <-]. done. Qed.

Lemma writes_set_base_metrics keys b : writes keys (set_base_metrics b).
Proof. intros s r s' [= _ <-]. done. Qed.

Lemma writes_set_times keys name q :
  name ∈ keys -> writes keys (set_times (fun t => <[name := q]> t)).
Proof.
  intros Hin s r s' [= _ <-] key Hkey. cbn.
  apply lookup_insert_ne. intros ->. by apply Hkey.
Qed.

Lemma writes_timeit {A} keys name (call : M state A) :
  name ∈ keys -> writes keys call -> writes keys (timeit name call).
Proof.
  intros Hin Hcall. unfold timeit.
  apply writes_bind; [apply writes_ext_total | intros st].
  apply writes_bind; [exact Hcall | intros r].
  apply writes_bind; [apply writes_ext_total | intros et].
  apply writes_bind; [by apply writes_set_times | intros _].
  apply writes_ret.
Qed.

Lemma writes_self_model_predict keys : writes keys self_model_predict.
Proof.
  apply writes_bind; [apply writes_get | intros s].
  destruct (model s); [apply writes_ret | apply writes_raise].
Qed.

(** Break a goal [writes keys c] along the structure of [c]; [known] is
    tried first on every piece. *)
Ltac writes_steps known :=
  repeat first
    [ known
    | apply writes_ret | apply writes_raise | apply writes_lift
    | apply writes_get | apply writes_ext | apply writes_ext_total
    | apply writes_print | apply writes_set_model
    | apply writes_set_base_metrics | apply writes_self_model_predict
    | apply writes_bind; [| intros ?]
    | match goal with
      | |- writes _ (match ?x with _ => _ end) => destruct x
      | |- writes _ (if ?x then _ else _) => destruct x
      | |- writes _ (let '(_, _) := ?x in _) => destruct x
      end ].

Lemma writes_calc_shap keys c X name :
  name ∈ keys -> writes keys (calc_shap c X name).
Proof.
  intros Hin. unfold calc_shap.
  writes_steps ltac:(apply writes_timeit; [exact Hin |]).
Qed.

Lemma writes_calc_pvi keys c dx X name :
  name ∈ keys -> writes keys (calc_pvi c dx X name).
Proof.
  intros Hin. unfold calc_pvi.
  writes_steps ltac:(apply writes_timeit; [exact Hin |]).
Qed.

Lemma writes_calc_pdp_ale keys dx ps v g name :
  name ∈ keys -> writes keys (calc_pdp_ale dx ps v g name).
Proof.
  intros Hin. unfold calc_pdp_ale. cbv zeta.
  writes_steps ltac:(apply writes_timeit; [exact Hin |]).
Qed.

Lemma writes_calculate_metrics c X y name_suffix :
  writes (metric_timers name_suffix) (calculate_metrics c X y name_suffix).
Proof.
  unfold calculate_metrics, metric_timers, get_dx, calc_pdp, calc_ale.
  cbv zeta.
  writes_steps ltac:(first [ apply writes_calc_shap | apply writes_calc_pvi
                           | apply writes_calc_pdp_ale ]; [set_solver]).
Qed.

Lemma writes_compute_wasserstein_distance A B :
  writes [] (compute_wasserstein_distance A B).
Proof. unfold compute_wasserstein_distance. writes_steps fail. Qed.

Lemma writes_exp_results_to_df df base random compressed times seed metric :
  writes [] (exp_results_to_df df base random compressed times seed metric).
Proof.
  unfold exp_results_to_df. cbv zeta.
  writes_steps ltac:(apply writes_compute_wasserstein_distance).
Qed.

Lemma time_columns_lookup (times : gmap string Q) k :
  time_columns times !! ("time_" +:+ k) = times !! k.
Proof. unfold time_columns. apply (lookup_kmap (String.append "time_")). Qed.

Lemma update_new (d new : row) key v :
  new !! key = Some v -> update d new !! key = Some v.
Proof. intros Hnew. unfold update. by apply lookup_union_Some_l. Qed.

Lemma update_old (d new : row) key :
  new !! key = None -> update d new !! key = d !! key.
Proof. intros Hnew. unfold update. by apply lookup_union_r. Qed.

Lemma not_a_time_column (a b : string) (x y : Q) k :
  (forall k', a <> "time_" +:+ k') -> (forall k', b <> "time_" +:+ k') ->
  (<[a := x]> (<[b := y]> (∅ : row))) !! ("time_" +:+ k) = None.
Proof.
  intros Ha Hb. rewrite !lookup_insert_ne by done. apply lookup_empty.
Qed.

(** The reducer appends one row, keyed by the seed, that holds every entry
    of the timing table it is given. *)
Lemma exp_results_to_df_row df base random compressed (times : gmap string Q)
    seed metric (s s' : state) rs' :
  exp_results_to_df df base random compressed times seed metric s
  = (Ok rs', s') ->
  exists r, rs' = df ++ [(seed, r)]
            /\ forall k v, times !! k = Some v ->
                 r !! ("time_" +:+ k) = Some v.
Proof.
  unfold exp_results_to_df. cbv zeta. intros Hrun.
  rewrite bind_lift in Hrun.
  destruct (let? x := item base "X" in frame_numpy x) as [bx |];
    [| discriminate].
  apply bind_inv in Hrun as ([] & s1 & _ & Hrun).
  apply bind_inv in Hrun as (row1 & s2 & _ & Hrun).
  rewrite bind_lift in Hrun.
  destruct (diffs_loop base random compressed _ row1) as [row2 |];
    [| discriminate].
  rewrite bind_lift in Hrun.
  destruct (let? x := item random "X" in frame_numpy x) as [rx |];
    [| discriminate].
  apply bind_inv in Hrun as (wd_r & s3 & _ & Hrun).
  rewrite bind_lift in Hrun.
  destruct (let? x := item compressed "X" in frame_numpy x) as [cx |];
    [| discriminate].
  apply bind_inv in Hrun as (wd_c & s4 & _ & Hrun).
  apply bind_inv in Hrun as (row3 & s5 & Hsv & Hrun).
  apply ret_inv in Hrun as [<- _].
  exists row3. split; [reflexivity |]. intros k v Hk.
  assert (update (update row2 (time_columns times))
                 (<["wd_random" := wd_r]> (<["wd_compressed" := wd_c]> ∅))
          !! ("time_" +:+ k) = Some v) as Hrow.
  { rewrite update_old by (by apply not_a_time_column).
    apply update_new. by rewrite time_columns_lookup. }
  destruct (base !! "shap_sv") as [b |].
  - inv_bind Hsv. subst row3.
    rewrite update_old by (by apply not_a_time_column). exact Hrow.
  - apply ret_inv in Hsv as [<- _]. exact Hrow.
Qed.

Lemma trial_row c kernel m g metric rs seed (s s' : state) rs' :
  trial c kernel m g metric rs seed s = (Ok rs', s') ->
  exists r s1 ids,
    rs' = rs ++ [(seed, r)]
    /\ (forall k v, times s' !! k = Some v -> r !! ("time_" +:+ k) = Some v)
    /\ ext "compress"
          (compress_compress (to_numpy (X_test (data_processor c)))
             (fun x => kt_thin x m kernel kernel true seed true) g)
          (clocked (seeded seed s)) = (Ok ids, s1)
    /\ times s' !! "kt" = Some (reading s1 - reading (seeded seed s))%Q.
Proof.
  unfold trial. cbv zeta. intros Hrun.
  apply bind_inv in Hrun as (sm & s2 & Hdraw & Hrun).
  apply bind_inv in Hrun as (cm & s3 & Hcm & Hrun).
  apply bind_inv in Hrun as (rm & s4 & Hrm & Hrun).
  apply bind_inv in Hrun as (base & s5 & Hbase & Hrun).
  apply bind_inv in Hrun as (s6 & s7 & Hget & Hrun).
  injection Hget as <- <-.
  assert (s5 = s4) as ->.
  { unfold self_base_metrics, bind, get in Hbase.
    destruct (base_metrics s4); [| discriminate]. by injection Hbase. }
  pose proof (writes_exp_results_to_df _ _ _ _ _ _ _ _ _ _ Hrun) as Hsame.
  apply exp_results_to_df_row in Hrun as (r & -> & Hr).
  apply draw_samples_inv in Hdraw
    as (s1 & s2' & Hkt & Hchoice & -> & _).
  exists r, s1, (ids_compressed sm).
  split; [reflexivity |]. split.
  { intros k v Hk. apply Hr. rewrite <- (Hsame k) by apply not_elem_of_nil.
    exact Hk. }
  split; [exact Hkt |].
  rewrite (Hsame "kt") by apply not_elem_of_nil.
  rewrite (writes_calculate_metrics _ _ _ _ _ _ _ Hrm "kt")
    by (unfold metric_timers; cbn; set_solver).
  rewrite (writes_calculate_metrics _ _ _ _ _ _ _ Hcm "kt")
    by (unfold metric_timers; cbn; set_solver).
  cbn [record times]. rewrite lookup_insert_ne by done.
  assert (forall t, times (clocked t) = times t) as Hclock.
  { intros t. unfold clocked, ext_total, ext.
    by destruct (time_time (w t)). }
  rewrite Hclock.
  assert (writes [] (np_random_choice (nrows (X_test (data_processor c)))
                       (length (ids_compressed sm)))) as Hw.
  { unfold np_random_choice. destruct (_ <? _)%nat;
      [apply writes_ext | apply writes_ext_total]. }
  rewrite (Hw _ _ _ Hchoice "kt") by apply not_elem_of_nil.
  rewrite Hclock. cbn [record times]. by rewrite lookup_insert_eq.
Qed.

(** C6, as the code has it. The timing table is one mapping of the harness
    in which every timed call replaces the entry of its name. A trial
    appends one row to the results table and leaves the earlier rows as
    they are; the row holds every entry of the timing table as it stands at
    the end of that trial, and the entry of the compression is the time
    measured in that very trial. So each row records its own trial's
    timings, and the table keeps those of the last trial. *)
Theorem trial_records_own_timings c kernel m g metric rs seed
    (s s' : state) rs' :
  trial c kernel m g metric rs seed s = (Ok rs', s') ->
  exists r s1 ids,
    rs' = rs ++ [(seed, r)]
    /\ (forall k v, times s' !! k = Some v -> r !! ("time_" +:+ k) = Some v)
    /\ ext "compress"
          (compress_compress (to_numpy (X_test (data_processor c)))
             (fun x => kt_thin x m kernel kernel true seed true) g)
          (clocked (seeded seed s)) = (Ok ids, s1)
    /\ times s' !! "kt" = Some (reading s1 - reading (seeded seed s))%Q.
Proof. apply trial_row. Qed.

(** The loop appends one row per seed, in order, after the rows it found. *)
Lemma trials_rows c kernel m g metric seeds : forall rs (s s' : state) rs',
  trials c kernel m g metric seeds rs s = (Ok rs', s') ->
  exists new, rs' = rs ++ new /\ map fst new = seeds.
Proof.
  induction seeds as [| seed seeds IH]; intros rs s s' rs' Hrun.
  - apply ret_inv in Hrun as [<- _]. exists []. by rewrite app_nil_r.
  - cbn [trials] in Hrun.
    apply bind_inv in Hrun as (rs1 & s1 & Htrial & Hrun).
    apply trial_row in Htrial as (r & _ & _ & -> & _).
    apply IH in Hrun as (new & -> & Hnew).
    exists ((seed, r) :: new). rewrite <- app_assoc. split; [done |].
    cbn. by rewrite Hnew.
Qed.

Lemma trials_snoc c kernel m g metric seeds seed : forall rs (s : state),
  trials c kernel m g metric (seeds ++ [seed]) rs s
  = (do rs1 <- trials c kernel m g metric seeds rs;
     trial c kernel m g metric rs1 seed) s.
Proof.
  induction seeds as [| seed0 seeds IH]; intros rs s; cbn [app trials].
  - rewrite bind_ret. apply bind_ret_r.
  - rewrite bind_assoc. apply bind_ext. intros rs1 s1. apply IH.
Qed.

(** After the loop the entry of the compression is the time measured in
    the last trial. *)
Lemma trials_keep_last_timing c kernel m g metric seeds seed rs
    (s s' : state) rs' :
  trials c kernel m g metric (seeds ++ [seed]) rs s = (Ok rs', s') ->
  exists s0 s1 ids,
    ext "compress"
        (compress_compress (to_numpy (X_test (data_processor c)))
           (fun x => kt_thin x m kernel kernel true seed true) g)
        (clocked (seeded seed s0)) = (Ok ids, s1)
    /\ times s' !! "kt" = Some (reading s1 - reading (seeded seed s0))%Q.
Proof.
  rewrite trials_snoc. intros Hrun.
  apply bind_inv in Hrun as (rs1 & s0 & _ & Hrun).
  apply trial_row in Hrun as (r & s1 & ids & _ & _ & Hkt & Ht).
  eauto.
Qed.

End Timing.

Lemma trial_records_own_timings_witness :
  exists rs' s',
    trial (L := Fixtures.libs) Fixtures.shap_only tt 1 0 "accuracy" [] 0
          (Fixtures.built Fixtures.shap_only) = (Ok rs', s')
    /\ exists r (s1 : state (L := Fixtures.libs)) ids,
         rs' = [] ++ [(0, r)]
         /\ (forall k v, times s' !! k = Some v ->
                         r !! ("time_" +:+ k) = Some v)
         /\ ext (L := Fixtures.libs) "compress"
               (compress_compress (Libs := Fixtures.libs)
                  (to_numpy (X_test (data_processor Fixtures.shap_only)))
                  (fun x => kt_thin (Libs := Fixtures.libs) x 1 tt tt true 0 true)
                  0)
               (clocked (seeded 0 (Fixtures.built Fixtures.shap_only)))
             = (Ok ids, s1)
         /\ times s' !! "kt"
            = Some (reading s1
                    - reading (seeded 0 (Fixtures.built Fixtures.shap_only)))%Q.
Proof.
  destruct (trial (L := Fixtures.libs) Fixtures.shap_only tt 1 0 "accuracy"
              [] 0 (Fixtures.built Fixtures.shap_only))
    as [[rs' | e] s'] eqn:Hrun.
  - exists rs', s'. split; [reflexivity |].
    exact (trial_records_own_timings (L := Fixtures.libs) Fixtures.shap_only
             tt 1 0 "accuracy" [] 0 (Fixtures.built Fixtures.shap_only)
             s' rs' Hrun).
  - exfalso. apply (f_equal (fun r => is_ok (fst r))) in Hrun.
    vm_compute in Hrun. discriminate Hrun.
Defined.

Lemma reads_spec n o : Fixtures.reads n o = true -> o = Some (n # 1).
Proof.
  destruct o as [[a [d | d |]] |]; cbn; try discriminate.
  intros Ha. apply Z.eqb_eq in Ha. by subst.
Qed.

(** C6 as stated fails: after two trials whose compressions took 2 and 3
    ticks, the first row shows 2, the second row and the timing table show
    3; the rows do not all show the last trial's timings. *)
Lemma rows_keep_their_own_timings :
  exists r0 r1 s',
    Fixtures.two_trials = (Ok [(0, r0); (1, r1)], s')
    /\ r0 !! "time_kt" = Some 2%Q
    /\ r1 !! "time_kt" = Some 3%Q
    /\ times s' !! "kt" = Some 3%Q
    /\ ~ last_timings_in_every_row [(0, r0); (1, r1)] (times s').
Proof.
  assert (match Fixtures.two_trials with
          | (Ok [(0, r0); (1, r1)], s') =>
              Fixtures.reads 2 (r0 !! "time_kt")
              && Fixtures.reads 3 (r1 !! "time_kt")
              && Fixtures.reads 3 (times s' !! "kt")
          | _ => false
          end = true) as Hcheck by (vm_compute; reflexivity).
  destruct Fixtures.two_trials as [[rs | e] s']; [| discriminate].
  destruct rs as [| [z0 r0] rs]; [discriminate |].
  destruct z0; try discriminate.
  destruct rs as [| [z1 r1] rs]; [discriminate |].
  destruct z1 as [| p |]; try discriminate. destruct p; try discriminate.
  destruct rs; [| discriminate].
  apply andb_true_iff in Hcheck as [Hcheck H3].
  apply andb_true_iff in Hcheck as [H0 H1].
  apply reads_spec in H0, H1, H3.
  exists r0, r1, s'. repeat split; try assumption.
  intros Hall.
  specialize (Hall 0 r0 "kt" 3%Q (list_elem_of_here _ _) H3).
  change ("time_" +:+ "kt") with "time_kt" in Hall.
  rewrite H0 in Hall. discriminate Hall.
Qed.

End ExperimentFacts.

(** * Further properties of the data preparation *)

Module DataProcessorMore.
Import DataProcessor DataProcessorFacts Harness.

Section Preprocessing.
Context `{PandasLib}.

Lemma load_inv (h h' : list DataFrame) a d :
  load a h = (Ok d, h') -> h !! a = Some d /\ h' = h.
Proof.
  unfold load. destruct (h !! a) as [d0 |]; [| discriminate].
  by intros [= -> ->].
Qed.

(** What the loop and the steps after it leave of an object they were not
    given. *)
Lemma conversion_frame self cur (h : list DataFrame) a :
  a <> cur -> (cur < length h)%nat -> (a < length h)%nat ->
  snd ((do clean_df <- convert_categories (to_cat self) cur;
        do clean_df <-
          (if truthy (to_one_hot self)
           then do d <- load clean_df;
                do d' <- lift (get_dummies d (to_one_hot self));
                alloc d'
           else ret clean_df);
        do d <- load clean_df;
        store clean_df (columns_astype_str d);;
        ret (set_clean_df self (Some clean_df))) h) !! a = h !! a.
Proof.
  intros Hne Hcur Ha.
  destruct (convert_categories_frame (to_cat self) cur h a Hne Hcur Ha)
    as (F1 & F2 & F3).
  destruct (convert_categories (to_cat self) cur h) as [[b | e] h3] eqn:Hloop;
    cbn [fst snd] in *.
  - rewrite (bind_ok _ _ _ _ _ Hloop). destruct F3 as [Hb Hlt].
    rewrite finish_frame; [exact F1 | done | done | lia].
  - by rewrite (bind_raise _ _ _ _ _ Hloop).
Qed.

Lemma dropna_frame self cur (h : list DataFrame) a :
  a <> cur -> (cur < length h)%nat -> (a < length h)%nat ->
  snd ((do clean_df <-
          (if dropna self
           then do d <- load cur; alloc (Pandas.dropna d)
           else ret cur);
        do clean_df <- convert_categories (to_cat self) clean_df;
        do clean_df <-
          (if truthy (to_one_hot self)
           then do d <- load clean_df;
                do d' <- lift (get_dummies d (to_one_hot self));
                alloc d'
           else ret clean_df);
        do d <- load clean_df;
        store clean_df (columns_astype_str d);;
        ret (set_clean_df self (Some clean_df))) h) !! a = h !! a.
Proof.
  intros Hne Hcur Ha.
  destruct (lookup_lt_is_Some_2 h cur Hcur) as [d Hd].
  destruct (dropna self).
  - rewrite bind_assoc, (bind_ok _ _ _ _ _ (load_points _ _ _ Hd)).
    rewrite (bind_ok _ _ _ _ _ (alloc_new _ _)).
    rewrite conversion_frame.
    + by apply lookup_app_l.
    + lia.
    + rewrite length_app. cbn. lia.
    + rewrite length_app. cbn. lia.
  - rewrite bind_ret. by apply conversion_frame.
Qed.

(** X1. When some column is dropped first or rows with missing values are
    dropped, [__preprocess_data] works on a copy: the frame the caller
    passed is left as it was, whether preprocessing succeeds or raises. *)
Theorem preprocess_data_copies_first self (h : list DataFrame) a d :
  df self = Some a ->
  h !! a = Some d ->
  to_drop self <> [] \/ dropna self = true ->
  snd (preprocess_data self h) !! a = Some d.
Proof.
  intros Hdf Ha Hcopy. unfold preprocess_data. rewrite Hdf.
  assert (a < length h)%nat as Hlt by (by eapply lookup_lt_Some).
  destruct (to_drop self) as [| l ls] eqn:Htd.
  - destruct Hcopy as [Hcopy | Hna]; [done |]. cbn [truthy].
    rewrite bind_ret, Hna.
    rewrite bind_assoc, (bind_ok _ _ _ _ _ (load_points _ _ _ Ha)).
    rewrite (bind_ok _ _ _ _ _ (alloc_new _ _)).
    rewrite conversion_frame.
    + by rewrite lookup_app_l.
    + lia.
    + rewrite length_app. cbn. lia.
    + rewrite length_app. cbn. lia.
  - cbn [truthy].
    rewrite bind_assoc, (bind_ok _ _ _ _ _ (load_points _ _ _ Ha)).
    rewrite bind_assoc, bind_lift.
    destruct (drop (l :: ls) d) as [d1 | e]; [| exact Ha].
    rewrite (bind_ok _ _ _ _ _ (alloc_new _ _)).
    rewrite dropna_frame.
    + by rewrite lookup_app_l.
    + lia.
    + rewrite length_app. cbn. lia.
    + rewrite length_app. cbn. lia.
Qed.

(** X2. When there is nothing to drop, convert or encode, [clean_df] is the
    caller's frame itself: no frame is created, and the caller's column
    labels are turned into strings in place. *)
Theorem preprocess_data_in_place self (h : list DataFrame) a d :
  df self = Some a ->
  h !! a = Some d ->
  to_drop self = [] -> dropna self = false ->
  to_cat self = [] -> to_one_hot self = [] ->
  preprocess_data self h
  = (Ok (set_clean_df self (Some a)), <[a := columns_astype_str d]> h).
Proof.
  intros Hdf Ha Htd Hna Hcat Hoh. unfold preprocess_data.
  rewrite Hdf, Htd, Hna, Hcat, Hoh. cbn [truthy convert_categories].
  rewrite !bind_ret, (bind_ok _ _ _ _ _ (load_points _ _ _ Ha)).
  by rewrite (bind_ok _ _ _ _ _ (store_set _ _ _)).
Qed.

Lemma preprocess_data_first_unknown self (h : list DataFrame) a d l :
  df self = Some a ->
  h !! a = Some d ->
  List.find (fun l => negb (has_label d l)) (to_drop self) = Some l ->
  preprocess_data self h = (Raise (KeyError (str l)), h).
Proof.
  intros Hdf Ha Hfind. unfold preprocess_data. rewrite Hdf.
  destruct (to_drop self) as [| l0 ls] eqn:Htd; [discriminate |].
  cbn [truthy].
  rewrite bind_assoc, (bind_ok _ _ _ _ _ (load_points _ _ _ Ha)).
  rewrite bind_assoc, bind_lift. unfold drop. by rewrite Hfind.
Qed.

(** X4. A label of [to_drop] that the table does not have stops the
    preprocessing with a [KeyError], before any frame is created or
    changed. *)
Theorem preprocess_data_unknown_column self (h : list DataFrame) a d l :
  df self = Some a ->
  h !! a = Some d ->
  l ∈ to_drop self ->
  has_label d l = false ->
  exists key, preprocess_data self h = (Raise (KeyError key), h).
Proof.
  intros Hdf Ha Hl Hmiss.
  destruct (List.find (fun l => negb (has_label d l)) (to_drop self))
    as [l' |] eqn:Hfind.
  - exists (str l'). by eapply preprocess_data_first_unknown.
  - apply list_elem_of_In in Hl.
    pose proof (find_none _ _ Hfind l Hl) as Hhas. cbn beta in Hhas.
    rewrite Hmiss in Hhas. discriminate Hhas.
Qed.

Lemma find_none_intro {A} (f : A -> bool) l :
  (forall x, In x l -> f x = false) -> List.find f l = None.
Proof.
  induction l as [| x l IH]; intros Hall; [done |]. cbn.
  rewrite (Hall x) by (by left). apply IH. intros y Hy. apply Hall. by right.
Qed.

Lemma filter_filter_labels cat rest (cs : list (label * column)) :
  List.filter (fun lc => negb (bool_decide (fst lc ∈ rest)))
    (List.filter (fun lc => negb (bool_decide (fst lc ∈ [cat]))) cs)
  = List.filter (fun lc => negb (bool_decide (fst lc ∈ cat :: rest))) cs.
Proof.
  induction cs as [| lc cs IH]; [done |]. cbn [List.filter].
  destruct (bool_decide (fst lc ∈ [cat])) eqn:H1; cbn [negb].
  - apply bool_decide_eq_true_1, list_elem_of_singleton in H1.
    rewrite (bool_decide_eq_true_2 (fst lc ∈ cat :: rest)) by (rewrite H1; left).
    exact IH.
  - apply bool_decide_eq_false_1 in H1. cbn [List.filter].
    destruct (bool_decide (fst lc ∈ rest)) eqn:H2; cbn [negb].
    + apply bool_decide_eq_true_1 in H2.
      rewrite (bool_decide_eq_true_2 (fst lc ∈ cat :: rest)) by (by right).
      exact IH.
    + apply bool_decide_eq_false_1 in H2.
      rewrite (bool_decide_eq_false_2 (fst lc ∈ cat :: rest)).
      * cbn [negb]. by rewrite IH.
      * intros Hin. apply elem_of_cons in Hin as [Hin | Hin]; [| done].
        apply H1. by apply list_elem_of_singleton.
Qed.

(** Writing the codes into a column and dropping it is dropping it. *)
Lemma drop_setitem d cat c :
  has_label d cat = true ->
  drop [cat] (setitem d cat c) = drop [cat] d.
Proof.
  intros Hhas. unfold setitem. rewrite Hhas. unfold drop, has_label, labels.
  cbn [columns index].
  assert (map fst (map (fun lc : label * column =>
                          if bool_decide (fst lc = cat) then (cat, c) else lc)
                       (columns d)) = map fst (columns d)) as Hlabels.
  { rewrite map_map. apply map_ext. intros lc.
    destruct (bool_decide (fst lc = cat)) eqn:E; [| done].
    by apply bool_decide_eq_true_1 in E. }
  rewrite Hlabels. destruct (List.find _ [cat]); [done |]. do 2 f_equal.
  clear Hlabels. induction (columns d) as [| lc cs IH]; [done |]. cbn [map List.filter].
  destruct (bool_decide (fst lc = cat)) eqn:E.
  - apply bool_decide_eq_true_1 in E. cbn [fst].
    rewrite !(bool_decide_eq_true_2 (_ ∈ [cat]))
      by (rewrite ?E; apply list_elem_of_singleton; done).
    exact IH.
  - destruct (bool_decide (fst lc ∈ [cat])); cbn [negb]; by rewrite IH.
Qed.

Lemma spec_convert_categories_is_drop cats : forall d d',
  Pipeline.convert_categories cats d = Ok d' -> drop cats d = Ok d'.
Proof.
  induction cats as [| cat rest IH]; intros d d' Hconv.
  - injection Hconv as <-. apply drop_nil.
  - cbn [Pipeline.convert_categories] in Hconv. unfold Pipeline.convert_category in Hconv.
    destruct (getitem d cat) as [c |] eqn:Hc; cbn [rbind] in Hconv;
      [| discriminate].
    destruct (cat_codes c) as [codes |]; cbn [rbind] in Hconv;
      [| discriminate].
    pose proof (getitem_has_label _ _ _ Hc) as Hhas.
    rewrite (drop_setitem _ _ _ Hhas) in Hconv.
    destruct (drop [cat] d) as [d1 |] eqn:Hd1; cbn [rbind] in Hconv;
      [| discriminate].
    apply IH in Hconv.
    unfold drop in Hd1, Hconv |- *.
    destruct (List.find _ [cat]); [discriminate |]. injection Hd1 as <-.
    destruct (List.find (fun l => negb (has_label _ l)) rest) eqn:Hrest;
      [discriminate |].
    injection Hconv as <-. cbn [index columns].
    rewrite find_none_intro.
    + by rewrite filter_filter_labels.
    + intros l [<- | Hl]; [by rewrite Hhas |].
      pose proof (find_none _ _ Hrest l Hl) as Hin.
      apply negb_false_iff, bool_decide_eq_true_1 in Hin.
      apply negb_false_iff, bool_decide_eq_true_2.
      unfold labels in *. cbn [columns] in Hin.
      apply list_elem_of_fmap in Hin as (lc & -> & Hlc).
      apply list_elem_of_In, filter_In in Hlc as [Hlc _].
      apply list_elem_of_fmap. exists lc. split; [done |].
      by apply list_elem_of_In.
Qed.

(** X5. Whenever the loop over [to_cat] goes through, the frame it leaves
    is the frame it started from without the columns of [to_cat], as
    [drop(columns=to_cat)] would give: the integer codes it writes are
    dropped with their columns, and no row or other column changes. *)
Theorem convert_categories_is_drop cats cur (h h' : list DataFrame) d b :
  h !! cur = Some d ->
  convert_categories cats cur h = (Ok b, h') ->
  exists d', h' !! b = Some d' /\ drop cats d = Ok d'.
Proof.
  intros Hcur Hrun.
  pose proof (convert_categories_refines cats cur h d Hcur) as Href.
  destruct (Pipeline.convert_categories cats d) as [d' | e] eqn:Hspec.
  - destruct Href as (b' & h'' & Hrun' & Hb). rewrite Hrun in Hrun'.
    injection Hrun' as <- <-. exists d'. split; [done |].
    by apply spec_convert_categories_is_drop.
  - destruct Href as (h'' & Hrun'). rewrite Hrun in Hrun'. discriminate.
Qed.

(** What a preprocessing of a raw table that returned has left. *)
Lemma preprocess_data_raw_inv self (h h' : list DataFrame) a self' :
  df self = Some a ->
  preprocess_data self h = (Ok self', h') ->
  exists b d, self' = set_clean_df self (Some b)
              /\ h' !! b = Some (columns_astype_str d).
Proof.
  intros Hdf Hrun. unfold preprocess_data in Hrun. rewrite Hdf in Hrun.
  apply bind_inv in Hrun as (a1 & h1 & _ & Hrun).
  apply bind_inv in Hrun as (a2 & h2 & _ & Hrun).
  apply bind_inv in Hrun as (a3 & h3 & _ & Hrun).
  apply bind_inv in Hrun as (b & h4 & _ & Hrun).
  apply bind_inv in Hrun as (d & h5 & Hload & Hrun).
  apply load_inv in Hload as [Hb ->].
  rewrite (bind_ok _ _ _ _ _ (store_set _ _ _)) in Hrun.
  apply ret_inv in Hrun as [<- <-].
  exists b, d. split; [done |]. by eapply store_points.
Qed.

Lemma astype_str_no_integer_label d z :
  has_label (columns_astype_str d) (LInt z) = false.
Proof.
  unfold has_label, labels, columns_astype_str. cbn [columns].
  apply bool_decide_eq_false_2. intros Hin.
  apply list_elem_of_fmap in Hin as (lc & Hlc & Hin).
  apply list_elem_of_fmap in Hin as (lc0 & -> & _). discriminate.
Qed.

Lemma convert_categories_app pre rest : forall d,
  Pipeline.convert_categories (pre ++ rest) d
  = (let? d' := Pipeline.convert_categories pre d in
     Pipeline.convert_categories rest d').
Proof.
  induction pre as [| c pre IH]; intros d;
    cbn [app Pipeline.convert_categories rbind]; [done |].
  destruct (Pipeline.convert_category d c); cbn [rbind]; [apply IH | done].
Qed.

Lemma getitem_drop ls d d' l :
  drop ls d = Ok d' -> l ∉ ls -> getitem d' l = getitem d l.
Proof.
  unfold drop. destruct (List.find _ ls); [discriminate |].
  intros [= <-] Hl. unfold getitem. cbn [columns].
  assert (List.filter (fun lc : label * column => bool_decide (fst lc = l))
            (List.filter (fun lc => negb (bool_decide (fst lc ∈ ls)))
                         (columns d))
          = List.filter (fun lc => bool_decide (fst lc = l)) (columns d))
    as ->; [| done].
  induction (columns d) as [| lc cs IH]; [done |]. cbn [List.filter].
  destruct (bool_decide (fst lc ∈ ls)) eqn:E; cbn [negb List.filter].
  - apply bool_decide_eq_true_1 in E.
    rewrite (bool_decide_eq_false_2 (fst lc = l)); [exact IH |].
    intros Heq. apply Hl. by rewrite <- Heq.
  - destruct (bool_decide (fst lc = l)); by rewrite IH.
Qed.

Lemma getitem_dropna_plain d l cells :
  getitem d l = Ok (Plain cells) ->
  exists cells', getitem (Pandas.dropna d) l = Ok (Plain cells').
Proof.
  unfold Pandas.dropna. cbv zeta.
  set (keep := fold_left _ (columns d) _). unfold getitem. cbn [columns].
  assert (forall cs,
            List.filter (fun lc : label * column => bool_decide (fst lc = l))
              (map (fun lc => (fst lc, mask_column keep (snd lc))) cs)
            = map (fun lc => (fst lc, mask_column keep (snd lc)))
                  (List.filter (fun lc => bool_decide (fst lc = l)) cs))
    as Hcomm.
  { induction cs as [| lc cs IH]; [done |]. cbn [map List.filter fst].
    destruct (bool_decide (fst lc = l)); cbn [map]; by rewrite IH. }
  rewrite Hcomm.
  destruct (List.filter _ (columns d)) as [| lc [| lc' cs]]; try discriminate.
  intros [= Hc]. cbn [map snd]. rewrite Hc. cbn [mask_column]. eauto.
Qed.

(** X3. Whatever [to_drop] and [dropna] are: once the columns of [to_drop]
    are dropped and the columns listed in [to_cat] before it are converted,
    a column of [to_cat] that is not of category dtype stops the
    preprocessing with pandas' [AttributeError] for the [.cat] accessor. *)
Theorem preprocess_data_not_categorical self (h : list DataFrame) a d d1
    pre cat rest d3 cells :
  df self = Some a -> h !! a = Some d ->
  drop (to_drop self) d = Ok d1 ->
  to_cat self = pre ++ cat :: rest ->
  Pipeline.convert_categories pre
    (if dropna self then Pandas.dropna d1 else d1) = Ok d3 ->
  getitem d cat = Ok (Plain cells) ->
  cat ∉ to_drop self -> cat ∉ pre ->
  exists h',
    preprocess_data self h
    = (Raise (AttributeError
                "Can only use .cat accessor with a 'category' dtype"), h').
Proof.
  intros Hdf Ha Hdrop Hcat Hpre Hcol Hntd Hnpre.
  pose proof (preprocess_data_pipeline self h a d Hdf Ha) as Href.
  assert (Pipeline.preprocess (to_drop self) (to_cat self) (to_one_hot self)
            (dropna self) d
          = Raise (AttributeError
                     "Can only use .cat accessor with a 'category' dtype"))
    as Hp.
  { unfold Pipeline.preprocess. rewrite Hdrop. cbn [rbind]. cbv zeta.
    rewrite Hcat, convert_categories_app, Hpre.
    cbn [rbind Pipeline.convert_categories]. unfold Pipeline.convert_category.
    assert (exists cells', getitem d3 cat = Ok (Plain cells')) as [cells' ->].
    { rewrite (getitem_drop pre _ d3 cat
                 (spec_convert_categories_is_drop _ _ _ Hpre) Hnpre).
      assert (getitem d1 cat = Ok (Plain cells)) as H1.
      { by rewrite (getitem_drop _ _ _ _ Hdrop Hntd). }
      destruct (dropna self); [by eapply getitem_dropna_plain | eauto]. }
    reflexivity. }
  rewrite Hp in Href. exact Href.
Qed.

(** X21. Given features and labels instead of a table, the preprocessing
    only turns their column labels into strings: [to_drop], [dropna],
    [to_cat] and [to_one_hot] are not looked at, no row and no column is
    removed, and no clean table is stored. *)
Theorem preprocess_data_features_given self (h : list DataFrame) ax ay dx dy :
  df self = None ->
  X self = Some ax -> y self = Some ay ->
  h !! ax = Some dx -> h !! ay = Some dy ->
  exists x' y' h',
    preprocess_data self h = (Ok (set_X_y self (Some x') (Some y')), h')
    /\ h' !! x' = Some (columns_astype_str dx)
    /\ h' !! y' = Some (columns_astype_str dy).
Proof.
  intros Hdf HX Hy Hax Hay. unfold preprocess_data. rewrite Hdf, HX, Hy.
  unfold pd_DataFrame.
  rewrite bind_assoc, (bind_ok _ _ _ _ _ (load_points _ _ _ Hax)).
  rewrite (bind_ok _ _ _ _ _ (alloc_new _ _)).
  assert ((h ++ [dx]) !! ay = Some dy) as Hay' by (by apply lookup_app_l_Some).
  rewrite bind_assoc, (bind_ok _ _ _ _ _ (load_points _ _ _ Hay')).
  rewrite (bind_ok _ _ _ _ _ (alloc_new _ _)).
  assert (((h ++ [dx]) ++ [dy]) !! length h = Some dx) as Hx.
  { apply lookup_app_l_Some, alloc_points. }
  rewrite (bind_ok _ _ _ _ _ (load_points _ _ _ Hx)).
  rewrite (bind_ok _ _ _ _ _ (store_set _ _ _)).
  set (h1 := <[length h := columns_astype_str dx]> ((h ++ [dx]) ++ [dy])).
  assert (h1 !! length (h ++ [dx]) = Some dy) as Hy1.
  { subst h1. rewrite list_lookup_insert_ne by (rewrite length_app; cbn; lia).
    apply alloc_points. }
  rewrite (bind_ok _ _ _ _ _ (load_points _ _ _ Hy1)).
  rewrite (bind_ok _ _ _ _ _ (store_set _ _ _)).
  eexists _, _, _. split; [reflexivity |]. split.
  - rewrite list_lookup_insert_ne by (rewrite length_app; cbn; lia).
    subst h1. by eapply store_points.
  - by eapply store_points.
Qed.

End Preprocessing.

Section Splitting.
Context `{PandasLib} `{Sklearn}.

(** X6. A target given as an integer label is never found: the column
    labels are strings by the time the table is split, so a construction
    from a raw table whose preprocessing succeeded ends in a [KeyError]. *)
Theorem init_integer_target a (h h' : list DataFrame) ad z self' :
  a_df a = Some ad ->
  a_X a = None ->
  a_target a = Some (LInt z) ->
  preprocess_data (initial a) h = (Ok self', h') ->
  exists key, init a h = (Raise (KeyError key), h').
Proof.
  intros Hdf HX Htarget Hpre. exists (pretty z). unfold init, input_mode_ok.
  rewrite Hdf, Htarget. cbn [is_not_None andb orb assert].
  rewrite bind_ret. cbv zeta. rewrite (bind_ok _ _ _ _ _ Hpre).
  apply preprocess_data_raw_inv with (a := ad) in Hpre as (b & d & -> & Hb);
    [| by unfold initial].
  unfold split_data. cbn [X set_clean_df initial]. rewrite HX.
  rewrite bind_assoc. cbn [load_opt clean_df].
  rewrite (bind_ok _ _ _ _ _ (load_points _ _ _ Hb)).
  rewrite bind_assoc, bind_lift. unfold target_label.
  cbn [target set_clean_df initial]. rewrite Htarget.
  rewrite bind_assoc, bind_lift. unfold drop. cbn [List.find].
  by rewrite astype_str_no_integer_label.
Qed.

(** X7. With [train_eq_test], a clean table is split without calling
    sklearn: the features are the table without the target column, the
    labels are the target column, both over the table's row labels, and
    the training and the test attributes name the same two objects. *)
Theorem split_data_train_eq_test self (h : list DataFrame) b d tg dx :
  X self = None ->
  clean_df self = Some b ->
  target self = Some tg ->
  train_eq_test self = true ->
  h !! b = Some d ->
  well_formed d ->
  drop [tg] d = Ok dx ->
  exists dy self',
    split_data self h = (Ok self', h ++ [dx; dy])
    /\ select d tg = Ok dy
    /\ X_train self' = Some (length h) /\ X_test self' = Some (length h)
    /\ y_train self' = Some (S (length h))
    /\ y_test self' = Some (S (length h))
    /\ index dx = index dy /\ well_formed dx /\ well_formed dy
    /\ (tg ∉ labels dx).
Proof.
  intros HX Hclean Htg Heq Hb Hwf Hdx.
  assert (exists dy, select d tg = Ok dy) as [dy Hdy].
  { unfold select. unfold drop in Hdx. cbn [List.find] in Hdx.
    destruct (negb (has_label d tg)) eqn:Hhas; [discriminate |].
    apply negb_false_iff, bool_decide_eq_true_1 in Hhas.
    destruct (List.filter (fun lc => bool_decide (fst lc = tg)) (columns d))
      as [| lc cs] eqn:Hf; [| eexists; reflexivity].
    exfalso. unfold labels in Hhas.
    apply list_elem_of_fmap in Hhas as (lc & -> & Hlc).
    assert (In lc (List.filter (fun lc0 => bool_decide (fst lc0 = fst lc))
                               (columns d))) as Hin.
    { apply filter_In. split; [by apply list_elem_of_In |].
      by apply bool_decide_eq_true_2. }
    by rewrite Hf in Hin. }
  destruct (ExperimentFacts.features_labels_aligned d tg dx dy Hwf Hdx Hdy)
    as (Hix & _ & Hwx & Hwy).
  exists dy. eexists. split.
  { unfold split_data. rewrite HX, Hclean. cbn [load_opt].
    rewrite bind_assoc, (bind_ok _ _ _ _ _ (load_points _ _ _ Hb)).
    rewrite bind_assoc, bind_lift. unfold target_label. rewrite Htg.
    rewrite bind_assoc, bind_lift, Hdx.
    rewrite bind_assoc, (bind_ok _ _ _ _ _ (alloc_new _ _)).
    rewrite bind_assoc, bind_lift, Hdy.
    rewrite bind_assoc, (bind_ok _ _ _ _ _ (alloc_new _ _)).
    rewrite bind_ret. cbn [train_eq_test set_X_y]. rewrite Heq.
    unfold ret. rewrite <- app_assoc. reflexivity. }
  cbn. rewrite length_app. cbn.
  replace (length h + 1)%nat with (S (length h)) by lia.
  repeat split; try done.
  unfold drop in Hdx. destruct (List.find _ [tg]); [discriminate |].
  injection Hdx as <-. unfold labels. cbn [columns]. intros Hin.
  apply list_elem_of_fmap in Hin as (lc & -> & Hlc).
  apply list_elem_of_In, filter_In in Hlc as [_ Hlc].
  apply negb_true_iff, bool_decide_eq_false_1 in Hlc. apply Hlc.
  by apply list_elem_of_singleton.
Qed.

End Splitting.

Lemma preprocess_data_copies_first_witness :
  snd (preprocess_data (H := Fixtures.pandas_lib)
         (Fixtures.processor [LInt 7] [LStr "colour"] true) [Fixtures.raw])
  !! 0%nat = Some Fixtures.raw.
Proof.
  apply (preprocess_data_copies_first (H := Fixtures.pandas_lib)
           (Fixtures.processor [LInt 7] [LStr "colour"] true) [Fixtures.raw]
           0%nat Fixtures.raw eq_refl eq_refl).
  left. discriminate.
Defined.

Lemma preprocess_data_in_place_witness :
  preprocess_data (H := Fixtures.pandas_lib) (Fixtures.processor [] [] false)
                  [Fixtures.raw]
  = (Ok (set_clean_df (Fixtures.processor [] [] false) (Some 0%nat)),
     <[0%nat := columns_astype_str Fixtures.raw]> [Fixtures.raw]).
Proof.
  exact (preprocess_data_in_place (H := Fixtures.pandas_lib)
           (Fixtures.processor [] [] false) [Fixtures.raw] 0%nat Fixtures.raw
           eq_refl eq_refl eq_refl eq_refl eq_refl eq_refl).
Defined.

Lemma preprocess_data_unknown_column_witness :
  exists key,
    preprocess_data (H := Fixtures.pandas_lib)
                    (Fixtures.processor [LInt 7; LStr "zz"] [] true)
                    [Fixtures.raw]
    = (Raise (KeyError key), [Fixtures.raw]).
Proof.
  apply (preprocess_data_unknown_column (H := Fixtures.pandas_lib)
           (Fixtures.processor [LInt 7; LStr "zz"] [] true) [Fixtures.raw]
           0%nat Fixtures.raw (LStr "zz") eq_refl eq_refl).
  - right. left.
  - reflexivity.
Defined.

Lemma convert_categories_is_drop_witness :
  exists d',
    snd (convert_categories [LStr "colour"] 0%nat [Fixtures.raw]) !! 1%nat
    = Some d'
    /\ drop [LStr "colour"] Fixtures.raw = Ok d'.
Proof.
  apply (convert_categories_is_drop [LStr "colour"] 0%nat [Fixtures.raw]
           _ Fixtures.raw 1%nat eq_refl).
  reflexivity.
Defined.

Lemma init_integer_target_witness :
  exists h' key,
    init (H := Fixtures.pandas_lib) (H0 := Fixtures.sklearn)
         Fixtures.int_target_args [Fixtures.raw_int_target]
    = (Raise (KeyError key), h').
Proof.
  destruct (preprocess_data (H := Fixtures.pandas_lib)
              (initial Fixtures.int_target_args) [Fixtures.raw_int_target])
    as [[self' | e] h'] eqn:Hpre.
  - exists h'.
    exact (init_integer_target (H := Fixtures.pandas_lib)
             (H0 := Fixtures.sklearn) Fixtures.int_target_args
             [Fixtures.raw_int_target] h' 0%nat 7 self'
             eq_refl eq_refl eq_refl Hpre).
  - exfalso. apply (f_equal (fun r => is_ok (fst r))) in Hpre.
    vm_compute in Hpre. discriminate Hpre.
Defined.

Lemma split_data_train_eq_test_witness :
  exists dy self',
    split_data (H := Fixtures.sklearn) Fixtures.unsplit [Fixtures.clean]
    = (Ok self', [Fixtures.clean] ++ [Fixtures.features; dy])
    /\ select Fixtures.clean (LStr "t") = Ok dy
    /\ X_train self' = Some 1%nat /\ X_test self' = Some 1%nat
    /\ y_train self' = Some 2%nat /\ y_test self' = Some 2%nat
    /\ index Fixtures.features = index dy
    /\ well_formed Fixtures.features /\ well_formed dy
    /\ (LStr "t" ∉ labels Fixtures.features).
Proof.
  apply (split_data_train_eq_test (H0 := Fixtures.sklearn) Fixtures.unsplit
           [Fixtures.clean] 0%nat Fixtures.clean (LStr "t") Fixtures.features
           eq_refl eq_refl eq_refl eq_refl eq_refl).
  - repeat constructor.
  - reflexivity.
Defined.

Lemma preprocess_data_not_categorical_witness :
  exists h',
    preprocess_data (H := Fixtures.pandas_lib)
      (Fixtures.processor [LInt 7] [LStr "colour"; LStr "t"] true)
      [Fixtures.raw]
    = (Raise (AttributeError
                "Can only use .cat accessor with a 'category' dtype"), h').
Proof.
  apply (preprocess_data_not_categorical (H := Fixtures.pandas_lib)
           (Fixtures.processor [LInt 7] [LStr "colour"; LStr "t"] true)
           [Fixtures.raw] 0%nat Fixtures.raw
           (mkDF [0; 1; 2; 3]
              [(LStr "colour", Categorical ["blue"; "red"] [1; 0; 1; 0]);
               (LStr "t", Fixtures.numbers [0; 1; 0; 1])])
           [LStr "colour"] (LStr "t") []
           (mkDF [0; 1; 2; 3] [(LStr "t", Fixtures.numbers [0; 1; 0; 1])])
           (map (fun z => Num (inject_Z z)) [0; 1; 0; 1])
           eq_refl eq_refl eq_refl eq_refl eq_refl eq_refl).
  - intros Hin. apply elem_of_cons in Hin as [Hin | Hin]; [discriminate |].
    by apply elem_of_nil in Hin.
  - intros Hin. apply elem_of_cons in Hin as [Hin | Hin]; [discriminate |].
    by apply elem_of_nil in Hin.
Defined.

Lemma preprocess_data_features_given_witness :
  exists x' y' h',
    preprocess_data (H := Fixtures.pandas_lib) Fixtures.features_given
                    Fixtures.objects
    = (Ok (set_X_y Fixtures.features_given (Some x') (Some y')), h')
    /\ h' !! x' = Some (columns_astype_str Fixtures.features)
    /\ h' !! y' = Some (columns_astype_str Fixtures.targets).
Proof.
  exact (preprocess_data_features_given (H := Fixtures.pandas_lib)
           Fixtures.features_given Fixtures.objects 1%nat 2%nat
           Fixtures.features Fixtures.targets
           eq_refl eq_refl eq_refl eq_refl eq_refl).
Defined.

End DataProcessorMore.

(** * Further properties of the experiment harness *)

Module ExperimentMore.
Import Experiment Harness ExperimentFacts.

Ltac not_named :=
  let Hin := fresh in
  intros Hin;
  repeat (apply elem_of_cons in Hin as [Hin | Hin]; [discriminate Hin |]);
  by apply elem_of_nil in Hin.

Section Frame.
Context `{L : Libs}.

Lemma ext_inv {A} name (f : world -> res A * world) (s : state) r s' :
  ext name f s = (r, s') ->
  model s' = model s /\ base_metrics s' = base_metrics s
  /\ times s' = times s /\ stdout s' = stdout s
  /\ calls s' = calls s ++ [name].
Proof.
  unfold ext. destruct (f (w s)) as [r' w']. by intros [= _ <-].
Qed.

Lemma reuses_silent {A} names (c : M state A) :
  (forall s r s', c s = (r, s') ->
     model s' = model s /\ base_metrics s' = base_metrics s
     /\ calls s' = calls s) ->
  reuses names c.
Proof.
  intros Hc s r s' Hrun. destruct (Hc _ _ _ Hrun) as (Hm & Hb & Hcalls).
  split; [done |]. split; [done |]. exists []. rewrite app_nil_r.
  split; [done |]. intros n _ Hin. by apply elem_of_nil in Hin.
Qed.

Lemma reuses_ret {A} names (a : A) : reuses names (ret a).
Proof. apply reuses_silent. by intros s r s' [= _ <-]. Qed.

Lemma reuses_raise {A} names e : reuses (A := A) names (raise e).
Proof. apply reuses_silent. by intros s r s' [= _ <-]. Qed.

Lemma reuses_lift {A} names (x : res A) : reuses names (lift x).
Proof. apply reuses_silent. by intros s r s' [= _ <-]. Qed.

Lemma reuses_get names : reuses names get.
Proof. apply reuses_silent. by intros s r s' [= _ <-]. Qed.

Lemma reuses_print names p : reuses names (print p).
Proof. apply reuses_silent. by intros s r s' [= _ <-]. Qed.

Lemma reuses_set_times names f : reuses names (set_times f).
Proof. apply reuses_silent. by intros s r s' [= _ <-]. Qed.

Lemma reuses_bind {A B} names (c : M state A) (k : A -> M state B) :
  reuses names c -> (forall a, reuses names (k a)) -> reuses names (bind c k).
Proof.
  intros Hc Hk s r s' Hrun. unfold bind in Hrun.
  destruct (c s) as [[a | e] s1] eqn:Hcs.
  - destruct (Hc _ _ _ Hcs) as (Hm1 & Hb1 & new1 & Hc1 & Hn1).
    destruct (Hk a _ _ _ Hrun) as (Hm2 & Hb2 & new2 & Hc2 & Hn2).
    split; [congruence |]. split; [congruence |].
    exists (new1 ++ new2). split; [by rewrite Hc2, Hc1, <- app_assoc |].
    intros n Hn Hin.
    apply elem_of_app in Hin as [Hin | Hin]; [by eapply Hn1 | by eapply Hn2].
  - injection Hrun as _ <-. by eapply Hc.
Qed.

Lemma reuses_ext {A} names name (f : world -> res A * world) :
  name ∉ names -> reuses names (ext name f).
Proof.
  intros Hname s r s' Hrun.
  apply ext_inv in Hrun as (Hm & Hb & _ & _ & Hcalls).
  split; [done |]. split; [done |]. exists [name]. split; [done |].
  intros n Hn Hin. apply list_elem_of_singleton in Hin as ->. done.
Qed.

Lemma reuses_ext_total {A} names name (f : world -> A * world) :
  name ∉ names -> reuses names (ext_total name f).
Proof. apply reuses_ext. Qed.

Lemma reuses_mono {A} names names' (c : M state A) :
  (forall n, n ∈ names' -> n ∈ names) -> reuses names c -> reuses names' c.
Proof.
  intros Hsub Hc s r s' Hrun.
  destruct (Hc _ _ _ Hrun) as (Hm & Hb & new & Hcalls & Hnew).
  split; [done |]. split; [done |]. exists new. split; [done |].
  intros n Hn. apply Hnew, Hsub, Hn.
Qed.

Lemma reuses_timeit {A} names name (call : M state A) :
  "time" ∉ names -> reuses names call -> reuses names (timeit name call).
Proof.
  intros Htime Hcall. unfold timeit.
  apply reuses_bind; [by apply reuses_ext_total | intros st].
  apply reuses_bind; [exact Hcall | intros r].
  apply reuses_bind; [by apply reuses_ext_total | intros et].
  apply reuses_bind; [apply reuses_set_times | intros _].
  apply reuses_ret.
Qed.

Lemma reuses_self_model_predict names : reuses names self_model_predict.
Proof.
  apply reuses_bind; [apply reuses_get | intros s].
  destruct (model s); [apply reuses_ret | apply reuses_raise].
Qed.

Lemma reuses_self_base_metrics names : reuses names self_base_metrics.
Proof.
  apply reuses_bind; [apply reuses_get | intros s].
  destruct (base_metrics s); [apply reuses_ret | apply reuses_raise].
Qed.

(** Break a goal [reuses names c] along the structure of [c]; [known] is
    tried first on every piece. *)
Ltac reuses_steps known :=
  repeat first
    [ known
    | apply reuses_ret | apply reuses_raise | apply reuses_lift
    | apply reuses_get | apply reuses_print | apply reuses_set_times
    | apply reuses_self_model_predict | apply reuses_self_base_metrics
    | apply reuses_timeit; [not_named |]
    | apply reuses_ext; [not_named]
    | apply reuses_ext_total; [not_named]
    | apply reuses_bind; [| intros ?]
    | match goal with
      | |- reuses _ (match ?x with _ => _ end) => destruct x
      | |- reuses _ (if ?x then _ else _) => destruct x
      | |- reuses _ (let '(_, _) := ?x in _) => destruct x
      end ].

Lemma reuses_calculate_metrics c X y name_suffix :
  reuses ["model_class"; "fit"; "to_parquet"] (calculate_metrics c X y name_suffix).
Proof.
  unfold calculate_metrics, calc_shap, get_dx, calc_pvi, calc_pdp, calc_ale,
    calc_pdp_ale.
  cbv zeta. reuses_steps fail.
Qed.

Lemma reuses_compute_wasserstein_distance A B :
  reuses ["model_class"; "fit"; "to_parquet"] (compute_wasserstein_distance A B).
Proof. unfold compute_wasserstein_distance. reuses_steps fail. Qed.

Lemma reuses_exp_results_to_df df base random compressed times seed metric :
  reuses ["model_class"; "fit"; "to_parquet"]
         (exp_results_to_df df base random compressed times seed metric).
Proof.
  unfold exp_results_to_df. cbv zeta.
  reuses_steps ltac:(apply reuses_compute_wasserstein_distance).
Qed.

Lemma reuses_draw_samples X y kernel m g seed :
  reuses ["model_class"; "fit"; "to_parquet"] (draw_samples X y kernel m g seed).
Proof.
  unfold draw_samples, np_random_choice. cbv zeta. reuses_steps fail.
Qed.

Lemma reuses_trial c kernel m g metric rs seed :
  reuses ["model_class"; "fit"; "to_parquet"] (trial c kernel m g metric rs seed).
Proof.
  unfold trial. cbv zeta.
  apply reuses_bind; [apply reuses_draw_samples | intros sm].
  apply reuses_bind; [apply reuses_calculate_metrics | intros compressed].
  apply reuses_bind; [apply reuses_calculate_metrics | intros random].
  apply reuses_bind; [apply reuses_self_base_metrics | intros base].
  apply reuses_bind; [apply reuses_get | intros s].
  apply reuses_exp_results_to_df.
Qed.

Lemma reuses_trials c kernel m g metric seeds : forall rs,
  reuses ["model_class"; "fit"; "to_parquet"] (trials c kernel m g metric seeds rs).
Proof.
  induction seeds as [| seed seeds IH]; intros rs; cbn [trials].
  - apply reuses_ret.
  - apply reuses_bind; [apply reuses_trial | intros rs1; apply IH].
Qed.

(** X8. A run uses the model and the baseline the constructor left: it
    never assigns either, and never calls the model class or [fit], however
    it ends. Without [save_path] it does not call [to_parquet] either. *)
Theorem run_reuses_trained_model c no_tests kernel m g save_path metric :
  reuses ["model_class"; "fit"]
         (run c no_tests kernel m g save_path metric)
  /\ reuses ["model_class"; "fit"; "to_parquet"]
            (run c no_tests kernel m g None metric).
Proof.
  split.
  - unfold run. apply reuses_bind.
    + apply (reuses_mono ["model_class"; "fit"; "to_parquet"]); [| apply reuses_trials].
      intros n Hn. apply elem_of_cons in Hn as [-> | Hn]; [left |].
      right. apply elem_of_cons in Hn as [-> | Hn]; [left |].
      by apply elem_of_nil in Hn.
    + intros rs. destruct save_path; reuses_steps fail.
  - unfold run. apply reuses_bind; [apply reuses_trials | intros rs].
    reuses_steps fail.
Qed.

Lemma check_config_state c (s : state) r s0 :
  check_config c s = (r, s0) -> s0 = s.
Proof.
  unfold check_config, assert, bind, ret, raise.
  repeat match goal with
         | |- context [if ?b then _ else _] => destruct b
         end; cbn; by intros [= _ <-].
Qed.

(** X9. A construction that returns has called the model class and then
    [fit] on the object it returned; the stored model is what [fit] left;
    the baseline bundle is what the metrics of the test partition gave with
    that model stored, and it has the keys of the configuration. The model
    class and [fit] are called once each, first. *)
Theorem init_establishes c (s s' : state) :
  init c s = (Ok tt, s') ->
  exists m0 s1 m s2 b s3 new,
    ext "model_class" (model_new (model_class c) (model_params c)) s
    = (Ok m0, s1)
    /\ ext "fit" (model_fit m0 (X_train (data_processor c))
                            (y_train (data_processor c)))
           (snd (set_model (Some m0) s1))
       = (Ok m, s2)
    /\ calculate_metrics c (X_test (data_processor c))
         (y_test (data_processor c)) "all" (snd (set_model (Some m) s2))
       = (Ok b, s3)
    /\ s' = snd (set_base_metrics (Some b) s3)
    /\ model s' = Some m /\ base_metrics s' = Some b
    /\ dom b = bundle_keys c
    /\ calls s' = calls s ++ ["model_class"; "fit"] ++ new
    /\ ("model_class" ∉ new) /\ ("fit" ∉ new).
Proof.
  unfold init. intros Hrun.
  apply bind_inv in Hrun as ([] & s0 & Hcheck & Hrun).
  apply check_config_state in Hcheck as ->.
  apply bind_inv in Hrun as ([] & s4 & Htrain & Hrun).
  unfold create_train_model in Htrain.
  apply bind_inv in Htrain as (m0 & s1 & Hnew & Htrain).
  apply bind_inv in Htrain as ([] & s1' & Hset & Htrain).
  injection Hset as <-.
  apply bind_inv in Htrain as (m & s2 & Hfit & Htrain).
  injection Htrain as <-.
  unfold calculate_baseline in Hrun.
  apply bind_inv in Hrun as (b & s3 & Hmetrics & Hrun).
  injection Hrun as <-.
  destruct (reuses_calculate_metrics _ _ _ _ _ _ _ Hmetrics)
    as (Hm3 & _ & new & Hcalls3 & Hnew3).
  exists m0, s1, m, s2, b, s3, new.
  split; [exact Hnew |]. split; [exact Hfit |]. split; [exact Hmetrics |].
  split; [reflexivity |]. cbn [snd set_base_metrics modify model base_metrics calls].
  split; [by rewrite Hm3 |]. split; [done |].
  split; [by eapply calculate_metrics_dom |].
  split.
  - rewrite Hcalls3. cbn [snd set_model modify calls].
    apply ext_inv in Hfit as (_ & _ & _ & _ & ->). cbn [snd set_model modify calls].
    apply ext_inv in Hnew as (_ & _ & _ & _ & ->).
    by rewrite <- !app_assoc.
  - split; apply Hnew3; [left | right; left].
Qed.

Lemma stage_lookup_None (m : bundle) on keys key :
  dom m = stage on keys -> key ∉ keys -> m !! key = None.
Proof.
  intros Hdom Hkey. apply not_elem_of_dom. rewrite Hdom.
  destruct on; cbn; set_solver.
Qed.

Lemma update_keeps A (d new : gmap string A) key :
  new !! key = None -> update d new !! key = d !! key.
Proof. intros Hnew. unfold update. by apply lookup_union_r. Qed.

Lemma calculate_metrics_sample c X y name_suffix (s s' : state) (b : bundle) :
  calculate_metrics c X y name_suffix s = (Ok b, s') ->
  b !! "X" = Some (VFrame X) /\ b !! "y" = Some (VFrame y).
Proof.
  unfold calculate_metrics. intros Hrun.
  apply bind_inv in Hrun as (sh & s1 & Hshap & Hrun).
  apply calc_shap_dom in Hshap.
  assert (forall key, key = "X" \/ key = "y" ->
            update (<["X" := VFrame X]> (<["y" := VFrame y]> ∅)) sh !! key
            = (<["X" := VFrame X]> (<["y" := VFrame y]> (∅ : bundle))) !! key)
    as Hsh.
  { intros key Hkey. apply update_keeps.
    eapply stage_lookup_None; [exact Hshap |].
    destruct Hkey as [-> | ->]; set_solver. }
  destruct (dalex_class c) as [cls |].
  - apply bind_inv in Hrun as (dx & s2 & _ & Hrun).
    apply bind_inv in Hrun as ([[pvi v] g] & s3 & Hpvi & Hrun).
    apply calc_pvi_dom in Hpvi.
    apply bind_inv in Hrun as (pdp & s4 & Hpdp & Hrun).
    apply calc_pdp_dom in Hpdp.
    apply bind_inv in Hrun as (ale & s5 & Hale & Hrun).
    apply calc_ale_dom in Hale.
    apply ret_inv in Hrun as [<- _].
    assert (forall key, key = "X" \/ key = "y" ->
              pvi !! key = None /\ pdp !! key = None /\ ale !! key = None
              /\ key <> "dx_exp") as Hnone.
    { intros key Hkey. repeat split.
      - eapply stage_lookup_None; [exact Hpvi |].
        destruct Hkey as [-> | ->]; set_solver.
      - eapply stage_lookup_None; [exact Hpdp |].
        destruct Hkey as [-> | ->]; set_solver.
      - eapply stage_lookup_None; [exact Hale |].
        destruct Hkey as [-> | ->]; set_solver.
      - destruct Hkey as [-> | ->]; discriminate. }
    split.
    + destruct (Hnone "X" (or_introl eq_refl)) as (H1 & H2 & H3 & H4).
      rewrite !update_keeps by done.
      rewrite lookup_insert_ne by done.
      rewrite Hsh by (by left). apply lookup_insert_eq.
    + destruct (Hnone "y" (or_intror eq_refl)) as (H1 & H2 & H3 & H4).
      rewrite !update_keeps by done.
      rewrite lookup_insert_ne by done.
      rewrite Hsh by (by right).
      rewrite lookup_insert_ne by discriminate. apply lookup_insert_eq.
  - apply ret_inv in Hrun as [<- _]. split.
    + rewrite Hsh by (by left). apply lookup_insert_eq.
    + rewrite Hsh by (by right).
      rewrite lookup_insert_ne by discriminate. apply lookup_insert_eq.
Qed.

(** X10. A metric bundle always holds, under [X] and [y], the very sample
    it was computed on: no explanation stage overwrites either key. *)
Theorem calculate_metrics_keeps_sample c X y name_suffix (s s' : state)
    (b : bundle) :
  calculate_metrics c X y name_suffix s = (Ok b, s') ->
  b !! "X" = Some (VFrame X) /\ b !! "y" = Some (VFrame y).
Proof. apply calculate_metrics_sample. Qed.

Lemma calls_clocked (s : state) : calls (clocked s) = calls s ++ ["time"].
Proof.
  unfold clocked, ext_total, ext. by destruct (time_time (w s)).
Qed.

Lemma times_clocked (s : state) : times (clocked s) = times s.
Proof.
  unfold clocked, ext_total, ext. by destruct (time_time (w s)).
Qed.

Lemma np_random_choice_calls n size (s : state) r s' :
  np_random_choice n size s = (r, s') ->
  calls s' = calls s ++ ["choice"] /\ times s' = times s.
Proof.
  unfold np_random_choice, ext_total. destruct (n <? size)%nat; intros Hrun;
    apply ext_inv in Hrun as (_ & _ & Ht & _ & Hc); done.
Qed.

(** X11. A draw that returns has called, in this order: the seeding of
    numpy's generator, the clock, the compression, the clock twice, the
    random choice, the clock. The generator is seeded before the
    compression and before the random control is drawn, and each of the two
    is timed on its own. *)
Theorem draw_samples_call_order X y kernel m g seed (s s' : state) sm :
  draw_samples X y kernel m g seed s = (Ok sm, s') ->
  calls s'
  = calls s ++ ["seed"; "time"; "compress"; "time"; "time"; "choice"; "time"].
Proof.
  intros Hrun.
  apply draw_samples_inv in Hrun as (s1 & s2 & Hkt & Hchoice & -> & _).
  apply ext_inv in Hkt as (_ & _ & _ & _ & Hc1).
  apply np_random_choice_calls in Hchoice as [Hc2 _].
  cbn [record calls]. rewrite calls_clocked, Hc2, calls_clocked.
  cbn [record calls]. rewrite calls_clocked, Hc1, calls_clocked.
  unfold seeded, ext_total, ext. cbn [snd calls].
  by rewrite <- !app_assoc.
Qed.

(** X12. When the compression returns more indices than the test
    partition has rows, the draw of the random control raises numpy's
    [ValueError]; the compression's time is recorded by then, the random
    draw's is not, and no slice is taken. *)
Theorem draw_samples_too_many X y kernel m g seed (s s1 : state) ids :
  ext "compress"
      (compress_compress (to_numpy X)
         (fun x => kt_thin x m kernel kernel true seed true) g)
      (clocked (seeded seed s)) = (Ok ids, s1) ->
  (nrows X < length ids)%nat ->
  exists s',
    draw_samples X y kernel m g seed s
    = (Raise (ValueError
         "Cannot take a larger sample than population when 'replace=False'"),
       s')
    /\ times s'
       = <["kt" := (reading s1 - reading (seeded seed s))%Q]> (times s).
Proof.
  intros Hkt Hlen. unfold draw_samples.
  assert (ext_total "seed" (fun w0 => (tt, np_random_seed seed w0)) s
          = (Ok tt, seeded seed s)) as Hseed by reflexivity.
  rewrite (bind_ok _ _ _ _ _ Hseed).
  rewrite (bind_ok _ _ _ _ _ (timeit_ok "kt" _ _ _ _ Hkt)).
  set (s1' := record "kt" _ _).
  destruct (np_random_choice (nrows X) (length ids) (clocked s1'))
    as [r s2] eqn:Hchoice.
  pose proof (np_random_choice_calls _ _ _ _ _ Hchoice) as [_ Ht].
  unfold np_random_choice in Hchoice.
  apply Nat.ltb_lt in Hlen. rewrite Hlen in Hchoice.
  assert (r = Raise (ValueError
            "Cannot take a larger sample than population when 'replace=False'"))
    as ->.
  { unfold ext in Hchoice. by injection Hchoice as <- _. }
  assert (np_random_choice (nrows X) (length ids) (clocked s1')
          = (Raise (ValueError
               "Cannot take a larger sample than population when 'replace=False'"),
             s2)) as Hraise.
  { unfold np_random_choice. by rewrite Hlen. }
  exists s2. split.
  - rewrite (bind_raise _ _ _ _ _ (timeit_raise "random" _ _ _ _ Hraise)).
    reflexivity.
  - rewrite Ht, times_clocked. subst s1'. cbn [record times].
    rewrite times_clocked.
    apply ext_inv in Hkt as (_ & _ & -> & _).
    rewrite times_clocked. reflexivity.
Qed.

Lemma self_model_predict_inv (s s' : state) p :
  self_model_predict s = (Ok p, s') -> s' = s.
Proof.
  unfold self_model_predict, bind, get.
  destruct (model s); [by intros [= _ <-] | discriminate].
Qed.

(** X22. The time recorded for the SHAP values is the clock's reading
    after the explainer's call less its reading before it, the explainer's
    call being the one library call between the two readings: the masker
    and the explainer are built before the clock is first read. The call
    assigns this one entry of the timing table. *)
Theorem calc_shap_times_only_the_call c X name (s s' : state) (m : bundle) cls :
  shap_class c = Some cls ->
  calc_shap c X name s = (Ok m, s') ->
  exists e s1 sv s2,
    shap_explainer c cls X s = (Ok e, s1)
    /\ ext "shap_exp" (shap_call_values e X) (clocked s1) = (Ok sv, s2)
    /\ times s' = <[name := (reading s2 - reading s1)%Q]> (times s)
    /\ calls s'
       = calls s ++ (if is_tree c then [] else ["Independent"])
                 ++ ["shap_class"; "time"; "shap_exp"; "time"].
Proof.
  intros Hcls Hrun. unfold calc_shap in Hrun. rewrite Hcls in Hrun.
  apply bind_inv in Hrun as (e & s1 & He & Hrun).
  assert (calls s1 = calls s ++ (if is_tree c then [] else ["Independent"])
                             ++ ["shap_class"]
          /\ times s1 = times s) as [Hc1 Ht1].
  { pose proof He as He'. destruct (is_tree c).
    - apply bind_inv in He' as (s0 & s0' & Hget & He').
      injection Hget as <- <-. rewrite bind_lift in He'.
      destruct (kwargs (shap_params c)); [| discriminate].
      by apply ext_inv in He' as (_ & _ & Ht & _ & Hc).
    - apply bind_inv in He' as (masker & sa & Hm & He').
      apply ext_inv in Hm as (_ & _ & Hta & _ & Hca).
      apply bind_inv in He' as (p & sb & Hp & He').
      apply self_model_predict_inv in Hp as ->.
      rewrite bind_lift in He'.
      destruct (kwargs (shap_params c)); [| discriminate].
      apply ext_inv in He' as (_ & _ & Ht & _ & Hc).
      rewrite Hc, Hca, Ht, Hta, <- app_assoc. done. }
  apply bind_inv in Hrun as (sv & s2 & Htime & Hrun).
  apply timeit_inv in Htime as (s3 & Hcall & ->).
  apply ret_inv in Hrun as [_ <-].
  exists e, s1, sv, s3. split; [exact He |]. split; [exact Hcall |].
  apply ext_inv in Hcall as (_ & _ & Ht3 & _ & Hc3).
  cbn [record calls times]. split.
  - by rewrite times_clocked, Ht3, times_clocked, Ht1.
  - rewrite calls_clocked, Hc3, calls_clocked, Hc1.
    by rewrite <- !app_assoc.
Qed.

End Frame.

Section Importance.
Context `{L : Libs}.

(** X13. The importance vector holds exactly the rows of dalex's table at
    the positions from 1 up to, and without, the number of feature columns,
    each under its position as row label: never the first row of the table,
    and no row from the number of columns on. *)
Theorem pvi_of_rows (result : list vi_row) (X : DataFrame) (i : nat) (q : Q) :
  (i, q) ∈ pvi_of result X
  <-> (1 <= i < ncols X)%nat
      /\ exists r, result !! i = Some r /\ dropout_loss r = q.
Proof.
  unfold pvi_of, sort_values_variable, iloc_slice. split.
  - intros Hin. apply list_elem_of_fmap in Hin as ([j r] & Heq & Hin).
    cbn [fst snd] in Heq. injection Heq as -> ->.
    rewrite merge_sort_Permutation in Hin.
    apply list_elem_of_lookup in Hin as (k & Hk).
    apply lookup_take_Some in Hk as [Hk Hlt].
    rewrite lookup_drop, list_lookup_imap in Hk.
    destruct (result !! (1 + k)%nat) as [r0 |] eqn:E; [| discriminate].
    cbn in Hk. injection Hk as <- <-. split; [lia | eauto].
  - intros (Hi & r & Hr & <-). apply list_elem_of_fmap. exists (i, r).
    split; [done |]. rewrite merge_sort_Permutation.
    apply list_elem_of_lookup. exists (i - 1)%nat.
    apply lookup_take_Some. split; [| lia].
    rewrite lookup_drop, list_lookup_imap.
    replace (1 + (i - 1))%nat with i by lia. by rewrite Hr.
Qed.

(** X14. When dalex's table is in increasing order of loss, the variable
    taken as the most important one is a real variable of the table, and no
    real variable has a higher loss. *)
Theorem most_important_is_highest (result : list vi_row) (v : string) :
  StronglySorted (fun r1 r2 => (dropout_loss r1 <= dropout_loss r2)%Q) result ->
  most_important result = Ok v ->
  exists r, r ∈ result /\ variable r = v /\ synthetic v = false
            /\ forall r', r' ∈ result -> synthetic (variable r') = false ->
                 (dropout_loss r' <= dropout_loss r)%Q.
Proof. apply most_important_highest. Qed.

Lemma reduce_kinds col lo hi :
  series_min col = Ok lo -> series_max col = Ok hi ->
  (lo = NaN /\ hi = NaN) \/ (exists a b, lo = Num a /\ hi = Num b).
Proof.
  unfold series_min, series_max, reduce. destruct col as [cs | ]; [| discriminate].
  destruct (numeric cs) as [[| q qs] |]; cbn [rbind]; intros [= <-] [= <-];
    [by left | right; eauto].
Qed.

Lemma last_repeat {A} (x : A) n : last (repeat x (S n)) = Some x.
Proof. induction n as [| n IH]; [done |]. exact IH. Qed.

Lemma linspace_span lo hi n grid :
  linspace lo hi n = Ok grid -> 2 <= n ->
  (lo = NaN /\ hi = NaN) \/ (exists a b, lo = Num a /\ hi = Num b) ->
  last grid = Some hi
  /\ exists first, head grid = Some first /\ same_cell first lo.
Proof.
  unfold linspace. intros Hgrid Hn Hkinds.
  destruct (n <? 0) eqn:Hneg; [discriminate |].
  assert (exists k, Z.to_nat n = S (S k)) as [k Hk].
  { exists (Z.to_nat n - 2)%nat. lia. }
  destruct Hkinds as [[-> ->] | (a & b & -> & ->)]; injection Hgrid as <-.
  - rewrite Hk. split; [apply last_repeat |]. by exists NaN.
  - assert (2 <= Z.to_nat n)%nat as Hn' by lia.
    destruct (linspace_Q_last a b _ Hn') as [Hlast _].
    split.
    + change (map Num (linspace_Q a b (Z.to_nat n)))
        with (Num <$> linspace_Q a b (Z.to_nat n)).
      by rewrite fmap_last, Hlast.
    + pose proof (linspace_Q_points a b (Z.to_nat n) 0 Hn' ltac:(lia)) as H0.
      change (map Num (linspace_Q a b (Z.to_nat n)))
        with (Num <$> linspace_Q a b (Z.to_nat n)).
      eexists. split.
      * rewrite head_lookup, list_lookup_fmap, H0. reflexivity.
      * cbn [same_cell Z.of_nat inject_Z]. ring.
Qed.

(** X15. The grid handed to the profile stages is computed on the sample
    at hand: for at least two points, it has [pdp_domain] points, starts at
    the minimum of the most important variable's column in that sample and
    ends exactly at its maximum. *)
Theorem calc_pvi_grid_span c dx X name (s s' : state) ps (m : bundle) mv mg :
  pvi_params c = Some ps ->
  2 <= pdp_domain c ->
  calc_pvi c dx X name s = (Ok (m, mv, mg), s') ->
  exists v col lo hi grid first,
    mv = Some v /\ mg = Some (v, grid)
    /\ getitem X (LStr v) = Ok col
    /\ series_min col = Ok lo /\ series_max col = Ok hi
    /\ length grid = Z.to_nat (pdp_domain c)
    /\ head grid = Some first /\ same_cell first lo
    /\ last grid = Some hi.
Proof.
  intros Hps Hn Hrun.
  destruct (calc_pvi_grid _ _ _ _ _ _ _ _ _ _ Hps Hrun)
    as (result & v & col & lo & hi & grid
        & _ & -> & -> & _ & Hcol & Hlo & Hhi & Hgrid & Hlen).
  destruct (linspace_span _ _ _ _ Hgrid Hn (reduce_kinds _ _ _ Hlo Hhi))
    as (Hlast & first & Hhead & Hsame).
  exists v, col, lo, hi, grid, first. repeat split; assumption.
Qed.

End Importance.

Section Rows.
Context `{L : Libs}.

Lemma run_inv c no_tests kernel m g save_path metric (s s' : state) rs :
  run c no_tests kernel m g save_path metric s = (Ok rs, s') ->
  exists s1, trials c kernel m g metric (range no_tests) [] s = (Ok rs, s1).
Proof.
  unfold run. intros Hrun.
  apply bind_inv in Hrun as (rs1 & s1 & Htrials & Hrun).
  apply bind_inv in Hrun as ([] & s2 & _ & Hrun).
  apply ret_inv in Hrun as [<- _]. eauto.
Qed.

(** X16. The table a run returns has one row per seed, labelled by the
    seeds [0, 1, ..., no_tests - 1] in this order. *)
Theorem run_row_labels c no_tests kernel m g save_path metric
    (s s' : state) rs :
  run c no_tests kernel m g save_path metric s = (Ok rs, s') ->
  map fst rs = range no_tests /\ length rs = Z.to_nat no_tests.
Proof.
  intros Hrun. apply run_inv in Hrun as (s1 & Htrials).
  apply trials_rows in Htrials as (new & -> & Hnew).
  rewrite app_nil_l. split; [done |].
  rewrite <- (length_map fst), Hnew. unfold range.
  by rewrite length_map, length_seq.
Qed.

(** X17. With no test to run, and nothing to save, a run returns the empty
    table and leaves the harness and the libraries untouched: nothing is
    seeded, compressed, explained or printed. *)
Theorem run_without_trials c no_tests kernel m g metric (s : state) :
  no_tests <= 0 ->
  run c no_tests kernel m g None metric s = (Ok [], s).
Proof.
  intros Hn. unfold run, range.
  replace (Z.to_nat no_tests) with 0%nat by lia. reflexivity.
Qed.

Lemma sequence_raise {A} (rs : list (res A)) : forall i e,
  rs !! i = Some (Raise e) -> exists e', sequence rs = Raise e'.
Proof.
  induction rs as [| r rs IH]; intros [| i] e Hi; try discriminate.
  - injection Hi as ->. by exists e.
  - destruct (IH _ _ Hi) as [e' He']. cbn [sequence].
    destruct r as [x | e0]; cbn [rbind]; [| by exists e0].
    rewrite He'. by exists e'.
Qed.

(** X18. The distance is taken column by column over the columns of the
    first array: when the second array has fewer columns, both shapes are
    printed and the call ends in an exception, never in a number. *)
Theorem compute_wasserstein_distance_fewer_columns (A B : ndarray) (s : state) :
  (shape1 B < shape1 A)%nat ->
  (exists e, fst (compute_wasserstein_distance A B s) = Raise e)
  /\ stdout (snd (compute_wasserstein_distance A B s))
     = stdout s ++ [PrShape (shape0 A) (shape1 A);
                    PrShape (shape0 B) (shape1 B)].
Proof.
  intros Hlt. split; [| apply compute_wasserstein_distance_prints].
  rewrite compute_wasserstein_distance_value.
  set (f := fun i : nat => _).
  assert (map f (seq 0 (shape1 A)) !! shape1 B = Some (Raise IndexError))
    as Hat.
  { change (map f (seq 0 (shape1 A))) with (f <$> seq 0 (shape1 A)).
    rewrite list_lookup_fmap, lookup_seq_lt by done.
    cbn [fmap option_fmap option_map Nat.add].
    f_equal. subst f. cbn beta. unfold column_of.
    apply Nat.ltb_lt in Hlt. rewrite Hlt. cbn [rbind].
    by rewrite Nat.ltb_irrefl. }
  destruct (sequence_raise _ _ _ Hat) as [e' He'].
  rewrite He'. by exists e'.
Qed.

Lemma dom_update_row (d new : row) : dom (update d new) = dom new ∪ dom d.
Proof. unfold update. apply dom_union_L. Qed.

Lemma calculate_diffs_dom (base random compressed : bundle) e k d :
  calculate_diffs base random compressed e k = Ok d ->
  dom d = diff_columns base e k.
Proof.
  unfold calculate_diffs, diff_columns, has_key.
  destruct (base !! k) as [b |].
  - rewrite bool_decide_eq_true_2 by eauto. cbn [stage]. intros Hd.
    repeat match type of Hd with
           | rbind ?r _ = _ =>
               destruct r; cbn [rbind] in Hd; [| discriminate Hd]
           end.
    injection Hd as <-. rewrite !dom_insert_L, dom_empty_L. set_solver.
  - intros [= <-].
    rewrite bool_decide_eq_false_2 by (intros [? ?]; discriminate).
    apply dom_empty_L.
Qed.

(** X19. The row a trial adds has these columns and no other: one
    [time_] column per entry of the timing table, the two distances between
    the samples, and, gated on the keys of the baseline bundle alone, the
    model performance, the two differences of each metric, and the two
    distances between the SHAP values. *)
Theorem exp_results_to_df_columns df (base random compressed : bundle)
    (times : gmap string Q) seed metric (s s' : state) rs' :
  exp_results_to_df df base random compressed times seed metric s
  = (Ok rs', s') ->
  exists r, rs' = df ++ [(seed, r)] /\ dom r = row_columns base times.
Proof.
  unfold exp_results_to_df. cbv zeta. intros Hrun.
  rewrite bind_lift in Hrun.
  destruct (let? x := item base "X" in frame_numpy x) as [bx |];
    [| discriminate].
  apply bind_inv in Hrun as ([] & s1 & _ & Hrun).
  apply bind_inv in Hrun as (row1 & s2 & Hrow1 & Hrun).
  assert (dom row1 = stage (has_key base "dx_exp") {["model_performance"]})
    as Hd1.
  { unfold has_key. revert Hrow1.
    destruct (base !! "dx_exp") as [v |]; intros Hrow1.
    - rewrite bool_decide_eq_true_2 by eauto. cbn [stage].
      destruct v; try discriminate Hrow1.
      inv_bind Hrow1. subst row1.
      rewrite dom_update_row, dom_insert_L, !dom_empty_L. set_solver.
    - apply ret_inv in Hrow1 as [<- _].
      rewrite bool_decide_eq_false_2 by (intros [? ?]; discriminate).
      apply dom_empty_L. }
  rewrite bind_lift in Hrun. cbn [diffs_loop] in Hrun.
  destruct (calculate_diffs base random compressed "svi" "shap_svi")
    as [d1 |] eqn:E1; cbn [rbind] in Hrun; [| discriminate].
  destruct (calculate_diffs base random compressed "pvi" "pvi")
    as [d2 |] eqn:E2; cbn [rbind] in Hrun; [| discriminate].
  destruct (calculate_diffs base random compressed "pdp" "pdp")
    as [d3 |] eqn:E3; cbn [rbind] in Hrun; [| discriminate].
  destruct (calculate_diffs base random compressed "ale" "ale")
    as [d4 |] eqn:E4; cbn [rbind] in Hrun; [| discriminate].
  apply calculate_diffs_dom in E1, E2, E3, E4.
  rewrite bind_lift in Hrun.
  destruct (let? x := item random "X" in frame_numpy x) as [rx |];
    [| discriminate].
  apply bind_inv in Hrun as (wd_r & s3 & _ & Hrun).
  rewrite bind_lift in Hrun.
  destruct (let? x := item compressed "X" in frame_numpy x) as [cx |];
    [| discriminate].
  apply bind_inv in Hrun as (wd_c & s4 & _ & Hrun).
  apply bind_inv in Hrun as (row3 & s5 & Hsv & Hrun).
  apply ret_inv in Hrun as [<- _].
  exists row3. split; [reflexivity |].
  assert (dom (time_columns times)
          = (set_map (String.append "time_") (dom times) : gset string))
    as Htimes.
  { unfold time_columns. apply (dom_kmap_L (String.append "time_")). }
  unfold row_columns, has_key. revert Hsv.
  destruct (base !! "shap_sv") as [b |]; intros Hsv.
  - rewrite (bool_decide_eq_true_2 (is_Some (Some b))) by eauto.
    cbn [stage]. inv_bind Hsv. subst row3.
    rewrite !dom_update_row, !dom_insert_L, !dom_empty_L.
    rewrite Htimes, E1, E2, E3, E4, Hd1. unfold has_key.
    apply set_eq. intros col. rewrite !elem_of_union, !elem_of_empty. tauto.
  - rewrite (bool_decide_eq_false_2 (is_Some None))
      by (intros [? ?]; discriminate).
    cbn [stage]. apply ret_inv in Hsv as [<- _].
    rewrite !dom_update_row, !dom_insert_L, !dom_empty_L.
    rewrite Htimes, E1, E2, E3, E4, Hd1. unfold has_key.
    apply set_eq. intros col. rewrite !elem_of_union, !elem_of_empty. tauto.
Qed.

Lemma writes_mono {A} keys keys' (c : M state A) :
  (forall k, k ∈ keys -> k ∈ keys') -> writes keys c -> writes keys' c.
Proof.
  intros Hsub Hc s r s' Hrun k Hk. eapply Hc; [exact Hrun |].
  intros Hin. apply Hk, Hsub, Hin.
Qed.

Lemma writes_draw_samples X y kernel m g seed :
  writes ["kt"; "random"] (draw_samples X y kernel m g seed).
Proof.
  unfold draw_samples.
  apply writes_bind; [apply writes_ext_total | intros _].
  apply writes_bind;
    [apply writes_timeit; [set_solver | apply writes_ext] | intros ids].
  apply writes_bind.
  { apply writes_timeit; [set_solver |]. unfold np_random_choice.
    destruct (_ <? _)%nat; [apply writes_ext | apply writes_ext_total]. }
  intros ids'.
  repeat (apply writes_bind; [apply writes_lift | intros ?]).
  apply writes_ret.
Qed.

Lemma writes_trial c kernel m g metric rs seed :
  writes trial_timers (trial c kernel m g metric rs seed).
Proof.
  unfold trial, trial_timers. cbv zeta.
  apply writes_bind.
  { apply (writes_mono ["kt"; "random"]); [| apply writes_draw_samples].
    intros k Hk. apply elem_of_app. by left. }
  intros sm. apply writes_bind.
  { apply (writes_mono (metric_timers "compressed"));
      [| apply writes_calculate_metrics].
    intros k Hk. apply elem_of_app. right. apply elem_of_app. by left. }
  intros cm. apply writes_bind.
  { apply (writes_mono (metric_timers "random"));
      [| apply writes_calculate_metrics].
    intros k Hk. apply elem_of_app. right. apply elem_of_app. by right. }
  intros rm. apply writes_bind.
  { apply writes_bind; [apply writes_get | intros s0].
    destruct (base_metrics s0); [apply writes_ret | apply writes_raise]. }
  intros base. apply writes_bind; [apply writes_get | intros s0].
  apply (writes_mono []); [| apply writes_exp_results_to_df].
  intros k Hk. by apply elem_of_nil in Hk.
Qed.

(** What a trial hands to [exp_results_to_df]: the baseline stored in the
    harness and the timing table as its own measurements left it. *)
Lemma trial_call c kernel m g metric rs seed (s s' : state) rs' :
  trial c kernel m g metric rs seed s = (Ok rs', s') ->
  exists (base random compressed : bundle) (s4 : state),
    base_metrics s = Some base
    /\ exp_results_to_df rs base random compressed (times s4) seed metric s4
       = (Ok rs', s')
    /\ times s' = times s4.
Proof.
  unfold trial. cbv zeta. intros Hrun.
  apply bind_inv in Hrun as (sm & s1 & Hdraw & Hrun).
  apply bind_inv in Hrun as (cm & s2 & Hcm & Hrun).
  apply bind_inv in Hrun as (rm & s3 & Hrm & Hrun).
  apply bind_inv in Hrun as (base & s4 & Hbase & Hrun).
  apply bind_inv in Hrun as (s5 & s6 & Hget & Hrun).
  injection Hget as <- <-.
  destruct (reuses_draw_samples _ _ _ _ _ _ _ _ _ Hdraw) as (_ & Hb1 & _).
  destruct (reuses_calculate_metrics _ _ _ _ _ _ _ Hcm) as (_ & Hb2 & _).
  destruct (reuses_calculate_metrics _ _ _ _ _ _ _ Hrm) as (_ & Hb3 & _).
  unfold self_base_metrics, bind, get in Hbase.
  destruct (base_metrics s3) as [b |] eqn:Hb; [| discriminate].
  injection Hbase as <- <-.
  exists b, rm, cm, s3. split; [congruence |]. split; [exact Hrun |].
  apply map_eq. intros k.
  apply (writes_exp_results_to_df _ _ _ _ _ _ _ _ _ _ Hrun k).
  apply not_elem_of_nil.
Qed.

(** X20. A trial assigns only its own entries of the timing table: the
    two of the draw and those of the metrics of its two samples. Every
    other entry, the timings of the baseline among them, stays as it was
    and is repeated, under its [time_] column, in the row of the trial. *)
Theorem trial_repeats_other_timings c kernel m g metric rs seed
    (s s' : state) rs' k v :
  trial c kernel m g metric rs seed s = (Ok rs', s') ->
  k ∉ trial_timers ->
  times s !! k = Some v ->
  times s' !! k = Some v
  /\ exists r, rs' = rs ++ [(seed, r)] /\ r !! ("time_" +:+ k) = Some v.
Proof.
  intros Hrun Hk Hv.
  pose proof (writes_trial _ _ _ _ _ _ _ _ _ _ Hrun k Hk) as Hsame.
  rewrite Hv in Hsame. split; [exact Hsame |].
  apply trial_row in Hrun as (r & _ & _ & -> & Hr & _).
  exists r. split; [reflexivity |]. by apply Hr.
Qed.

End Rows.

Lemma init_establishes_witness :
  exists s' m0 s1 m s2 b s3 new,
    init (L := Fixtures.libs) Fixtures.full Fixtures.start = (Ok tt, s')
    /\ ext (L := Fixtures.libs) "model_class"
           (model_new (Libs := Fixtures.libs) (model_class Fixtures.full)
                      (model_params Fixtures.full)) Fixtures.start
       = (Ok m0, s1)
    /\ ext (L := Fixtures.libs) "fit"
           (model_fit (Libs := Fixtures.libs) m0
              (X_train (data_processor Fixtures.full))
              (y_train (data_processor Fixtures.full)))
           (snd (set_model (Some m0) s1))
       = (Ok m, s2)
    /\ calculate_metrics Fixtures.full (X_test (data_processor Fixtures.full))
         (y_test (data_processor Fixtures.full)) "all"
         (snd (set_model (Some m) s2))
       = (Ok b, s3)
    /\ s' = snd (set_base_metrics (Some b) s3)
    /\ model s' = Some m /\ base_metrics s' = Some b
    /\ dom b = bundle_keys Fixtures.full
    /\ calls s' = calls Fixtures.start ++ ["model_class"; "fit"] ++ new
    /\ ("model_class" ∉ new) /\ ("fit" ∉ new).
Proof.
  destruct (init (L := Fixtures.libs) Fixtures.full Fixtures.start)
    as [[[] | e] s'] eqn:Hrun.
  - destruct (init_establishes (L := Fixtures.libs) Fixtures.full
                Fixtures.start s' Hrun)
      as (m0 & s1 & m & s2 & b & s3 & new & Hall).
    exists s', m0, s1, m, s2, b, s3, new. split; [reflexivity | exact Hall].
  - exfalso. apply (f_equal (fun r => is_ok (fst r))) in Hrun.
    vm_compute in Hrun. discriminate Hrun.
Defined.

Lemma calculate_metrics_keeps_sample_witness :
  exists b s',
    calculate_metrics (L := Fixtures.libs) Fixtures.full Fixtures.features
      Fixtures.targets "all" (Fixtures.built Fixtures.full) = (Ok b, s')
    /\ b !! "X" = Some (VFrame Fixtures.features)
    /\ b !! "y" = Some (VFrame Fixtures.targets).
Proof.
  destruct (calculate_metrics (L := Fixtures.libs) Fixtures.full
              Fixtures.features Fixtures.targets "all"
              (Fixtures.built Fixtures.full)) as [[b | e] s'] eqn:Hrun.
  - exists b, s'. split; [reflexivity |].
    exact (calculate_metrics_keeps_sample (L := Fixtures.libs) Fixtures.full
             Fixtures.features Fixtures.targets "all"
             (Fixtures.built Fixtures.full) s' b Hrun).
  - exfalso. apply (f_equal (fun r => is_ok (fst r))) in Hrun.
    vm_compute in Hrun. discriminate Hrun.
Defined.

Lemma draw_samples_call_order_witness :
  exists sm s',
    draw_samples (L := Fixtures.libs) Fixtures.features Fixtures.targets
                 tt 1 0 0 Fixtures.start = (Ok sm, s')
    /\ calls s'
       = calls Fixtures.start
         ++ ["seed"; "time"; "compress"; "time"; "time"; "choice"; "time"].
Proof.
  destruct (draw_samples (L := Fixtures.libs) Fixtures.features
              Fixtures.targets tt 1 0 0 Fixtures.start)
    as [[sm | e] s'] eqn:Hrun.
  - exists sm, s'. split; [reflexivity |].
    exact (draw_samples_call_order (L := Fixtures.libs) Fixtures.features
             Fixtures.targets tt 1 0 0 Fixtures.start s' sm Hrun).
  - exfalso. apply (f_equal (fun r => is_ok (fst r))) in Hrun.
    vm_compute in Hrun. discriminate Hrun.
Defined.

Lemma draw_samples_too_many_witness :
  exists s',
    draw_samples (L := Fixtures.libs) Fixtures.one_row Fixtures.one_label
                 tt 1 0 0 Fixtures.start
    = (Raise (ValueError
         "Cannot take a larger sample than population when 'replace=False'"),
       s')
    /\ times s'
       = <["kt" := (reading (L := Fixtures.libs)
                      (snd (ext (L := Fixtures.libs) "compress"
                              (compress_compress (Libs := Fixtures.libs)
                                 (to_numpy Fixtures.one_row)
                                 (fun x => kt_thin (Libs := Fixtures.libs)
                                             x 1 tt tt true 0 true) 0)
                              (clocked (seeded 0 Fixtures.start))))
                    - reading (seeded 0 Fixtures.start))%Q]>
           (times Fixtures.start).
Proof.
  apply (draw_samples_too_many (L := Fixtures.libs) Fixtures.one_row
           Fixtures.one_label tt 1 0 0 Fixtures.start _ [0; 2]).
  - reflexivity.
  - cbn. lia.
Defined.

Lemma most_important_is_highest_witness :
  exists r, r ∈ Fixtures.importance_table /\ variable r = "a"
            /\ synthetic "a" = false
            /\ forall r', r' ∈ Fixtures.importance_table ->
                 synthetic (variable r') = false ->
                 (dropout_loss r' <= dropout_loss r)%Q.
Proof.
  apply (most_important_is_highest Fixtures.importance_table "a").
  - repeat constructor; unfold Qle; cbn; lia.
  - reflexivity.
Defined.

Lemma calc_pvi_grid_span_witness :
  exists m mv mg s' v col lo hi grid first,
    calc_pvi (L := Fixtures.libs) Fixtures.full tt Fixtures.features "pvi_all"
             Fixtures.start = (Ok (m, mv, mg), s')
    /\ mv = Some v /\ mg = Some (v, grid)
    /\ getitem Fixtures.features (LStr v) = Ok col
    /\ series_min col = Ok lo /\ series_max col = Ok hi
    /\ length grid = Z.to_nat (pdp_domain Fixtures.full)
    /\ head grid = Some first /\ same_cell first lo
    /\ last grid = Some hi.
Proof.
  destruct (calc_pvi (L := Fixtures.libs) Fixtures.full tt Fixtures.features
              "pvi_all" Fixtures.start) as [[[[m mv] mg] | e] s'] eqn:Hrun.
  - destruct (calc_pvi_grid_span (L := Fixtures.libs) Fixtures.full tt
                Fixtures.features "pvi_all" Fixtures.start s' ∅ m mv mg
                eq_refl ltac:(cbn; lia) Hrun)
      as (v & col & lo & hi & grid & first & Hall).
    exists m, mv, mg, s', v, col, lo, hi, grid, first.
    split; [reflexivity | exact Hall].
  - exfalso. apply (f_equal (fun r => is_ok (fst r))) in Hrun.
    vm_compute in Hrun. discriminate Hrun.
Defined.

Lemma run_row_labels_witness :
  exists rs s',
    run (L := Fixtures.libs) Fixtures.shap_only 2 tt 1 0 None "accuracy"
        (Fixtures.built Fixtures.shap_only) = (Ok rs, s')
    /\ map fst rs = range 2 /\ length rs = Z.to_nat 2.
Proof.
  destruct (run (L := Fixtures.libs) Fixtures.shap_only 2 tt 1 0 None
              "accuracy" (Fixtures.built Fixtures.shap_only))
    as [[rs | e] s'] eqn:Hrun.
  - exists rs, s'. split; [reflexivity |].
    exact (run_row_labels (L := Fixtures.libs) Fixtures.shap_only 2 tt 1 0
             None "accuracy" (Fixtures.built Fixtures.shap_only) s' rs Hrun).
  - exfalso. apply (f_equal (fun r => is_ok (fst r))) in Hrun.
    vm_compute in Hrun. discriminate Hrun.
Defined.

Lemma run_without_trials_witness :
  run (L := Fixtures.libs) Fixtures.full 0 tt 1 0 None "accuracy"
      Fixtures.start = (Ok [], Fixtures.start).
Proof.
  apply (run_without_trials (L := Fixtures.libs) Fixtures.full 0 tt 1 0
           "accuracy" Fixtures.start).
  lia.
Defined.

Lemma compute_wasserstein_distance_fewer_columns_witness :
  (exists e,
     fst (compute_wasserstein_distance (L := Fixtures.libs)
            (to_numpy Fixtures.features) (to_numpy Fixtures.one_row)
            Fixtures.start) = Raise e)
  /\ stdout (snd (compute_wasserstein_distance (L := Fixtures.libs)
                    (to_numpy Fixtures.features) (to_numpy Fixtures.one_row)
                    Fixtures.start))
     = stdout Fixtures.start
       ++ [PrShape (shape0 (to_numpy Fixtures.features))
                   (shape1 (to_numpy Fixtures.features));
           PrShape (shape0 (to_numpy Fixtures.one_row))
                   (shape1 (to_numpy Fixtures.one_row))].
Proof.
  apply (compute_wasserstein_distance_fewer_columns (L := Fixtures.libs)
           (to_numpy Fixtures.features) (to_numpy Fixtures.one_row)
           Fixtures.start).
  cbn. lia.
Defined.

Lemma exp_results_to_df_columns_witness :
  exists rs' s' r (base : bundle),
    trial (L := Fixtures.libs) Fixtures.full tt 1 0 "accuracy" [] 0
          (Fixtures.built Fixtures.full) = (Ok rs', s')
    /\ base_metrics (Fixtures.built Fixtures.full) = Some base
    /\ rs' = [] ++ [(0, r)]
    /\ dom r = row_columns base (times s')
    /\ size (dom r) = 27%nat
    /\ Forall (fun k => is_Some (r !! k))
         ["model_performance"; "svi_random"; "pvi_compressed"; "pdp_random";
          "ale_compressed"; "time_kt"; "time_random"; "time_sv_all";
          "time_pvi_random"; "time_ale_compressed"; "wd_random";
          "wd_compressed"; "sv_wd_random"; "sv_wd_compressed"].
Proof.
  assert (match trial (L := Fixtures.libs) Fixtures.full tt 1 0 "accuracy"
                  [] 0 (Fixtures.built Fixtures.full) with
          | (Ok [(_, r)], _) =>
              (size (dom r) =? 27)%nat
              && forallb (fun k => bool_decide (is_Some (r !! k)))
                   ["model_performance"; "svi_random"; "pvi_compressed";
                    "pdp_random"; "ale_compressed"; "time_kt"; "time_random";
                    "time_sv_all"; "time_pvi_random"; "time_ale_compressed";
                    "wd_random"; "wd_compressed"; "sv_wd_random";
                    "sv_wd_compressed"]
          | _ => false
          end = true) as Hcheck by (vm_compute; reflexivity).
  destruct (trial (L := Fixtures.libs) Fixtures.full tt 1 0 "accuracy" [] 0
              (Fixtures.built Fixtures.full))
    as [[rs' | e] s'] eqn:Hrun; [| discriminate Hcheck].
  destruct (trial_call _ _ _ _ _ _ _ _ _ _ Hrun)
    as (base & random & compressed & s4 & Hbase & Hexp & Htimes).
  destruct (exp_results_to_df_columns (L := Fixtures.libs) [] base random
              compressed (times s4) 0 "accuracy" s4 s' rs' Hexp)
    as (r & Hrs & Hdom).
  subst rs'. cbn [app] in Hcheck.
  apply andb_true_iff in Hcheck as [Hsize Hkeys].
  exists [(0, r)], s', r, base.
  split; [reflexivity |]. split; [exact Hbase |]. split; [reflexivity |].
  split; [by rewrite Htimes |]. split; [by apply Nat.eqb_eq |].
  apply Forall_forall. intros k Hk.
  rewrite forallb_forall in Hkeys.
  apply list_elem_of_In in Hk. apply Hkeys in Hk.
  by apply bool_decide_eq_true_1 in Hk.
Defined.

Lemma trial_repeats_other_timings_witness :
  exists rs' s',
    trial (L := Fixtures.libs) Fixtures.shap_only tt 1 0 "accuracy" [] 0
          (Fixtures.built Fixtures.shap_only) = (Ok rs', s')
    /\ times s' !! "sv_all" = Some 1%Q
    /\ exists r, rs' = [] ++ [(0, r)]
                 /\ r !! ("time_" +:+ "sv_all") = Some 1%Q.
Proof.
  assert (times (Fixtures.built Fixtures.shap_only) !! "sv_all" = Some 1%Q)
    as Hall.
  { apply reads_spec. vm_compute. reflexivity. }
  destruct (trial (L := Fixtures.libs) Fixtures.shap_only tt 1 0 "accuracy"
              [] 0 (Fixtures.built Fixtures.shap_only))
    as [[rs' | e] s'] eqn:Hrun.
  - exists rs', s'. split; [reflexivity |].
    apply (trial_repeats_other_timings (L := Fixtures.libs)
             Fixtures.shap_only tt 1 0 "accuracy" [] 0
             (Fixtures.built Fixtures.shap_only) s' rs' "sv_all" 1%Q Hrun);
      [| exact Hall].
    unfold trial_timers, metric_timers. cbn. not_named.
  - exfalso. apply (f_equal (fun r => is_ok (fst r))) in Hrun.
    vm_compute in Hrun. discriminate Hrun.
Defined.

Lemma calc_shap_times_only_the_call_witness :
  exists m s' e s1 sv s2,
    calc_shap (L := Fixtures.libs) Fixtures.shap_only Fixtures.features
              "sv_all" Fixtures.start = (Ok m, s')
    /\ shap_explainer (L := Fixtures.libs) Fixtures.shap_only "TreeExplainer"
         Fixtures.features Fixtures.start = (Ok e, s1)
    /\ ext (L := Fixtures.libs) "shap_exp"
           (shap_call_values (Libs := Fixtures.libs) e Fixtures.features)
           (clocked s1) = (Ok sv, s2)
    /\ times s'
       = <["sv_all" := (reading s2 - reading s1)%Q]> (times Fixtures.start)
    /\ calls s'
       = calls Fixtures.start
         ++ (if is_tree Fixtures.shap_only then [] else ["Independent"])
         ++ ["shap_class"; "time"; "shap_exp"; "time"].
Proof.
  destruct (calc_shap (L := Fixtures.libs) Fixtures.shap_only
              Fixtures.features "sv_all" Fixtures.start)
    as [[m | e0] s'] eqn:Hrun.
  - destruct (calc_shap_times_only_the_call (L := Fixtures.libs)
                Fixtures.shap_only Fixtures.features "sv_all" Fixtures.start
                s' m "TreeExplainer" eq_refl Hrun)
      as (e & s1 & sv & s2 & Hall).
    exists m, s', e, s1, sv, s2. split; [reflexivity | exact Hall].
  - exfalso. apply (f_equal (fun r => is_ok (fst r))) in Hrun.
    vm_compute in Hrun. discriminate Hrun.
Defined.

End ExperimentMore.
